(** * PhotoGPT: the embedding retrieval engine

    A shallow embedding of [src/faiss_utils.py] (FaissIndexManager),
    [src/online_query.py] (PhotoRetriever), [src/person_manager.py]
    (PersonManager) and of the semantic-search guard of [app.py].

    Conventions.
    - A float is the rational [Q] it denotes.  Comparisons, and the sum and
      the quotient of the statistics, are those of [Q].  The one numpy
      expression whose rounding decides an outcome, the similarity
      [1 - dist / 2], rounds each result with [np_float], the rounding of the
      format numpy computes in.
    - A Python [str] is the string of the bytes of its UTF-8 encoding.
    - numpy integers and Python ints are [Z]; [len] is a [nat].
    - A Python [dict] keeps insertion order: it is an association list whose
      update replaces in place or appends.
    - Python exceptions are values of [exn]; a method is a state transformer
      that returns its outcome together with the state reached, because
      whatever was assigned before a [raise] stays assigned.
    - FAISS, the CLIP/MediaPipe models, [json], [os], numpy's rounding, the
      Unicode case tables of [str.lower] and float formatting are outside the
      repository: they are the fields of the class [Env].
      Console output ([print]) is not modelled. *)

From Stdlib Require Import List String Ascii ZArith QArith Bool Lia.
From Stdlib Require Import Permutation Sorted DecimalString.
Import ListNotations.

Set Implicit Arguments.

(* ================================================================== *)
(** * Python runtime *)
(* ================================================================== *)

Module Py.

Inductive exn : Type :=
| ValueError (msg : string)
| FileNotFoundError (msg : string)
| TypeError (msg : string)
| IndexError (msg : string)
| AttributeError (msg : string)
| ZeroDivisionError (msg : string)
| LibraryError (msg : string).   (* anything an external library raises *)

(** [str(e)] *)
Definition exn_str (e : exn) : string :=
  match e with
  | ValueError m | FileNotFoundError m | TypeError m | IndexError m
  | AttributeError m | ZeroDivisionError m | LibraryError m => m
  end.

Definition is_FileNotFoundError (e : exn) : bool :=
  match e with FileNotFoundError _ => true | _ => false end.

Inductive res (A : Type) : Type :=
| Ok (a : A)
| Raise (e : exn).
Arguments Raise {A} e.

(** A computation over a mutable state [S]: the state survives a raise. *)
Definition M (S A : Type) : Type := S -> res A * S.

Definition ret {S A} (a : A) : M S A := fun s => (Ok a, s).
Definition raise {S A} (e : exn) : M S A := fun s => (Raise e, s).
Definition bind {S A B} (c : M S A) (k : A -> M S B) : M S B :=
  fun s => match c s with
           | (Ok a, s') => k a s'
           | (Raise e, s') => (Raise e, s')
           end.
Definition get {S} : M S S := fun s => (Ok s, s).
Definition put {S} (s : S) : M S unit := fun _ => (Ok tt, s).
Definition modify {S} (f : S -> S) : M S unit := fun s => (Ok tt, f s).

(** [try: c except Exception as e: h e] *)
Definition try_except {S A} (c : M S A) (h : exn -> M S A) : M S A :=
  fun s => match c s with
           | (Ok a, s') => (Ok a, s')
           | (Raise e, s') => h e s'
           end.

(** [try: c except <class>: h e], for the exceptions selected by [caught] *)
Definition try_except_on {S A} (caught : exn -> bool) (c : M S A) (h : exn -> M S A)
  : M S A :=
  fun s => match c s with
           | (Ok a, s') => (Ok a, s')
           | (Raise e, s') => if caught e then h e s' else (Raise e, s')
           end.

(** Run a computation on one component of the state. *)
Definition zoom {S T A} (proj : S -> T) (upd : T -> S -> S) (c : M T A) : M S A :=
  fun s => let '(r, t) := c (proj s) in (r, upd t s).

(** ** Truthiness and comparisons *)

Definition Qgeb (a b : Q) : bool := Qle_bool b a.          (* a >= b *)
Definition Qgtb (a b : Q) : bool := negb (Qle_bool a b).   (* a > b  *)

(** [bool(s)] for an [Optional[str]]: [None] and [''] are falsy. *)
Definition truthy (s : option string) : bool :=
  match s with
  | None => false
  | Some EmptyString => false
  | Some _ => true
  end.

(** ** Strings *)

(** The characters [str.strip()] removes are those for which [str.isspace()]
    holds: U+0009..U+000D, U+001C..U+0020, U+0085, U+00A0, U+1680,
    U+2000..U+200A, U+2028, U+2029, U+202F, U+205F and U+3000.  In UTF-8 they
    take one, two or three bytes. *)
Definition is_space1 (c : ascii) : bool :=
  let n := nat_of_ascii c in
  ((Nat.leb 9 n && Nat.leb n 13) || (Nat.leb 28 n && Nat.leb n 32))%bool.

(** U+0085 and U+00A0 *)
Definition is_space2 (c1 c2 : ascii) : bool :=
  let n1 := nat_of_ascii c1 in
  let n2 := nat_of_ascii c2 in
  (Nat.eqb n1 194 && (Nat.eqb n2 133 || Nat.eqb n2 160))%bool.

(** U+1680; U+2000..U+200A, U+2028, U+2029, U+202F; U+205F; U+3000 *)
Definition is_space3 (c1 c2 c3 : ascii) : bool :=
  let n1 := nat_of_ascii c1 in
  let n2 := nat_of_ascii c2 in
  let n3 := nat_of_ascii c3 in
  ((Nat.eqb n1 225 && Nat.eqb n2 154 && Nat.eqb n3 128)
   || (Nat.eqb n1 226 && Nat.eqb n2 128
       && ((Nat.leb 128 n3 && Nat.leb n3 138)
           || Nat.eqb n3 168 || Nat.eqb n3 169 || Nat.eqb n3 175))
   || (Nat.eqb n1 226 && Nat.eqb n2 129 && Nat.eqb n3 159)
   || (Nat.eqb n1 227 && Nat.eqb n2 128 && Nat.eqb n3 128))%bool.

(** [s.lstrip()] *)
Fixpoint lstrip (s : string) : string :=
  match s with
  | EmptyString => EmptyString
  | String c1 s1 =>
      if is_space1 c1 then lstrip s1
      else
        match s1 with
        | EmptyString => s
        | String c2 s2 =>
            if is_space2 c1 c2 then lstrip s2
            else
              match s2 with
              | EmptyString => s
              | String c3 s3 => if is_space3 c1 c2 c3 then lstrip s3 else s
              end
        end
  end.

(** [s.isspace()], or [s] is empty *)
Definition all_space (s : string) : bool :=
  match lstrip s with
  | EmptyString => true
  | String _ _ => false
  end.

(** [s.rstrip()]: the shortest prefix that is followed by white space only.
    No white-space character starts with a continuation byte, so the cut
    never falls inside a character. *)
Fixpoint rstrip (s : string) : string :=
  match s with
  | EmptyString => EmptyString
  | String c s' => if all_space s then EmptyString else String c (rstrip s')
  end.

(** [s.strip()] *)
Definition strip (s : string) : string := rstrip (lstrip s).

(** [str(n)] for a non-negative int *)
Definition str_of_nat (n : nat) : string := NilEmpty.string_of_uint (Nat.to_uint n).

(** [str(z)] for an int *)
Definition str_of_Z (z : Z) : string := NilEmpty.string_of_int (Z.to_int z).

(** [os.path.dirname] (posixpath): everything up to the last ['/'], with
    trailing slashes removed unless the head consists of slashes only. *)
Definition slash : ascii := "/"%char.

Fixpoint all_slashes (s : string) : bool :=
  match s with
  | EmptyString => true
  | String c s' => (Ascii.eqb c slash && all_slashes s')%bool
  end.

(** [p[:p.rfind('/')+1]] *)
Fixpoint head_upto_last_slash (p : string) : string :=
  match p with
  | EmptyString => EmptyString
  | String c p' =>
      match head_upto_last_slash p' with
      | EmptyString => if Ascii.eqb c slash then String c EmptyString else EmptyString
      | h => String c h
      end
  end.

Fixpoint rstrip_slash (s : string) : string :=
  match s with
  | EmptyString => EmptyString
  | String c s' =>
      match rstrip_slash s' with
      | EmptyString => if Ascii.eqb c slash then EmptyString else String c EmptyString
      | r => String c r
      end
  end.

Definition dirname (p : string) : string :=
  let head := head_upto_last_slash p in
  if all_slashes head then head else rstrip_slash head.

(** ** Lists *)

(** [l[i]] with Python's negative indices. *)
Definition getitem {A} (l : list A) (i : Z) : res A :=
  let n := Z.of_nat (List.length l) in
  let j := if (i <? 0)%Z then (i + n)%Z else i in
  if ((0 <=? j) && (j <? n))%bool%Z then
    match nth_error l (Z.to_nat j) with
    | Some a => Ok a
    | None => Raise (IndexError "list index out of range")
    end
  else Raise (IndexError "list index out of range").

(** [sum(l)]: a left fold that starts from 0. *)
Definition sum (l : list Q) : Q := fold_left Qplus l 0.

(** [a / n] for a float [a] and an int [n] *)
Definition truediv (a : Q) (n : nat) : res Q :=
  match n with
  | O => Raise (ZeroDivisionError "float division by zero")
  | _ => Ok (a / inject_Z (Z.of_nat n))
  end.

(** [l.sort(key=key, reverse=True)]: stable, descending by key; an element
    is moved only past elements with a strictly greater key. *)
Fixpoint insert_desc {A} (key : A -> Q) (x : A) (l : list A) : list A :=
  match l with
  | [] => [x]
  | y :: l' => if Qgtb (key y) (key x) then y :: insert_desc key x l'
               else x :: l
  end.

Definition sort_desc {A} (key : A -> Q) (l : list A) : list A :=
  fold_right (insert_desc key) [] l.

(** The order [sort_desc] establishes. *)
Definition key_ge {A} (key : A -> Q) (a b : A) : Prop := (key b <= key a)%Q.

(** [sorted(l)] on strings: ascending by code point, which is the order of
    the bytes of the UTF-8 encodings. *)
Fixpoint insert_str (x : string) (l : list string) : list string :=
  match l with
  | [] => [x]
  | y :: l' => if String.ltb y x then y :: insert_str x l' else x :: l
  end.

Definition sorted (l : list string) : list string := fold_right insert_str [] l.

(** ** Insertion-ordered dictionaries with string keys *)

Section Dict.
Variable V : Type.

Definition dict : Type := list (string * V).

Fixpoint dict_get (d : dict) (k : string) : option V :=
  match d with
  | [] => None
  | (k', v) :: d' => if String.eqb k' k then Some v else dict_get d' k
  end.

(** [k in d] *)
Definition dict_contains (d : dict) (k : string) : bool :=
  match dict_get d k with Some _ => true | None => false end.

(** [d[k] = v]: an existing key keeps its position. *)
Fixpoint dict_set (d : dict) (k : string) (v : V) : dict :=
  match d with
  | [] => [(k, v)]
  | (k', v') :: d' =>
      if String.eqb k' k then (k', v) :: d' else (k', v') :: dict_set d' k v
  end.

(** [del d[k]] *)
Fixpoint dict_del (d : dict) (k : string) : dict :=
  match d with
  | [] => []
  | (k', v') :: d' => if String.eqb k' k then d' else (k', v') :: dict_del d' k
  end.

Definition dict_keys (d : dict) : list string := map fst d.
Definition dict_values (d : dict) : list V := map snd d.
Definition dict_items (d : dict) : list (string * V) := d.
End Dict.

End Py.

Import Py.

Declare Scope py_scope.
Delimit Scope py_scope with py.
Notation "x <- c ;; k" := (Py.bind c (fun x => k))
  (at level 100, c at next level, right associativity) : py_scope.
Notation "c ;;; k" := (Py.bind c (fun _ => k))
  (at level 100, right associativity) : py_scope.

Local Open Scope py_scope.
Local Open Scope string_scope.
Local Open Scope Z_scope.

(* ================================================================== *)
(** * Data *)
(* ================================================================== *)

(** A numpy vector of floats. *)
Definition embedding : Type := list Q.

(** One metadata record of [metadata.json].  [item_id] and [image_path] are
    written by both indexing modes; [mode], [bbox] and [det_score] are read
    with [dict.get] and a default, so they may be absent. *)
Module Meta.
Record t : Type := mk
  { item_id : Z;
    image_path : string;
    mode : option string;
    bbox : option (list Z);
    det_score : option Q }.
End Meta.

(** What [json.load] returns for a metadata file: the list of records that
    [save_metadata] wrote, or a JSON value that has no [len()] ([null],
    [true], [false] or a number), known by the name of its Python type.  A
    file whose top-level value is a JSON string or object is outside the
    model. *)
Inductive loaded_metadata : Type :=
| Records (md : list Meta.t)
| Unsized (type_name : string).

(** An entry of the list returned by [search_with_threshold]. *)
Module Match.
Record t : Type := mk
  { face_id : Z;
    similarity : Q;
    distance : Q;
    metadata : option Meta.t }.   (* [None] past the end of the metadata *)
End Match.

Module Face.
Record t : Type := mk
  { bbox : list Z;
    similarity : Q;
    det_score : Q }.
End Face.

(** A value of [photo_groups] while the matches are being grouped. *)
Module Group.
Record t : Type := mk
  { image_path : string;
    faces : list Face.t;
    max_similarity : Q;
    avg_similarity : Q }.
End Group.

(** An element of [result['matches']].  Full-image entries carry
    ['similarity'] and no ['faces']; face-mode entries the converse. *)
Module Photo.
Record t : Type := mk
  { image_path : string;
    similarity : option Q;
    faces : option (list Face.t);
    max_similarity : Q;
    avg_similarity : Q;
    num_matches : nat }.
End Photo.

Inductive query_info : Type :=
| NoInfo                                                        (* [{}] *)
| TextQuery (query_text : string) (embedding_dim : nat) (similarity_threshold : Q)
| FaceQuery (selfie_path : string) (embedding_dim : nat) (similarity_threshold : Q)
| RegisteredPerson (person_name : option string) (embedding_dim : nat)
                   (similarity_threshold : Q).

(** The dictionary returned by [find_photos] and [find_photos_by_embedding]. *)
Module Result.
Record t : Type := mk
  { success : bool;
    message : string;
    info : query_info;
    matches : list Photo.t;
    total_photos : nat }.

Definition initial : t :=
  {| success := false; message := ""; info := NoInfo; matches := [];
     total_photos := 0%nat |}.

Definition set_message (r : t) (m : string) : t :=
  {| success := success r; message := m; info := info r; matches := matches r;
     total_photos := total_photos r |}.

Definition set_info (r : t) (q : query_info) : t :=
  {| success := success r; message := message r; info := q; matches := matches r;
     total_photos := total_photos r |}.
End Result.

(** The dictionary returned by [register_person]. *)
Module RegResult.
Record t : Type := mk { success : bool; message : string }.
End RegResult.

(** A stored person profile. *)
Module Profile.
Record t : Type := mk { embedding : list Q; selfie_path : string }.
End Profile.

(* ================================================================== *)
(** * External collaborators *)
(* ================================================================== *)

(** Calls that leave the repository, in the order they are made. *)
Inductive event : Type :=
| EncodeText (text : string)
| ExtractSingleFace (image_path : string)
| IndexSearch (k : Z).

Class Env : Type :=
  { (** the file system *)
    Fs : Type;
    os_path_exists : string -> Fs -> bool;
    (** [os.makedirs(d, exist_ok=True)] *)
    os_makedirs : string -> Fs -> res unit * Fs;

    (** [faiss.IndexFlatL2] objects *)
    FaissIndex : Type;
    (** [IndexFlatL2(dim)] followed by [add(rows)] *)
    faiss_build : Z -> list embedding -> FaissIndex;
    faiss_ntotal : FaissIndex -> Z;
    (** [index.search(query, k)]: the first row of distances and of labels *)
    faiss_search : FaissIndex -> embedding -> Z -> res (list Q * list Z);
    faiss_write_index : FaissIndex -> string -> Fs -> res unit * Fs;
    faiss_read_index : string -> Fs -> res FaissIndex;

    (** [open] with [json.dump] / [json.load] *)
    json_dump_metadata : list Meta.t -> string -> Fs -> res unit * Fs;
    json_load_metadata : string -> Fs -> res loaded_metadata;
    json_dump_profiles : dict Profile.t -> string -> Fs -> res unit * Fs;
    json_load_profiles : string -> Fs -> res (dict Profile.t);

    (** [FaceProcessor] (MediaPipe detection and CLIP encoders): its
        constructor, and the two methods the query path calls *)
    new_face_processor : res unit;
    encode_text : string -> res embedding;
    extract_single_face_embedding : string -> Fs -> res (option embedding);

    (** [f"{x}"] for a float *)
    str_of_float : Q -> string;

    (** [s.lower()], with the case tables of the interpreter *)
    lower : string -> string;

    (** the float numpy returns where the exact result of an operation on
        float32 scalars is [q]: a nearest number of the floating-point
        format it computes in *)
    np_float : Q -> Q }.

(** What a method can touch outside its object: the disk, and the record of
    the calls made to the models and to the index. *)
Record World `{Env} : Type := mkWorld
  { fs : Fs;
    trace : list event }.

Section WithEnv.
Context `{E : Env}.

Definition log_world (e : event) (w : World) : World :=
  {| fs := fs w; trace := (trace w ++ [e])%list |}.

Definition set_fs (f : Fs) (w : World) : World :=
  {| fs := f; trace := trace w |}.

(** Lift a call that may write to the disk. *)
Definition on_fs {A} (c : Fs -> res A * Fs) : M World A :=
  fun w => let '(r, f) := c (fs w) in (r, set_fs f w).

(** Lift a call that only reads the disk. *)
Definition read_fs {A} (c : Fs -> res A) : M World A :=
  fun w => (c (fs w), w).

Definition lift_res {S A} (r : res A) : M S A := fun s => (r, s).

End WithEnv.

(* ================================================================== *)
(** * faiss_utils.py: FaissIndexManager *)
(* ================================================================== *)

Module FaissIndexManager.
Section WithEnv.
Context `{E : Env}.

Record t : Type := mk
  { embedding_dim : Z;
    index : option FaissIndex;
    metadata : list Meta.t }.

(** [__init__] *)
Definition init (embedding_dim : Z) : t :=
  {| embedding_dim := embedding_dim; index := None; metadata := [] |}.

Definition set_index (ix : option FaissIndex) (self : t) : t :=
  {| embedding_dim := embedding_dim self; index := ix; metadata := metadata self |}.

Definition set_metadata (md : list Meta.t) (self : t) : t :=
  {| embedding_dim := embedding_dim self; index := index self; metadata := md |}.

(** A method runs on the object and on the world. *)
Definition St : Type := (t * World)%type.

Definition self_ {A} (c : M t A) : M St A :=
  zoom fst (fun x (s : St) => (x, snd s)) c.
Definition world {A} (c : M World A) : M St A :=
  zoom snd (fun w (s : St) => (fst s, w)) c.

(** A two-dimensional array: its second dimension and its rows. *)
Record ndarray2 : Type := mkArray { shape1 : Z; rows : list embedding }.

Definition create_index (embeddings : ndarray2) : M St unit :=
  self <- self_ get ;;
  if negb (shape1 embeddings =? embedding_dim self) then
    raise (ValueError ("Expected embedding dimension " ++ str_of_Z (embedding_dim self)
                       ++ ", got " ++ str_of_Z (shape1 embeddings)))
  else
    self_ (modify (set_index
                     (Some (faiss_build (embedding_dim self) (rows embeddings))))).

Definition save_index (index_path : string) : M St unit :=
  self <- self_ get ;;
  match index self with
  | None => raise (ValueError "No index to save. Create index first.")
  | Some ix =>
      world (on_fs (os_makedirs (dirname index_path))) ;;;
      world (on_fs (faiss_write_index ix index_path))
  end.

Definition load_index (index_path : string) : M St unit :=
  ex <- world (read_fs (fun f => Ok (os_path_exists index_path f))) ;;
  if negb ex then
    raise (FileNotFoundError ("Index file not found: " ++ index_path))
  else
    ix <- world (read_fs (faiss_read_index index_path)) ;;
    self_ (modify (set_index (Some ix))).

Definition save_metadata (md : list Meta.t) (metadata_path : string) : M St unit :=
  self_ (modify (set_metadata md)) ;;;
  world (on_fs (os_makedirs (dirname metadata_path))) ;;;
  world (on_fs (json_dump_metadata md metadata_path)).

(** How [load_metadata] ends.  [self.metadata] is assigned what [json.load]
    returned before its [len()] is taken for the report: the call returns
    the records, which the manager now holds; or it raises before the
    assignment; or it raises at [len(self.metadata)], and the manager is left
    holding a value of the Python type [held] in place of its metadata, its
    other attributes and the world being as before. *)
Inductive loaded : Type :=
| Returned (md : list Meta.t) (s : St)
| Raised (e : exn) (s : St)
| Raised_after_assignment (e : exn) (held : string)
                          (embedding_dim : Z) (index : option FaissIndex) (w : World).

Definition load_metadata (metadata_path : string) (s : St) : loaded :=
  if negb (os_path_exists metadata_path (fs (snd s))) then
    Raised (FileNotFoundError ("Metadata file not found: " ++ metadata_path)) s
  else
    match json_load_metadata metadata_path (fs (snd s)) with
    | Raise e => Raised e s
    | Ok (Records md) => Returned md (set_metadata md (fst s), snd s)
    | Ok (Unsized type_name) =>
        Raised_after_assignment
          (TypeError ("object of type '" ++ type_name ++ "' has no len()"))
          type_name (embedding_dim (fst s)) (index (fst s)) (snd s)
    end.

(** [search] reads the object only. *)
Definition search (self : t) (query_embedding : embedding) (k : Z)
  : M World (list Q * list Z) :=
  match index self with
  | None => raise (ValueError "No index loaded. Load or create index first.")
  | Some ix =>
      modify (log_world (IndexSearch k)) ;;;
      lift_res (faiss_search ix query_embedding k)
  end.

(** [1 - (dist / 2)] for a numpy float32 [dist]: the quotient and the
    difference are numpy scalars, each the rounding of its exact value. *)
Definition cosine_of_distance (dist : Q) : Q := np_float (1 - np_float (dist / 2))%Q.

(** [self.metadata[idx] if idx < len(self.metadata) else None] *)
Definition metadata_at (md : list Meta.t) (idx : Z) : res (option Meta.t) :=
  if idx <? Z.of_nat (List.length md) then
    match getitem md idx with
    | Ok m => Ok (Some m)
    | Raise e => Raise e
    end
  else Ok None.

(** The [for dist, idx in zip(distances, indices)] loop. *)
Fixpoint filter_candidates (md : list Meta.t) (similarity_threshold : Q)
                           (cands : list (Q * Z)) : res (list Match.t) :=
  match cands with
  | [] => Ok []
  | (dist, idx) :: rest =>
      if idx =? -1 then filter_candidates md similarity_threshold rest
      else
        let cosine_similarity := cosine_of_distance dist in
        if Qgeb cosine_similarity similarity_threshold then
          match metadata_at md idx with
          | Raise e => Raise e
          | Ok m =>
              match filter_candidates md similarity_threshold rest with
              | Raise e => Raise e
              | Ok results =>
                  Ok ({| Match.face_id := idx;
                         Match.similarity := cosine_similarity;
                         Match.distance := dist;
                         Match.metadata := m |} :: results)
              end
          end
        else filter_candidates md similarity_threshold rest
  end.

Definition search_with_threshold (self : t) (query_embedding : embedding)
                                 (similarity_threshold : Q) (max_results : Z)
  : M World (list Match.t) :=
  found <- search self query_embedding max_results ;;
  let '(distances, indices) := found in
  results <- lift_res (filter_candidates (metadata self) similarity_threshold
                                         (combine distances indices)) ;;
  ret (sort_desc Match.similarity results).

End WithEnv.
End FaissIndexManager.

(* ================================================================== *)
(** * online_query.py: PhotoRetriever *)
(* ================================================================== *)

Module PhotoRetriever.
Section WithEnv.
Context `{E : Env}.

(** The face processor holds models only; it is part of [Env]. *)
Record t : Type := mk { index_manager : FaissIndexManager.t }.

(** [__init__].  The [try] block holds both loads; its handler catches
    [FileNotFoundError] only, reports and re-raises it, and any other
    exception propagates.  So whatever either load raises leaves [__init__]
    unchanged, and no retriever is constructed.  The handler is written
    around [load_index]; what [load_metadata] raises is passed on, which is
    what the handler does with it. *)
Definition init (index_path metadata_path : string) : M World t :=
  fun w =>
    let models_and_index : M FaissIndexManager.St unit :=
      lift_res new_face_processor ;;;
      try_except_on is_FileNotFoundError
        (FaissIndexManager.load_index index_path)
        (fun e => raise e) in
    match models_and_index (FaissIndexManager.init 512, w) with
    | (Raise e, (_, w')) => (Raise e, w')
    | (Ok _, s) =>
        match FaissIndexManager.load_metadata metadata_path s with
        | FaissIndexManager.Returned _ (mgr, w') => (Ok {| index_manager := mgr |}, w')
        | FaissIndexManager.Raised e (_, w') => (Raise e, w')
        | FaissIndexManager.Raised_after_assignment e _ _ _ w' => (Raise e, w')
        end
    end.

(** [metadata['image_path']] where [metadata] may be [None] *)
Definition image_path_of (md : option Meta.t) : res string :=
  match md with
  | Some m => Ok (Meta.image_path m)
  | None => Raise (TypeError "'NoneType' object is not subscriptable")
  end.

(** [self.index_manager.metadata[0].get('mode', 'face')], and ['face'] for
    an empty metadata list *)
Definition index_mode (md : list Meta.t) : string :=
  match md with
  | m0 :: _ => match Meta.mode m0 with Some s => s | None => "face" end
  | [] => "face"
  end.

(** Full-image mode: the [for match in matches] loop. *)
Fixpoint wrap_full_image (matches : list Match.t) : res (list Photo.t) :=
  match matches with
  | [] => Ok []
  | m :: rest =>
      match image_path_of (Match.metadata m) with
      | Raise e => Raise e
      | Ok path =>
          match wrap_full_image rest with
          | Raise e => Raise e
          | Ok photos =>
              Ok ({| Photo.image_path := path;
                     Photo.similarity := Some (Match.similarity m);
                     Photo.faces := None;
                     Photo.max_similarity := Match.similarity m;
                     Photo.avg_similarity := Match.similarity m;
                     Photo.num_matches := 1 |} :: photos)
          end
      end
  end.

Definition new_group (image_path : string) : Group.t :=
  {| Group.image_path := image_path; Group.faces := [];
     Group.max_similarity := 0; Group.avg_similarity := 0 |}.

Definition face_info (md : option Meta.t) (sim : Q) : Face.t :=
  {| Face.bbox := match md with
                  | Some m => match Meta.bbox m with Some b => b | None => [0; 0; 0; 0] end
                  | None => [0; 0; 0; 0]
                  end;
     Face.similarity := sim;
     Face.det_score := match md with
                       | Some m => match Meta.det_score m with Some d => d | None => 1%Q end
                       | None => 1%Q
                       end |}.

(** [photo_groups[image_path]['faces'].append(face_info)] followed by the
    update of ['max_similarity'] when the new similarity is greater. *)
Definition add_face (g : Group.t) (f : Face.t) : Group.t :=
  let faces' := (Group.faces g ++ [f])%list in
  {| Group.image_path := Group.image_path g;
     Group.faces := faces';
     Group.max_similarity :=
       if Qgtb (Face.similarity f) (Group.max_similarity g)
       then Face.similarity f else Group.max_similarity g;
     Group.avg_similarity := Group.avg_similarity g |}.

(** One iteration of the grouping loop. *)
Definition group_step (photo_groups : dict Group.t) (m : Match.t)
  : res (dict Group.t) :=
  match image_path_of (Match.metadata m) with
  | Raise e => Raise e
  | Ok path =>
      let photo_groups :=
        if dict_contains photo_groups path then photo_groups
        else dict_set photo_groups path (new_group path) in
      match dict_get photo_groups path with
      | None => Raise (LibraryError "KeyError")
      | Some g =>
          Ok (dict_set photo_groups path
                (add_face g (face_info (Match.metadata m) (Match.similarity m))))
      end
  end.

Fixpoint group_matches (photo_groups : dict Group.t) (matches : list Match.t)
  : res (dict Group.t) :=
  match matches with
  | [] => Ok photo_groups
  | m :: rest =>
      match group_step photo_groups m with
      | Raise e => Raise e
      | Ok photo_groups' => group_matches photo_groups' rest
      end
  end.

(** The body of [for photo_info in photo_groups.values()]. *)
Definition finish_group (g : Group.t) : res Photo.t :=
  let similarities := map Face.similarity (Group.faces g) in
  match truediv (Py.sum similarities) (List.length similarities) with
  | Raise e => Raise e
  | Ok avg =>
      Ok {| Photo.image_path := Group.image_path g;
            Photo.similarity := None;
            Photo.faces := Some (Group.faces g);
            Photo.max_similarity := Group.max_similarity g;
            Photo.avg_similarity := avg;
            Photo.num_matches := List.length (Group.faces g) |}
  end.

Fixpoint finish_groups (gs : list Group.t) : res (list Photo.t) :=
  match gs with
  | [] => Ok []
  | g :: rest =>
      match finish_group g with
      | Raise e => Raise e
      | Ok p =>
          match finish_groups rest with
          | Raise e => Raise e
          | Ok ps => Ok (p :: ps)
          end
      end
  end.

(** Face mode: group by image, then compute the statistics. *)
Definition aggregate_faces (matches : list Match.t) : res (list Photo.t) :=
  match group_matches [] matches with
  | Raise e => Raise e
  | Ok photo_groups => finish_groups (dict_values photo_groups)
  end.

Definition found (r : Result.t) (photos : list Photo.t) (msg : string) : Result.t :=
  {| Result.success := true; Result.message := msg; Result.info := Result.info r;
     Result.matches := photos; Result.total_photos := List.length photos |}.

(** The query embedding of [find_photos], or the result returned early. *)
Definition query_embedding_of (result : Result.t) (selfie_path text_query : option string)
                              (similarity_threshold : Q)
  : M World (Result.t + embedding * Result.t) :=
  if truthy text_query then
    let text := match text_query with Some s => s | None => "" end in
    modify (log_world (EncodeText text)) ;;;
    q <- lift_res (encode_text text) ;;
    ret (inr (q, Result.set_info result
                   (TextQuery text (List.length q) similarity_threshold)))
  else
    let path := match selfie_path with Some s => s | None => "" end in
    modify (log_world (ExtractSingleFace path)) ;;;
    q <- read_fs (extract_single_face_embedding path) ;;
    match q with
    | None =>
        ret (inl (Result.set_message result
          "No face detected in selfie or multiple faces found. Please upload a clear selfie with only one face."))
    | Some q =>
        ret (inr (q, Result.set_info result
                       (FaceQuery path (List.length q) similarity_threshold)))
    end.

Definition find_photos (self : t) (selfie_path text_query : option string)
                       (similarity_threshold : Q) (max_results : Z)
  : M World Result.t :=
  let result := Result.initial in
  if (negb (truthy selfie_path) && negb (truthy text_query))%bool then
    ret (Result.set_message result
           "Please provide either a selfie or a text description.")
  else if (truthy selfie_path && truthy text_query)%bool then
    ret (Result.set_message result
           "Please provide only one: selfie OR text description.")
  else
    qe <- query_embedding_of result selfie_path text_query similarity_threshold ;;
    match qe with
    | inl early => ret early
    | inr (query_embedding, result) =>
        matches <- FaissIndexManager.search_with_threshold
                     (index_manager self) query_embedding
                     similarity_threshold max_results ;;
        if (List.length matches =? 0)%nat then
          ret (Result.set_message result
                 ("No confident matches found (threshold: "
                  ++ str_of_float similarity_threshold
                  ++ "). Try lowering the threshold."))
        else
          let mode := index_mode (FaissIndexManager.metadata (index_manager self)) in
          matched_photos <- lift_res (if String.eqb mode "full_image"
                                      then wrap_full_image matches
                                      else aggregate_faces matches) ;;
          let matched_photos := sort_desc Photo.max_similarity matched_photos in
          ret (found result matched_photos
                 ("Found " ++ str_of_nat (List.length matched_photos)
                  ++ " photos matching your query"))
    end.

(** [person_name if person_name else d] *)
Definition name_or (person_name : option string) (d : string) : string :=
  if truthy person_name then match person_name with Some s => s | None => d end
  else d.

Definition find_photos_by_embedding (self : t) (query_embedding : embedding)
                                    (similarity_threshold : Q) (max_results : Z)
                                    (person_name : option string)
  : M World Result.t :=
  let result := Result.initial in
  (* the banner reads [self.index_manager.index.ntotal] *)
  match FaissIndexManager.index (index_manager self) with
  | None => raise (AttributeError "'NoneType' object has no attribute 'ntotal'")
  | Some _ =>
      let result := Result.set_info result
                      (RegisteredPerson person_name (List.length query_embedding)
                                        similarity_threshold) in
      matches <- FaissIndexManager.search_with_threshold
                   (index_manager self) query_embedding
                   similarity_threshold max_results ;;
      if (List.length matches =? 0)%nat then
        ret (Result.set_message result
               ("No photos found for " ++ name_or person_name "this person"
                ++ ". Try lowering the threshold."))
      else
        matched_photos <- lift_res (aggregate_faces matches) ;;
        let matched_photos := sort_desc Photo.max_similarity matched_photos in
        ret (found result matched_photos
               ("Found " ++ str_of_nat (List.length matched_photos)
                ++ " event photo(s) containing "
                ++ name_or person_name "this person"))
  end.

End WithEnv.
End PhotoRetriever.

(* ================================================================== *)
(** * person_manager.py: PersonManager *)
(* ================================================================== *)

Module PersonManager.
Section WithEnv.
Context `{E : Env}.

Record t : Type := mk
  { profiles_path : string;
    profiles : dict Profile.t;      (* name -> {embedding, selfie_path} *)
    face_processor : bool }.        (* [false] is [None] *)

Definition set_profiles (d : dict Profile.t) (self : t) : t :=
  {| profiles_path := profiles_path self; profiles := d;
     face_processor := face_processor self |}.

Definition set_face_processor (b : bool) (self : t) : t :=
  {| profiles_path := profiles_path self; profiles := profiles self;
     face_processor := b |}.

Definition St : Type := (t * World)%type.

Definition self_ {A} (c : M t A) : M St A :=
  zoom fst (fun x (s : St) => (x, snd s)) c.
Definition world {A} (c : M World A) : M St A :=
  zoom snd (fun w (s : St) => (fst s, w)) c.

Definition _init_face_processor : M St unit :=
  self <- self_ get ;;
  if face_processor self then ret tt
  else lift_res new_face_processor ;;; self_ (modify (set_face_processor true)).

(** [for name, profile in data.items(): self.profiles[name] = ...] *)
Definition dict_of_items (items : list (string * Profile.t)) : dict Profile.t :=
  fold_left (fun d kv => dict_set d (fst kv) (snd kv)) items [].

Definition load_profiles : M St unit :=
  self <- self_ get ;;
  ex <- world (read_fs (fun f => Ok (os_path_exists (profiles_path self) f))) ;;
  if ex then
    data <- world (read_fs (json_load_profiles (profiles_path self))) ;;
    self_ (modify (set_profiles (dict_of_items (dict_items data))))
  else
    self_ (modify (set_profiles [])).

Definition save_profiles : M St unit :=
  self <- self_ get ;;
  world (on_fs (os_makedirs (dirname (profiles_path self)))) ;;;
  world (on_fs (json_dump_profiles (dict_of_items (dict_items (profiles self)))
                                   (profiles_path self))).

(** [__init__] *)
Definition init (profiles_path : string) : M World t :=
  fun w =>
    let self := {| profiles_path := profiles_path; profiles := [];
                   face_processor := false |} in
    match load_profiles (self, w) with
    | (Ok _, (self', w')) => (Ok self', w')
    | (Raise e, (_, w')) => (Raise e, w')
    end.

Definition register_person (name selfie_path : string) : M St RegResult.t :=
  let name := strip name in
  if String.eqb name "" then
    ret (RegResult.mk false "Please enter a name")
  else
    ex <- world (read_fs (fun f => Ok (os_path_exists selfie_path f))) ;;
    if negb ex then
      ret (RegResult.mk false ("Selfie file not found: " ++ selfie_path))
    else
      _init_face_processor ;;;
      try_except
        (world (modify (log_world (ExtractSingleFace selfie_path))) ;;;
         emb <- world (read_fs (extract_single_face_embedding selfie_path)) ;;
         match emb with
         | None =>
             ret (RegResult.mk false
               "No face detected in selfie. Please upload a clear selfie with one face.")
         | Some emb =>
             self_ (modify (fun self =>
               set_profiles (dict_set (profiles self) name
                               (Profile.mk emb selfie_path)) self)) ;;;
             save_profiles ;;;
             ret (RegResult.mk true ("✅ Successfully registered " ++ name ++ "!"))
         end)
        (fun e => ret (RegResult.mk false ("Error processing selfie: " ++ exn_str e))).

(** The first stored entry whose lower-cased name equals [name.lower()]. *)
Fixpoint find_ci (items : list (string * Profile.t)) (name : string)
  : option (string * Profile.t) :=
  match items with
  | [] => None
  | (stored_name, profile) :: rest =>
      if String.eqb (lower stored_name) (lower name) then Some (stored_name, profile)
      else find_ci rest name
  end.

Definition get_person_embedding (self : t) (name : string) : option embedding :=
  match find_ci (dict_items (profiles self)) name with
  | Some (_, profile) => Some (Profile.embedding profile)
  | None => None
  end.

Definition get_all_names (self : t) : list string :=
  Py.sorted (dict_keys (profiles self)).

Definition remove_person (name : string) : M St bool :=
  self <- self_ get ;;
  if dict_contains (profiles self) name then
    self_ (modify (set_profiles (dict_del (profiles self) name))) ;;;
    save_profiles ;;;
    ret true
  else ret false.

(** The profile with its stored name, or [None]. *)
Definition get_profile (self : t) (name : string) : option (string * Profile.t) :=
  find_ci (dict_items (profiles self)) name.

End WithEnv.
End PersonManager.

(* ================================================================== *)
(** * app.py: the semantic-search handler *)
(* ================================================================== *)

Module App.
Section WithEnv.
Context `{E : Env}.

(** What the handler leaves on the page: an [st.error] message, or the
    result stored in [st.session_state.semantic_matches]. *)
Inductive outcome : Type :=
| StError (msg : string)
| SemanticMatches (r : Result.t).

Definition mode_error : string :=
  "❌ Semantic search requires the index to be built in 'full_image' mode!".

(** The block run when the search button is pressed with a non-empty query. *)
Definition semantic_search (index_path metadata_path semantic_query : string)
                           (similarity_threshold : Q) : M World outcome :=
  r <- try_except
         (retriever <- PhotoRetriever.init index_path metadata_path ;;
          ret (inr retriever))
         (fun e => ret (inl ("Error loading models: " ++ exn_str e))) ;;
  match r with
  | inl msg => ret (StError msg)
  | inr retriever =>
      let md := FaissIndexManager.metadata (PhotoRetriever.index_manager retriever) in
      if ((0 <? List.length md)%nat
          && negb (String.eqb (PhotoRetriever.index_mode md) "full_image"))%bool then
        ret (StError mode_error)
      else
        match FaissIndexManager.index (PhotoRetriever.index_manager retriever) with
        | None => raise (AttributeError "'NoneType' object has no attribute 'ntotal'")
        | Some _ =>
            result <- PhotoRetriever.find_photos retriever None (Some semantic_query)
                        similarity_threshold 100 ;;
            ret (SemanticMatches result)
        end
  end.

End WithEnv.
End App.

(* ================================================================== *)
(** * A reference environment *)
(* ================================================================== *)

(** A small executable environment, used to run the model on concrete
    inputs: an in-memory disk, and an index that keeps its rows and is
    searched exhaustively by squared Euclidean distance.  Its arithmetic is
    exact unless single precision is asked for, and its [lower] folds the
    letters A to Z, which is [str.lower()] on ASCII names. *)
Module Ref.

Definition lower_ascii (c : ascii) : ascii :=
  let n := nat_of_ascii c in
  if (Nat.leb 65 n && Nat.leb n 90)%bool then ascii_of_nat (n + 32) else c.

Fixpoint lower_A_to_Z (s : string) : string :=
  match s with
  | EmptyString => EmptyString
  | String c s' => String (lower_ascii c) (lower_A_to_Z s')
  end.

(** ** IEEE 754 binary32, round to nearest, ties to even *)

(** [2 ^ e] for an integer exponent *)
Definition pow2 (e : Z) : Q :=
  if 0 <=? e then inject_Z (2 ^ e) else (1 / inject_Z (2 ^ (- e)))%Q.

(** The integer [e] with [2 ^ e <= n / d < 2 ^ (e + 1)], for positive [n], [d] *)
Definition floor_log2 (n d : Z) : Z :=
  let e := Z.log2 n - Z.log2 d in
  let below := if 0 <=? e then n <? d * 2 ^ e else n * 2 ^ (- e) <? d in
  if below then e - 1 else e.

(** The integer nearest to [a / b] for positive [b], the even one at a tie *)
Definition round_half_even (a b : Z) : Z :=
  let q := a / b in
  let r := a mod b in
  match 2 * r ?= b with
  | Lt => q
  | Gt => q + 1
  | Eq => if Z.even q then q else q + 1
  end.

(** The float32 nearest to [q]: a multiple of [2 ^ (e - 23)], with [e] the
    exponent of [q] and at least -126 (below the overflow threshold, which no
    value of this development approaches). *)
Definition binary32 (q : Q) : Q :=
  if Qnum q =? 0 then 0%Q
  else
    let e := Z.max (floor_log2 (Z.abs (Qnum q)) (Zpos (Qden q))) (-126) in
    let quantum := pow2 (e - 23) in
    let scaled := (q / quantum)%Q in
    (inject_Z (round_half_even (Qnum scaled) (Zpos (Qden scaled))) * quantum)%Q.

Inductive file : Type :=
| Dir
| IndexFile (rows : list embedding)
| MetadataFile (md : list Meta.t)
| JsonFile (type_name : string)       (* [null], [true], [false] or a number *)
| ProfilesFile (d : dict Profile.t)
| ImageFile (single_face : option embedding).

Definition disk : Type := dict file.

Definition makedirs (d : string) (f : disk) : res unit * disk :=
  if String.eqb d "" then (Raise (FileNotFoundError "[Errno 2] No such file or directory: ''"), f)
  else match dict_get f d with
       | None => (Ok tt, dict_set f d Dir)
       | Some Dir => (Ok tt, f)
       | Some _ => (Raise (LibraryError "FileExistsError"), f)
       end.

Definition write (x : file) (path : string) (f : disk) : res unit * disk :=
  (Ok tt, dict_set f path x).

Definition read_index (path : string) (f : disk) : res (list embedding) :=
  match dict_get f path with
  | Some (IndexFile rows) => Ok rows
  | _ => Raise (LibraryError "RuntimeError: could not read index")
  end.

Definition read_metadata (path : string) (f : disk) : res loaded_metadata :=
  match dict_get f path with
  | Some (MetadataFile md) => Ok (Records md)
  | Some (JsonFile type_name) => Ok (Unsized type_name)
  | _ => Raise (LibraryError "JSONDecodeError")
  end.

Definition read_profiles (path : string) (f : disk) : res (dict Profile.t) :=
  match dict_get f path with
  | Some (ProfilesFile d) => Ok d
  | _ => Raise (LibraryError "JSONDecodeError")
  end.

Definition read_face (path : string) (f : disk) : res (option embedding) :=
  match dict_get f path with
  | Some (ImageFile e) => Ok e
  | _ => Raise (ValueError ("Unable to read image: " ++ path))
  end.

(** Squared Euclidean distance. *)
Definition sq_dist (a b : embedding) : Q :=
  fold_left (fun acc p => (acc + (fst p - snd p) * (fst p - snd p))%Q) (combine a b) 0%Q.

Fixpoint enumerate {A} (i : Z) (l : list A) : list (Z * A) :=
  match l with
  | [] => []
  | x :: l' => (i, x) :: enumerate (i + 1) l'
  end.

(** The largest float32, which FAISS stores next to the label -1. *)
Definition FLT_MAX : Q := inject_Z 340282346638528859811704183484516925440.

(** Exhaustive search: ascending distance, equal distances by ascending
    label, padded with the label -1 up to [k] entries. *)
Definition exact_search (rows : list embedding) (query : embedding) (k : Z)
  : res (list Q * list Z) :=
  if k <=? 0 then Raise (LibraryError "AssertionError")
  else
    let scored := map (fun p => (sq_dist query (snd p), fst p)) (enumerate 0 rows) in
    let ranked := sort_desc (fun c : Q * Z => (- fst c)%Q) scored in
    let top := firstn (Z.to_nat k) ranked in
    let pad := repeat (FLT_MAX, -1) (Z.to_nat k - List.length top) in
    Ok (map fst (top ++ pad)%list, map snd (top ++ pad)%list).

(** A rational printed as numerator, slash, denominator. *)
Definition str_of_Q (q : Q) : string :=
  str_of_Z (Qnum q) ++ "/" ++ str_of_Z (Zpos (Qden q)).

(** The environment, given the text encoder and the search routine of the
    index. *)
Definition env (text_model : string -> embedding)
               (search : list embedding -> embedding -> Z -> res (list Q * list Z))
  : Env :=
  {| Fs := disk;
     os_path_exists := fun p f => dict_contains f p;
     os_makedirs := makedirs;
     FaissIndex := list embedding;
     faiss_build := fun _ rows => rows;
     faiss_ntotal := fun rows => Z.of_nat (List.length rows);
     faiss_search := search;
     faiss_write_index := fun ix => write (IndexFile ix);
     faiss_read_index := read_index;
     json_dump_metadata := fun md => write (MetadataFile md);
     json_load_metadata := read_metadata;
     json_dump_profiles := fun d => write (ProfilesFile d);
     json_load_profiles := read_profiles;
     new_face_processor := Ok tt;
     encode_text := fun s => Ok (text_model s);
     extract_single_face_embedding := read_face;
     str_of_float := str_of_Q;
     lower := lower_A_to_Z;
     np_float := fun q => q |}.


(** The [i]-th vector of the standard basis of dimension 512, scaled. *)
Definition axis (i : nat) (c : Q) : embedding :=
  (repeat 0%Q i ++ [c] ++ repeat 0%Q (511 - i))%list.

(** The usual instance: every text is encoded as the first basis vector. *)
Definition std : Env := env (fun _ => axis 0 1%Q) exact_search.

Definition world0 (f : disk) : @World std := @mkWorld std f [].

End Ref.

(* ================================================================== *)
(** * Vocabulary of the specification *)
(* ================================================================== *)

Module Spec.
Section WithEnv.
Context `{E : Env}.

(** A candidate (distance, label) clears the threshold: its label is not the
    invalid marker and its similarity is not below the threshold. *)
Definition clears (threshold : Q) (c : Q * Z) : bool :=
  (negb (snd c =? -1) && Qle_bool threshold (FaissIndexManager.cosine_of_distance (fst c)))%bool.

(** The match built from a candidate with a non-negative label. *)
Definition match_of (md : list Meta.t) (c : Q * Z) : Match.t :=
  {| Match.face_id := snd c;
     Match.similarity := FaissIndexManager.cosine_of_distance (fst c);
     Match.distance := fst c;
     Match.metadata := nth_error md (Z.to_nat (snd c)) |}.

(** The survivors of a pool, in pool order. *)
Definition survivors (md : list Meta.t) (threshold : Q) (pool : list (Q * Z))
  : list Match.t :=
  map (match_of md) (filter (clears threshold) pool).

(** Labels as FAISS returns them: the marker -1, or a row number. *)
Definition labels_ok (pool : list (Q * Z)) : Prop :=
  Forall (fun c => -1 <= snd c) pool.

(** Labels that all have a metadata record. *)
Definition labels_in_range (md : list Meta.t) (pool : list (Q * Z)) : Prop :=
  Forall (fun c => -1 <= snd c < Z.of_nat (List.length md)) pool.

(** Descending similarity. *)
Definition by_similarity (a b : Match.t) : Prop :=
  (Match.similarity b <= Match.similarity a)%Q.



(** The outcome "no match": a result, not an exception. *)
Definition no_match (r : Result.t) : Prop :=
  Result.success r = false /\ Result.message r <> ""
  /\ Result.matches r = [] /\ Result.total_photos r = 0%nat.

(** The profiles after a successful registration: the entry is stored
    under the trimmed name, exactly as typed. *)
Definition registered (profiles : dict Profile.t) (name selfie_path : string)
                      (emb : embedding) : dict Profile.t :=
  dict_set profiles (strip name) (Profile.mk emb selfie_path).

(** The image a match belongs to. *)
Definition path_of (m : Match.t) : string :=
  match Match.metadata m with
  | Some md => Meta.image_path md
  | None => ""
  end.

Definition has_metadata (m : Match.t) : Prop := Match.metadata m <> None.

(** The members of the group of [path], in the order of the match list. *)
Definition members (path : string) (ms : list Match.t) : list Match.t :=
  filter (fun m => String.eqb (path_of m) path) ms.

Definition similarities (ms : list Match.t) : list Q := map Match.similarity ms.

(** The face entry recorded for a match. *)
Definition face_of (m : Match.t) : Face.t :=
  PhotoRetriever.face_info (Match.metadata m) (Match.similarity m).

(** The arithmetic mean, as the code computes it. *)
Definition mean (l : list Q) : Q := (Py.sum l / inject_Z (Z.of_nat (List.length l)))%Q.

(** The value the grouping loop leaves in ['max_similarity'] when it starts
    from [a]: each similarity replaces the current value if strictly greater. *)
Definition running_max (a : Q) (l : list Q) : Q :=
  fold_left (fun acc s => if Qgtb s acc then s else acc) l a.

(** The group an image has before its next member arrives. *)
Definition group_or_new (d : dict Group.t) (k : string) : Group.t :=
  match dict_get d k with
  | Some g => g
  | None => PhotoRetriever.new_group k
  end.

(** The photo entry made from a group. *)
Definition finished (g : Group.t) : Photo.t :=
  {| Photo.image_path := Group.image_path g;
     Photo.similarity := None;
     Photo.faces := Some (Group.faces g);
     Photo.max_similarity := Group.max_similarity g;
     Photo.avg_similarity := mean (map Face.similarity (Group.faces g));
     Photo.num_matches := List.length (Group.faces g) |}.

(** What the code makes of the members [mem] of one image. *)
Definition face_group (p : Photo.t) (mem : list Match.t) : Prop :=
  mem <> []
  /\ Photo.faces p = Some (map face_of mem)
  /\ Photo.num_matches p = List.length mem
  /\ Photo.avg_similarity p = mean (similarities mem)
  /\ Photo.max_similarity p = running_max 0 (similarities mem).

(** [x] is a maximum of [l]. *)
Definition is_max_of (x : Q) (l : list Q) : Prop :=
  (exists y, In y l /\ (y == x)%Q) /\ (forall y, In y l -> (y <= x)%Q).

(** What the claim says of the photo built from the members [mem]. *)
Definition aggregates (p : Photo.t) (mem : list Match.t) : Prop :=
  is_max_of (Photo.max_similarity p) (similarities mem)
  /\ (Photo.avg_similarity p == mean (similarities mem))%Q
  /\ Photo.num_matches p = List.length mem.

End WithEnv.
End Spec.

(* ================================================================== *)
(** * Concrete inputs *)
(* ================================================================== *)

Module Ex.

Definition face_record (i : Z) (path : string) : Meta.t :=
  Meta.mk i path (Some "face") (Some [0; 0; 10; 10]) (Some (9 # 10)).

Definition manager (rows : list embedding) (md : list Meta.t)
  : @FaissIndexManager.t Ref.std :=
  @FaissIndexManager.mk Ref.std 512 (Some rows) md.

(** An index whose search returns a fixed pool. *)
Definition scripted (pool : list Q * list Z) : Env :=
  Ref.env (fun _ => Ref.axis 0 1%Q) (fun _ _ _ => Ok pool).









(** Two photos of one face each; the query is the first row. *)
Definition two_rows : list embedding := [Ref.axis 0 1%Q; Ref.axis 1 1%Q].
Definition two_records : list Meta.t := [face_record 0 "p.jpg"; face_record 1 "q.jpg"].
Definition two_pool : list Q * list Z :=
  match Ref.exact_search two_rows (Ref.axis 0 1%Q) 100 with
  | Ok p => p
  | Raise _ => ([], [])
  end.

(** A disk holding one index file, and a manager that has loaded it. *)
Definition disk1 : Ref.disk := [("data/embeddings/faiss.index", Ref.IndexFile two_rows)].
Definition loaded : @FaissIndexManager.t Ref.std := manager two_rows two_records.

(** A retriever whose two rows are orthogonal to every encoded text. *)
Definition far_rows : list embedding := [Ref.axis 1 1%Q; Ref.axis 2 1%Q].
Definition far_pool : list Q * list Z :=
  match Ref.exact_search far_rows (Ref.axis 0 1%Q) 100 with
  | Ok p => p
  | Raise _ => ([], [])
  end.
Definition far_retriever : @PhotoRetriever.t Ref.std :=
  PhotoRetriever.mk (manager far_rows two_records).

(** U+00A0 (no-break space), U+3000 (ideographic space) and U+00E0 (a with
    grave accent) in UTF-8. *)
Definition nbsp : string := String (ascii_of_nat 194) (String (ascii_of_nat 160) "").
Definition ideographic_space : string :=
  String (ascii_of_nat 227) (String (ascii_of_nat 128) (String (ascii_of_nat 128) "")).
Definition a_grave : string := String (ascii_of_nat 195) (String (ascii_of_nat 160) "").

(** A name typed with a no-break space before it and a blank after it. *)
Definition padded_ann : string := nbsp ++ "Ann ".

(** Two selfies on disk, and an empty profile store. *)
Definition selfies : Ref.disk :=
  [("data/selfies/Ann_1.jpg", Ref.ImageFile (Some (Ref.axis 0 1%Q)));
   ("data/selfies/ann_2.jpg", Ref.ImageFile (Some (Ref.axis 1 1%Q)))].

Definition empty_store : PersonManager.t :=
  PersonManager.mk "data/embeddings/person_profiles.json" [] false.

(** The store and the world after registering "Ann" and then "ann". *)
Definition ann_then_ann
  : (res RegResult.t * res RegResult.t) * @PersonManager.St Ref.std :=
  let '(r1, s1) := @PersonManager.register_person Ref.std "Ann" "data/selfies/Ann_1.jpg"
                     (empty_store, Ref.world0 selfies) in
  let '(r2, s2) := @PersonManager.register_person Ref.std "ann" "data/selfies/ann_2.jpg" s1 in
  ((r1, r2), s2).

(** A store that already holds "Ann", and the disk states of a second
    registration with the other selfie. *)
Definition ann_store : PersonManager.t :=
  PersonManager.mk "data/embeddings/person_profiles.json"
    [("Ann", Profile.mk (Ref.axis 0 1%Q) "data/selfies/Ann_1.jpg")] true.
Definition disk_after_mkdir : Ref.disk :=
  snd (Ref.makedirs "data/embeddings" selfies).
Definition disk_after_dump : Ref.disk :=
  snd (Ref.write
         (Ref.ProfilesFile
            (PersonManager.dict_of_items
               (Spec.registered (PersonManager.profiles ann_store) padded_ann
                  "data/selfies/ann_2.jpg" (Ref.axis 1 1%Q))))
         "data/embeddings/person_profiles.json" disk_after_mkdir).

(** A photo with two faces, both pointing away from the query: their
    similarities to the first basis vector are -3/5 and -4/5. *)
Definition plane (a b : Q) : embedding := (a :: b :: repeat 0%Q 510)%list.
Definition away_rows : list embedding := [plane (-3 # 5) (4 # 5); plane (-4 # 5) (3 # 5)].
Definition away_records : list Meta.t := [face_record 0 "p.jpg"; face_record 1 "p.jpg"].
Definition away_retriever : @PhotoRetriever.t Ref.std :=
  PhotoRetriever.mk (manager away_rows away_records).
Definition away_run : res Result.t :=
  fst (@PhotoRetriever.find_photos_by_embedding Ref.std away_retriever
         (Ref.axis 0 1%Q) (-1) 100 (Some "Ann") (Ref.world0 [])).

(** The similarities recorded in the faces of a photo entry. *)
Definition face_similarities (p : Photo.t) : list Q :=
  match Photo.faces p with
  | Some fs => map Face.similarity fs
  | None => []
  end.

(** Index and metadata files whose counts differ: one vector with two
    records, and two vectors with one record. *)
Definition index_file : string := "data/embeddings/faiss.index".
Definition metadata_file : string := "data/embeddings/metadata.json".
Definition one_record : list Meta.t := [face_record 0 "p.jpg"].

(** Three photos indexed in full-image mode, at distances that give the
    similarities 0.81, 0.52 and 0.30. *)
Definition full_record (i : Z) (path : string) : Meta.t :=
  Meta.mk i path (Some "full_image") None None.
Definition three_pool : list Q * list Z :=
  ([38 # 100; 96 # 100; 140 # 100]%Q, [0; 1; 2]).
Definition three_retriever : @PhotoRetriever.t (scripted three_pool) :=
  PhotoRetriever.mk
    (@FaissIndexManager.mk (scripted three_pool) 512 (Some [])
       [full_record 0 "a.jpg"; full_record 1 "b.jpg"; full_record 2 "c.jpg"]).

(** One photo with two faces, at similarities 0.9 and 0.3. *)
Definition pair_pool : list Q * list Z := ([20 # 100; 140 # 100]%Q, [0; 1]).
Definition pair_retriever : @PhotoRetriever.t (scripted pair_pool) :=
  PhotoRetriever.mk
    (@FaissIndexManager.mk (scripted pair_pool) 512 (Some [])
       [face_record 0 "P.jpg"; face_record 1 "P.jpg"]).

(** The fields of the entries of a result that the scenarios look at. *)
Definition summary (r : res Result.t) : list (string * Q * Q * nat) :=
  match r with
  | Ok x => map (fun p => (Photo.image_path p, Qred (Photo.max_similarity p),
                           Qred (Photo.avg_similarity p), Photo.num_matches p))
                (Result.matches x)
  | Raise _ => []
  end.

End Ex.

(* ================================================================== *)
(** * face_utils.py: FaceProcessor *)
(* ================================================================== *)

(** An entry of the list returned by [detect_faces]; the bounding box is the
    four-element list [[x1, y1, x2, y2]]. *)
Module Detected.
Record t : Type := mk
  { bbox : Z * Z * Z * Z;
    embedding : list Q;
    det_score : Q }.

Definition x1 (d : t) : Z := fst (fst (fst (bbox d))).
Definition y1 (d : t) : Z := snd (fst (fst (bbox d))).
Definition x2 (d : t) : Z := snd (fst (bbox d)).
Definition y2 (d : t) : Z := snd (bbox d).

(** [[x1, y1, x2, y2]] *)
Definition bbox_list (d : t) : list Z := [x1 d; y1 d; x2 d; y2 d].
End Detected.

(** A MediaPipe detection: the relative bounding box and [score[0]]. *)
Module Detection.
Record t : Type := mk
  { xmin : Q; ymin : Q; width : Q; height : Q; score : Q }.
End Detection.

Module FaceUtils.

(** [int(x)] for a float: truncation towards zero. *)
Definition int_of_float (x : Q) : Z := Z.quot (Qnum x) (Zpos (Qden x)).

(** The length of [a[start:stop]] for a dimension of length [n]. *)
Definition slice_bound (n i : Z) : Z :=
  let i := if i <? 0 then i + n else i in
  if i <? 0 then 0 else if n <? i then n else i.

Definition slice_len (n start stop : Z) : Z :=
  Z.max 0 (slice_bound n stop - slice_bound n start).

Section WithModels.
Context `{E : Env}.

(** [cv2.imread]: the height and width of the image, or [None]. *)
Variable imread : string -> Fs -> option (Z * Z).
(** [self.face_detection.process(img_rgb).detections], [[]] for [None]. *)
Variable face_detections : string -> Fs -> res (list Detection.t).
(** [_get_clip_embedding] of the crop [img_rgb[y1:y2, x1:x2]] of an image. *)
Variable clip_embedding : string -> Z * Z * Z * Z -> Fs -> res embedding.

(** The body of the loop over the detections: the face, or nothing when the
    crop is too small. *)
Definition face_of_detection (image_path : string) (h w : Z) (f : Fs)
                             (detection : Detection.t) : res (option Detected.t) :=
  let x1 := int_of_float (Detection.xmin detection * inject_Z w) in
  let y1 := int_of_float (Detection.ymin detection * inject_Z h) in
  let box_w := int_of_float (Detection.width detection * inject_Z w) in
  let box_h := int_of_float (Detection.height detection * inject_Z h) in
  let x2 := x1 + box_w in
  let y2 := y1 + box_h in
  let x1 := Z.max 0 x1 in
  let y1 := Z.max 0 y1 in
  let x2 := Z.min w x2 in
  let y2 := Z.min h y2 in
  let rows := slice_len h y1 y2 in
  let cols := slice_len w x1 x2 in
  if ((rows * cols * 3 =? 0) || (rows <? 10) || (cols <? 10))%bool then Ok None
  else
    match clip_embedding image_path (x1, y1, x2, y2) f with
    | Raise e => Raise e
    | Ok emb => Ok (Some (Detected.mk (x1, y1, x2, y2) emb (Detection.score detection)))
    end.

Fixpoint faces_of_detections (image_path : string) (h w : Z) (f : Fs)
                             (detections : list Detection.t) : res (list Detected.t) :=
  match detections with
  | [] => Ok []
  | d :: rest =>
      match face_of_detection image_path h w f d with
      | Raise e => Raise e
      | Ok x =>
          match faces_of_detections image_path h w f rest with
          | Raise e => Raise e
          | Ok faces => Ok (match x with Some face => face :: faces | None => faces end)
          end
      end
  end.

Definition detect_faces (image_path : string) (f : Fs) : res (list Detected.t) :=
  match imread image_path f with
  | None => Raise (ValueError ("Unable to read image: " ++ image_path))
  | Some (h, w) =>
      match face_detections image_path f with
      | Raise e => Raise e
      | Ok detections => faces_of_detections image_path h w f detections
      end
  end.

End WithModels.

(** [(x['bbox'][2] - x['bbox'][0]) * (x['bbox'][3] - x['bbox'][1])] *)
Definition area (x : Detected.t) : Z :=
  (Detected.x2 x - Detected.x1 x) * (Detected.y2 x - Detected.y1 x).

(** What [extract_single_face_embedding] does with the detected faces. *)
Definition single_face (faces : list Detected.t) : res (option embedding) :=
  if (List.length faces =? 0)%nat then Ok None
  else
    let faces := if (1 <? List.length faces)%nat
                 then sort_desc (fun x => inject_Z (area x)) faces
                 else faces in
    match getitem faces 0 with
    | Ok x => Ok (Some (Detected.embedding x))
    | Raise e => Raise e
    end.

(** [extract_single_face_embedding], over a given [detect_faces]. *)
Definition extract_single_face_embedding {Disk : Type}
    (detect_faces : string -> Disk -> res (list Detected.t))
    (image_path : string) (f : Disk) : res (option embedding) :=
  match detect_faces image_path f with
  | Raise e => Raise e
  | Ok faces => single_face faces
  end.

End FaceUtils.

(* ================================================================== *)
(** * offline_indexing.py *)
(* ================================================================== *)

Module OfflineIndexing.

(** [os.path.join(a, b)] (posixpath) for two components *)
Definition starts_with_slash (s : string) : bool :=
  match s with
  | String c _ => Ascii.eqb c slash
  | EmptyString => false
  end.

Fixpoint ends_with_slash (s : string) : bool :=
  match s with
  | EmptyString => false
  | String c EmptyString => Ascii.eqb c slash
  | String _ s' => ends_with_slash s'
  end.

Definition path_join (a b : string) : string :=
  if starts_with_slash b then b
  else if (String.eqb a "" || ends_with_slash a)%bool then a ++ b
  else a ++ "/" ++ b.

Section WithModels.
Context `{E : Env}.

(** [[str(p) for p in Path(dir).rglob(pattern)]] *)
Variable rglob : string -> string -> Fs -> list string.
(** [FaceProcessor.get_full_image_embedding] and [FaceProcessor.detect_faces] *)
Variable get_full_image_embedding : string -> Fs -> res embedding.
Variable detect_faces : string -> Fs -> res (list Detected.t).

(** The lists the loops fill, and the running [item_id]. *)
Record acc : Type := mkAcc
  { all_embeddings : list embedding;
    all_metadata : list Meta.t;
    item_id : Z }.

Definition acc0 : acc := mkAcc [] [] 0.

(** One iteration of the full-image loop; an exception skips the image. *)
Definition step_full (f : Fs) (a : acc) (img_path : string) : acc :=
  match get_full_image_embedding img_path f with
  | Raise _ => a
  | Ok emb =>
      mkAcc (all_embeddings a ++ [emb])%list
            (all_metadata a
             ++ [Meta.mk (item_id a) img_path (Some "full_image") None None])%list
            (item_id a + 1)
  end.

(** The inner loop of face mode: one record per detected face. *)
Definition add_detected (img_path : string) (a : acc) (face : Detected.t) : acc :=
  mkAcc (all_embeddings a ++ [Detected.embedding face])%list
        (all_metadata a
         ++ [Meta.mk (item_id a) img_path (Some "face")
               (Some (Detected.bbox_list face))
               (Some (Detected.det_score face))])%list
        (item_id a + 1).

Definition step_face (f : Fs) (a : acc) (img_path : string) : acc :=
  match detect_faces img_path f with
  | Raise _ => a
  | Ok faces => fold_left (add_detected img_path) faces a
  end.

(** Both loops: [mode == 'full_image'] or anything else. *)
Definition collect (mode : string) (f : Fs) (image_paths : list string) : acc :=
  if String.eqb mode "full_image"
  then fold_left (step_full f) image_paths acc0
  else fold_left (step_face f) image_paths acc0.

(** [np.array(rows, dtype='float32')] for a non-empty list of vectors *)
Definition np_array (rows : list embedding) : res FaissIndexManager.ndarray2 :=
  match rows with
  | [] => Ok (FaissIndexManager.mkArray 0 [])
  | r :: _ =>
      if forallb (fun x => (List.length x =? List.length r)%nat) rows
      then Ok (FaissIndexManager.mkArray (Z.of_nat (List.length r)) rows)
      else Raise (ValueError "inhomogeneous shape")
  end.

Definition image_files (event_photos_dir : string) (image_extensions : list string)
                       (f : Fs) : list string :=
  flat_map (fun ext => rglob event_photos_dir ("*" ++ ext) f) image_extensions.

Definition process_event_photos (event_photos_dir output_dir mode : string)
                                (image_extensions : list string) : M World unit :=
  lift_res new_face_processor ;;;
  image_paths <- read_fs (fun f => Ok (image_files event_photos_dir image_extensions f)) ;;
  if (List.length image_paths =? 0)%nat then ret tt
  else
    a <- read_fs (fun f => Ok (collect mode f image_paths)) ;;
    if (List.length (all_embeddings a) =? 0)%nat then ret tt
    else
      embeddings_array <- lift_res (np_array (all_embeddings a)) ;;
      fun w =>
        let run : M FaissIndexManager.St unit :=
          FaissIndexManager.create_index embeddings_array ;;;
          FaissIndexManager.world (on_fs (os_makedirs output_dir)) ;;;
          FaissIndexManager.save_index (path_join output_dir "faiss.index") ;;;
          FaissIndexManager.save_metadata (all_metadata a)
            (path_join output_dir "metadata.json") in
        let '(r, (_, w')) := run (FaissIndexManager.init 512, w) in
        (r, w').

End WithModels.
End OfflineIndexing.

(* ================================================================== *)
(** * Further vocabulary and inputs *)
(* ================================================================== *)

Module Vocab.
Section WithEnv.
Context `{E : Env}.

(** The entry full-image mode makes of one match. *)
Definition wrapped (m : Match.t) : Photo.t :=
  {| Photo.image_path := Spec.path_of m;
     Photo.similarity := Some (Match.similarity m);
     Photo.faces := None;
     Photo.max_similarity := Match.similarity m;
     Photo.avg_similarity := Match.similarity m;
     Photo.num_matches := 1 |}.

(** The matches counted by a list of photo entries. *)
Definition total_faces (photos : list Photo.t) : nat :=
  list_sum (map Photo.num_matches photos).

(** Descending [max_similarity]. *)
Definition by_max (a b : Photo.t) : Prop :=
  (Photo.max_similarity b <= Photo.max_similarity a)%Q.

(** The results [search_with_threshold] returns on a pool. *)
Definition ranked_results (md : list Meta.t) (thr : Q) (pool : list (Q * Z))
  : list Match.t :=
  sort_desc Match.similarity (Spec.survivors md thr pool).

(** Ascending order of names. *)
Definition name_le (a b : string) : Prop := String.leb a b = true.

(** A detected face lies inside an image of height [h] and width [w], and
    its box is at least 10 pixels wide and high unless it ends left of or
    above the image. *)
Definition box_within (h w : Z) (x : Detected.t) : Prop :=
  0 <= Detected.x1 x /\ 0 <= Detected.y1 x
  /\ Detected.x2 x <= w /\ Detected.y2 x <= h
  /\ (0 <= Detected.x2 x -> 10 <= Detected.x2 x - Detected.x1 x)
  /\ (0 <= Detected.y2 x -> 10 <= Detected.y2 x - Detected.y1 x).

(** The mode tag the indexing loops write. *)
Definition mode_tag (mode : string) : string :=
  if String.eqb mode "full_image" then "full_image" else "face".

(** The vector [e] stored at some row is the one computed for the record [m]
    stored at the same position. *)
Definition describes {Disk : Type}
    (get_full_image_embedding : string -> Disk -> res embedding)
    (detect_faces : string -> Disk -> res (list Detected.t))
    (mode : string) (f : Disk) (e : embedding) (m : Meta.t) : Prop :=
  if String.eqb mode "full_image" then
    get_full_image_embedding (Meta.image_path m) f = Ok e
    /\ Meta.bbox m = None /\ Meta.det_score m = None
  else
    exists faces face,
      detect_faces (Meta.image_path m) f = Ok faces
      /\ In face faces
      /\ e = Detected.embedding face
      /\ Meta.bbox m = Some (Detected.bbox_list face)
      /\ Meta.det_score m = Some (Detected.det_score face).

(** Vectors and records in step: record [i] has [item_id = i], carries the
    mode tag, names one of the images, and describes vector [i]. *)
Definition aligned {Disk : Type}
    (get_full_image_embedding : string -> Disk -> res embedding)
    (detect_faces : string -> Disk -> res (list Detected.t))
    (mode : string) (f : Disk) (image_paths : list string)
    (embeddings : list embedding) (records : list Meta.t) (next_id : Z) : Prop :=
  Forall2 (describes get_full_image_embedding detect_faces mode f) embeddings records
  /\ map Meta.item_id records = map Z.of_nat (seq 0 (List.length records))
  /\ Forall (fun m => In (Meta.image_path m) image_paths
                      /\ Meta.mode m = Some (mode_tag mode)) records
  /\ next_id = Z.of_nat (List.length records).

End WithEnv.
End Vocab.

Module Ex2.

(** A disk whose index path holds a metadata file and conversely. *)
Definition swapped_disk : Ref.disk :=
  [(Ex.index_file, Ref.MetadataFile Ex.two_records);
   (Ex.metadata_file, Ref.IndexFile Ex.two_rows)].

(** An array of two rows of length 3. *)
Definition narrow : FaissIndexManager.ndarray2 :=
  FaissIndexManager.mkArray 3 [[1; 0; 0]%Q; [0; 1; 0]%Q].

(** A face-mode index on disk: the first photo shows two faces, the second
    one; the rows lie at the similarities 1, 4/5 and 0 from the first basis
    vector. *)
Definition group_rows : list embedding :=
  [Ref.axis 0 1%Q; Ex.plane (4 # 5) (3 # 5); Ref.axis 1 1%Q].
Definition group_records : list Meta.t :=
  [Ex.face_record 0 "P.jpg"; Ex.face_record 1 "P.jpg"; Ex.face_record 2 "Q.jpg"].
Definition group_disk : Ref.disk :=
  [(Ex.index_file, Ref.IndexFile group_rows);
   (Ex.metadata_file, Ref.MetadataFile group_records)].
Definition group_pool : list Q * list Z :=
  match Ref.exact_search group_rows (Ref.axis 0 1%Q) 100 with
  | Ok p => p
  | Raise _ => ([], [])
  end.

(** A disk whose metadata file holds the JSON value [null]. *)
Definition null_metadata_disk : Ref.disk :=
  [(Ex.index_file, Ref.IndexFile Ex.two_rows); (Ex.metadata_file, Ref.JsonFile "NoneType")].

(** The two-row index with full-image metadata. *)
Definition full_records : list Meta.t :=
  [Ex.full_record 0 "a.jpg"; Ex.full_record 1 "b.jpg"].
Definition full_retriever : @PhotoRetriever.t Ref.std :=
  PhotoRetriever.mk (Ex.manager Ex.two_rows full_records).

(** A disk with a picture in which no face is found. *)
Definition landscape_disk : Ref.disk := [("landscape.jpg", Ref.ImageFile None)].

(** The reference environment, except that a profile file cannot be
    written where a directory stands. *)
Definition dump_unless_directory (d : dict Profile.t) (path : string) (f : Ref.disk)
  : res unit * Ref.disk :=
  match dict_get f path with
  | Some Ref.Dir => (Raise (LibraryError "IsADirectoryError"), f)
  | _ => Ref.write (Ref.ProfilesFile d) path f
  end.

Definition strict : Env :=
  {| Fs := Ref.disk;
     os_path_exists := fun p f => dict_contains f p;
     os_makedirs := Ref.makedirs;
     FaissIndex := list embedding;
     faiss_build := fun _ rows => rows;
     faiss_ntotal := fun rows => Z.of_nat (List.length rows);
     faiss_search := Ref.exact_search;
     faiss_write_index := fun ix => Ref.write (Ref.IndexFile ix);
     faiss_read_index := Ref.read_index;
     json_dump_metadata := fun md => Ref.write (Ref.MetadataFile md);
     json_load_metadata := Ref.read_metadata;
     json_dump_profiles := dump_unless_directory;
     json_load_profiles := Ref.read_profiles;
     new_face_processor := Ok tt;
     encode_text := fun s => Ok (Ref.axis 0 1%Q);
     extract_single_face_embedding := Ref.read_face;
     str_of_float := Ref.str_of_Q;
     lower := Ref.lower_A_to_Z;
     np_float := fun q => q |}.

(** A store whose profile path is a directory of the disk. *)
Definition blocked_store : PersonManager.t :=
  PersonManager.mk "data/embeddings/profiles" [] true.
Definition blocked_disk : Ref.disk :=
  (Ex.selfies ++ [("data/embeddings", Ref.Dir); ("data/embeddings/profiles", Ref.Dir)])%list.

(** The disk after "Ann" is removed from [Ex.ann_store]. *)
Definition disk_after_removal : Ref.disk :=
  snd (Ref.write
         (Ref.ProfilesFile
            (PersonManager.dict_of_items
               (dict_del (PersonManager.profiles Ex.ann_store) "Ann")))
         "data/embeddings/person_profiles.json" Ex.disk_after_mkdir).

(** The disk after [Ex.ann_store] is saved. *)
Definition disk_after_save : Ref.disk :=
  snd (Ref.write
         (Ref.ProfilesFile
            (PersonManager.dict_of_items (PersonManager.profiles Ex.ann_store)))
         "data/embeddings/person_profiles.json" Ex.disk_after_mkdir).

(** A 640 x 480 picture with one detection in its middle. *)
Definition one_detection : list Detection.t :=
  [Detection.mk (1 # 4) (1 # 4) (1 # 2) (1 # 2) (9 # 10)].
Definition detected_faces : res (list Detected.t) :=
  @FaceUtils.detect_faces Ref.std (fun _ _ => Some (480, 640))
    (fun _ _ => Ok one_detection) (fun _ _ _ => Ok (Ref.axis 0 1%Q))
    "group.jpg" [].
Definition detected_list : list Detected.t :=
  match detected_faces with Ok l => l | Raise _ => [] end.

(** A photo directory with one picture, which cannot be embedded, or which
    gets a vector of length 3. *)
Definition one_photo (dir pattern : string) (f : Ref.disk) : list string :=
  if String.eqb pattern "*.jpg" then ["data/event_photos/a.jpg"] else [].
Definition unreadable (p : string) (f : Ref.disk) : res embedding :=
  Raise (ValueError ("Unable to read image: " ++ p)).
Definition short_vector (p : string) (f : Ref.disk) : res embedding :=
  Ok [1; 0; 0]%Q.
Definition no_faces (p : string) (f : Ref.disk) : res (list Detected.t) := Ok [].
Definition extensions : list string := [".jpg"; ".jpeg"; ".png"; ".bmp"].

End Ex2.

(* ================================================================== *)
(** * Proofs *)
(* ================================================================== *)

(** ** The runtime on examples *)

Example strip_name : strip "  Ann  " = "Ann".
Proof. reflexivity. Qed.

(** U+00A0 before the name and U+3000 after it are removed like blanks. *)
Example strip_unicode_space : strip (Ex.nbsp ++ " Ann" ++ Ex.ideographic_space) = "Ann".
Proof. reflexivity. Qed.

(** The last byte of U+00E0 is the byte 0xA0; it is not taken for the end of
    U+00A0. *)
Example strip_keeps_letters : strip (" " ++ Ex.a_grave ++ " ") = Ex.a_grave.
Proof. reflexivity. Qed.

Example strip_blank : strip (" " ++ Ex.nbsp) = "".
Proof. reflexivity. Qed.

Example lower_name : @lower Ref.std "Ann B" = "ann b".
Proof. reflexivity. Qed.

(** Single precision: 1/3, and two neighbours of 0.8 of which the second
    lies between two float32 numbers. *)
Example binary32_third : Qred (Ref.binary32 (1 # 3)) = (11184811 # 33554432)%Q.
Proof. vm_compute. reflexivity. Qed.

Example binary32_exact :
  Qred (Ref.binary32 (53687092 # 67108864)) = (13421773 # 16777216)%Q.
Proof. vm_compute. reflexivity. Qed.

Example binary32_rounded :
  Qred (Ref.binary32 (53687091 # 67108864)) = (13421773 # 16777216)%Q.
Proof. vm_compute. reflexivity. Qed.

Example dirname_nested : dirname "data/embeddings/faiss.index" = "data/embeddings".
Proof. reflexivity. Qed.

Example dirname_bare : dirname "faiss.index" = "".
Proof. reflexivity. Qed.

Example dirname_root : dirname "/faiss.index" = "/".
Proof. reflexivity. Qed.

Example sorted_names : Py.sorted ["bob"; "ann"; "Ann"] = ["Ann"; "ann"; "bob"].
Proof. reflexivity. Qed.

Example getitem_last : getitem [10; 20; 30] (-1) = Ok 30.
Proof. reflexivity. Qed.

Example getitem_beyond :
  getitem [10; 20; 30] 3 = Raise (IndexError "list index out of range").
Proof. reflexivity. Qed.

Example sort_desc_is_stable :
  sort_desc (fun c : Q * Z => fst c)
    [((1 # 2)%Q, 5); ((3 # 4)%Q, 1); ((1 # 2)%Q, 2); ((3 # 4)%Q, 0)]
  = [((3 # 4)%Q, 1); ((3 # 4)%Q, 0); ((1 # 2)%Q, 5); ((1 # 2)%Q, 2)].
Proof. reflexivity. Qed.

(** Full-image mode, similarities 0.81, 0.52, 0.30 and threshold 0.5: two
    photos, the better one first. *)
Example full_image_scenario :
  Ex.summary
    (fst (@PhotoRetriever.find_photos (Ex.scripted Ex.three_pool) Ex.three_retriever
            None (Some "people dancing") (1 # 2) 100
            (@mkWorld (Ex.scripted Ex.three_pool) [] [])))
  = [("a.jpg", (81 # 100)%Q, (81 # 100)%Q, 1%nat);
     ("b.jpg", (13 # 25)%Q, (13 # 25)%Q, 1%nat)].
Proof. vm_compute. reflexivity. Qed.

(** Face mode, one photo with faces at 0.9 and 0.3 and threshold 0.5: the
    photo appears once, with the single face that passed. *)
Example face_mode_scenario :
  Ex.summary
    (fst (@PhotoRetriever.find_photos_by_embedding (Ex.scripted Ex.pair_pool)
            Ex.pair_retriever (Ref.axis 0 1%Q) (1 # 2) 100 (Some "Ann")
            (@mkWorld (Ex.scripted Ex.pair_pool) [] [])))
  = [("P.jpg", (9 # 10)%Q, (9 # 10)%Q, 1%nat)].
Proof. vm_compute. reflexivity. Qed.

(** ** Sorting *)

Section SortDesc.
Variable A : Type.
Variable key : A -> Q.

Lemma Qgtb_true (a b : Q) : Qgtb a b = true <-> (b < a)%Q.
Proof.
  unfold Qgtb. rewrite negb_true_iff. split; intros H.
  - apply Qnot_le_lt. intros L. apply Qle_bool_iff in L. congruence.
  - destruct (Qle_bool a b) eqn:L; auto.
    apply Qle_bool_iff in L. exfalso. exact (Qlt_not_le _ _ H L).
Qed.

Lemma Qgtb_false (a b : Q) : Qgtb a b = false <-> (a <= b)%Q.
Proof.
  unfold Qgtb. rewrite negb_false_iff. apply Qle_bool_iff.
Qed.

Lemma insert_desc_perm (x : A) (l : list A) :
  Permutation (insert_desc key x l) (x :: l).
Proof.
  induction l as [|y l IH]; simpl; auto.
  destruct (Qgtb (key y) (key x)); auto.
  rewrite IH. apply perm_swap.
Qed.

Lemma sort_desc_perm (l : list A) : Permutation (sort_desc key l) l.
Proof.
  induction l as [|x l IH]; simpl; auto.
  rewrite insert_desc_perm. auto.
Qed.

Lemma sort_desc_length (l : list A) : List.length (sort_desc key l) = List.length l.
Proof. apply Permutation_length, sort_desc_perm. Qed.

Lemma insert_desc_sorted (x : A) (l : list A) :
  StronglySorted (key_ge key) l -> StronglySorted (key_ge key) (insert_desc key x l).
Proof.
  induction 1 as [|y l Hs IH Hy]; simpl.
  - repeat constructor.
  - destruct (Qgtb (key y) (key x)) eqn:G.
    + constructor; auto.
      apply Qgtb_true in G.
      eapply Permutation_Forall; [symmetry; apply insert_desc_perm|].
      constructor; auto. unfold key_ge. apply Qlt_le_weak; auto.
    + apply Qgtb_false in G.
      constructor; [constructor; auto|].
      constructor; auto.
      eapply Forall_impl; [|exact Hy].
      intros z Hz. unfold key_ge in *. eapply Qle_trans; eauto.
Qed.

Lemma sort_desc_sorted (l : list A) : StronglySorted (key_ge key) (sort_desc key l).
Proof.
  induction l as [|x l IH]; simpl; [constructor | apply insert_desc_sorted; auto].
Qed.

(** Stability: entries with equal keys keep their relative order. *)
Lemma insert_desc_stable (s : Q) (x : A) (l : list A) :
  filter (fun a => Qeq_bool (key a) s) (insert_desc key x l)
  = filter (fun a => Qeq_bool (key a) s) (x :: l).
Proof.
  induction l as [|y l IH]; [reflexivity|].
  simpl insert_desc. destruct (Qgtb (key y) (key x)) eqn:G; [|reflexivity].
  apply Qgtb_true in G.
  change (filter (fun a => Qeq_bool (key a) s) (y :: insert_desc key x l))
    with (if Qeq_bool (key y) s
          then y :: filter (fun a => Qeq_bool (key a) s) (insert_desc key x l)
          else filter (fun a => Qeq_bool (key a) s) (insert_desc key x l)).
  rewrite IH. simpl.
  destruct (Qeq_bool (key x) s) eqn:Ex, (Qeq_bool (key y) s) eqn:Ey; auto.
  apply Qeq_bool_iff in Ex, Ey. exfalso.
  rewrite Ex, Ey in G. exact (Qlt_irrefl _ G).
Qed.

Lemma sort_desc_stable (s : Q) (l : list A) :
  filter (fun a => Qeq_bool (key a) s) (sort_desc key l)
  = filter (fun a => Qeq_bool (key a) s) l.
Proof.
  induction l as [|x l IH]; [reflexivity|].
  simpl sort_desc. rewrite insert_desc_stable. simpl. rewrite IH. reflexivity.
Qed.

(** A list already in descending order is left as it is. *)
Lemma sort_desc_sorted_id (l : list A) :
  StronglySorted (key_ge key) l -> sort_desc key l = l.
Proof.
  induction 1 as [|x l Hs IH Hx]; [reflexivity|].
  simpl. rewrite IH. destruct l as [|y l]; [reflexivity|].
  simpl. inversion Hx as [|? ? Hy _]; subst.
  apply Qgtb_false in Hy. rewrite Hy. reflexivity.
Qed.

End SortDesc.

(** ** List facts *)

Lemma filter_length_le_impl (A : Type) (p q : A -> bool) (l : list A) :
  (forall x, p x = true -> q x = true) ->
  (List.length (filter p l) <= List.length (filter q l))%nat.
Proof.
  intros Hpq. induction l as [|x l IH]; simpl; [lia|].
  destruct (p x) eqn:Px.
  - rewrite (Hpq x Px). simpl. lia.
  - destruct (q x); simpl; lia.
Qed.

Lemma StronglySorted_filter_keep (A : Type) (R : A -> A -> Prop) (p : A -> bool)
      (l : list A) :
  StronglySorted R l -> StronglySorted R (filter p l).
Proof.
  induction 1 as [|x l Hs IH Hx]; simpl; [constructor|].
  destruct (p x); auto.
  constructor; auto.
  apply Forall_forall. intros y Hy. apply filter_In in Hy.
  rewrite Forall_forall in Hx. apply Hx. tauto.
Qed.

Lemma StronglySorted_map_mono (A B : Type) (R : A -> A -> Prop) (R' : B -> B -> Prop)
      (f : A -> B) (l : list A) :
  (forall a b, R a b -> R' (f a) (f b)) ->
  StronglySorted R l -> StronglySorted R' (map f l).
Proof.
  intros Hf. induction 1 as [|x l Hs IH Hx]; simpl; constructor; auto.
  apply Forall_forall. intros y Hy. apply in_map_iff in Hy.
  destruct Hy as (a & <- & Ha). rewrite Forall_forall in Hx. auto.
Qed.

Lemma StronglySorted_weaken (A : Type) (R R' : A -> A -> Prop) (l : list A) :
  (forall a b, R a b -> R' a b) -> StronglySorted R l -> StronglySorted R' l.
Proof.
  intros HR. induction 1 as [|x l Hs IH Hx]; constructor; auto.
  eapply Forall_impl; [|exact Hx]. auto.
Qed.

Lemma labels_ok_check (pool : list (Q * Z)) :
  forallb (fun c => -1 <=? snd c) pool = true -> Spec.labels_ok pool.
Proof.
  intros H. apply Forall_forall. intros c Hc.
  rewrite forallb_forall in H. apply Z.leb_le. auto.
Qed.

Lemma none_clears_check `{E : Env} (thr : Q) (pool : list (Q * Z)) :
  forallb (fun c => negb (Spec.clears thr c)) pool = true ->
  Forall (fun c => Spec.clears thr c = false) pool.
Proof.
  intros H. apply Forall_forall. intros c Hc.
  rewrite forallb_forall in H. apply negb_true_iff. auto.
Qed.

(** ** search_with_threshold *)

Lemma getitem_nonneg (A : Type) (l : list A) (i : Z) :
  0 <= i < Z.of_nat (List.length l) ->
  exists a, nth_error l (Z.to_nat i) = Some a /\ getitem l i = Ok a.
Proof.
  intros Hi. unfold getitem.
  destruct (Z.ltb_spec i 0); [lia|].
  destruct (Z.leb_spec 0 i); [|lia].
  destruct (Z.ltb_spec i (Z.of_nat (List.length l))); [|lia]. simpl.
  destruct (nth_error l (Z.to_nat i)) eqn:N; eauto.
  apply nth_error_None in N. lia.
Qed.

Lemma metadata_at_nonneg (md : list Meta.t) (idx : Z) :
  0 <= idx ->
  FaissIndexManager.metadata_at md idx = Ok (nth_error md (Z.to_nat idx)).
Proof.
  intros Hi. unfold FaissIndexManager.metadata_at.
  destruct (Z.ltb_spec idx (Z.of_nat (List.length md))) as [L|L].
  - destruct (@getitem_nonneg _ md idx) as (a & N & G); [lia|].
    rewrite G, N. reflexivity.
  - f_equal. symmetry. apply nth_error_None. lia.
Qed.

(** On well-formed labels the loop never raises, and keeps exactly the
    survivors, in pool order. *)
Lemma filter_candidates_survivors `{E : Env} (md : list Meta.t) (thr : Q) (pool : list (Q * Z)) :
  Spec.labels_ok pool ->
  FaissIndexManager.filter_candidates md thr pool = Ok (Spec.survivors md thr pool).
Proof.
  induction 1 as [|[dist idx] pool Hc Hp IH]; [reflexivity|].
  simpl in Hc. unfold Spec.survivors in *. simpl.
  unfold Spec.clears at 1. simpl.
  destruct (Z.eqb_spec idx (-1)) as [->|Ne]; simpl; [exact IH|].
  unfold Qgeb.
  destruct (Qle_bool thr (FaissIndexManager.cosine_of_distance dist)); [|exact IH].
  rewrite metadata_at_nonneg by lia. rewrite IH. reflexivity.
Qed.

Section SearchWithThreshold.
Context `{E : Env}.
Variables (self : FaissIndexManager.t) (query : embedding) (k : Z).
Variables (ix : FaissIndex) (ds : list Q) (ls : list Z).
Hypothesis Hindex : FaissIndexManager.index self = Some ix.
Hypothesis Hsearch : faiss_search ix query k = Ok (ds, ls).

Lemma search_eq (w : World) :
  FaissIndexManager.search self query k w
  = (Ok (ds, ls), log_world (IndexSearch k) w).
Proof.
  unfold FaissIndexManager.search. rewrite Hindex.
  unfold bind, modify, lift_res. rewrite Hsearch. reflexivity.
Qed.

Lemma search_with_threshold_eq (thr : Q) (w : World) :
  Spec.labels_ok (combine ds ls) ->
  FaissIndexManager.search_with_threshold self query thr k w
  = (Ok (sort_desc Match.similarity
           (Spec.survivors (FaissIndexManager.metadata self) thr (combine ds ls))),
     log_world (IndexSearch k) w).
Proof.
  intros Hl. unfold FaissIndexManager.search_with_threshold.
  unfold bind at 1. rewrite search_eq.
  unfold bind, lift_res, ret. rewrite filter_candidates_survivors by assumption.
  reflexivity.
Qed.

End SearchWithThreshold.




(** C6.  For a fixed query and candidate pool, raising the threshold never
    increases the number of results of [search_with_threshold]. *)
Theorem search_with_threshold_monotone `{E : Env}
    (self : FaissIndexManager.t) (query : embedding) (t1 t2 : Q) (k : Z)
    (ix : FaissIndex) (ds : list Q) (ls : list Z) (w : World) :
  FaissIndexManager.index self = Some ix ->
  faiss_search ix query k = Ok (ds, ls) ->
  Spec.labels_ok (combine ds ls) ->
  (t1 <= t2)%Q ->
  exists r1 r2,
    fst (FaissIndexManager.search_with_threshold self query t1 k w) = Ok r1
    /\ fst (FaissIndexManager.search_with_threshold self query t2 k w) = Ok r2
    /\ (List.length r2 <= List.length r1)%nat.
Proof.
  intros Hix Hs Hl Ht.
  do 2 eexists. split; [|split].
  - rewrite search_with_threshold_eq with (ix := ix) (ds := ds) (ls := ls) by assumption.
    reflexivity.
  - rewrite search_with_threshold_eq with (ix := ix) (ds := ds) (ls := ls) by assumption.
    reflexivity.
  - rewrite !sort_desc_length. unfold Spec.survivors. rewrite !length_map.
    apply filter_length_le_impl. intros c. unfold Spec.clears.
    rewrite !andb_true_iff. intros [Hv Hc]. split; [assumption|].
    apply Qle_bool_iff. apply Qle_bool_iff in Hc. eapply Qle_trans; eassumption.
Qed.

Lemma search_with_threshold_monotone_witness :
  exists r1 r2,
    fst (@FaissIndexManager.search_with_threshold Ref.std
           (Ex.manager Ex.two_rows Ex.two_records) (Ref.axis 0 1%Q) 0 100
           (Ref.world0 [])) = Ok r1
    /\ fst (@FaissIndexManager.search_with_threshold Ref.std
              (Ex.manager Ex.two_rows Ex.two_records) (Ref.axis 0 1%Q) (1 # 2) 100
              (Ref.world0 [])) = Ok r2
    /\ (List.length r2 <= List.length r1)%nat.
Proof.
  apply (@search_with_threshold_monotone Ref.std
           (Ex.manager Ex.two_rows Ex.two_records) (Ref.axis 0 1%Q) 0 (1 # 2) 100
           Ex.two_rows (fst Ex.two_pool) (snd Ex.two_pool) (Ref.world0 [])).
  - reflexivity.
  - vm_compute. reflexivity.
  - apply labels_ok_check. vm_compute. reflexivity.
  - vm_compute. discriminate.
Defined.

(** ** load_index and save_index *)

(** C7.  [load_index] on a path that does not exist raises
    [FileNotFoundError] and leaves the manager (its index and metadata
    included) and the disk exactly as they were. *)
Theorem load_index_missing_path `{E : Env}
    (self : FaissIndexManager.t) (w : World) (index_path : string) :
  os_path_exists index_path (fs w) = false ->
  FaissIndexManager.load_index index_path (self, w)
  = (Raise (FileNotFoundError ("Index file not found: " ++ index_path)), (self, w)).
Proof.
  intros Hex. unfold FaissIndexManager.load_index, FaissIndexManager.world.
  unfold bind, zoom, read_fs, raise. simpl. rewrite Hex. reflexivity.
Qed.

Lemma load_index_missing_path_witness :
  @FaissIndexManager.load_index Ref.std "data/other/faiss.index"
    (Ex.loaded, Ref.world0 Ex.disk1)
  = (Raise (FileNotFoundError "Index file not found: data/other/faiss.index"),
     (Ex.loaded, Ref.world0 Ex.disk1)).
Proof.
  apply (@load_index_missing_path Ref.std Ex.loaded (Ref.world0 Ex.disk1)
           "data/other/faiss.index").
  vm_compute. reflexivity.
Defined.

(** A freshly constructed manager holds no index. *)
Lemma init_has_no_index `{E : Env} (dim : Z) :
  FaissIndexManager.index (FaissIndexManager.init dim) = None.
Proof. reflexivity. Qed.

(** C10.  While no index has been created or loaded, [save_index] raises
    [ValueError] and neither the disk nor the manager changes. *)
Theorem save_index_without_index `{E : Env}
    (self : FaissIndexManager.t) (w : World) (index_path : string) :
  FaissIndexManager.index self = None ->
  FaissIndexManager.save_index index_path (self, w)
  = (Raise (ValueError "No index to save. Create index first."), (self, w)).
Proof.
  intros Hnone. unfold FaissIndexManager.save_index, FaissIndexManager.self_.
  unfold bind, zoom, get, raise. simpl. rewrite Hnone. reflexivity.
Qed.

Lemma save_index_without_index_witness :
  @FaissIndexManager.save_index Ref.std "data/embeddings/faiss.index"
    (@FaissIndexManager.init Ref.std 512, Ref.world0 [])
  = (Raise (ValueError "No index to save. Create index first."),
     (@FaissIndexManager.init Ref.std 512, Ref.world0 [])).
Proof.
  apply (@save_index_without_index Ref.std (@FaissIndexManager.init Ref.std 512)
           (Ref.world0 []) "data/embeddings/faiss.index").
  reflexivity.
Defined.

(** ** When the manager holds no index *)

Ltac case_env_call :=
  match goal with
  | |- context [os_makedirs ?a ?b] => destruct (os_makedirs a b) as [[[]|?] ?]
  | |- context [faiss_write_index ?a ?b ?c] =>
      destruct (faiss_write_index a b c) as [[[]|?] ?]
  | |- context [json_dump_metadata ?a ?b ?c] =>
      destruct (json_dump_metadata a b c) as [[[]|?] ?]
  | |- context [json_load_metadata ?a ?b] => destruct (json_load_metadata a b)
  | |- context [faiss_read_index ?a ?b] => destruct (faiss_read_index a b)
  | |- context [os_path_exists ?a ?b] => destruct (os_path_exists a b)
  end.

Ltac run_method :=
  unfold FaissIndexManager.world, FaissIndexManager.self_,
    bind, zoom, raise, ret, get, modify, read_fs, on_fs, lift_res;
  cbn;
  repeat (case_env_call; cbn);
  try reflexivity; try congruence.

Section IndexStays.
Context `{E : Env}.
Variables (self : FaissIndexManager.t) (w : World).

Lemma save_index_keeps_index (p : string) :
  FaissIndexManager.index (fst (snd (FaissIndexManager.save_index p (self, w))))
  = FaissIndexManager.index self.
Proof.
  unfold FaissIndexManager.save_index. run_method.
  destruct (FaissIndexManager.index self) eqn:Hix; run_method.
Qed.

Lemma save_metadata_keeps_index (md : list Meta.t) (p : string) :
  FaissIndexManager.index (fst (snd (FaissIndexManager.save_metadata md p (self, w))))
  = FaissIndexManager.index self.
Proof. unfold FaissIndexManager.save_metadata. run_method. Qed.

Lemma load_metadata_keeps_index (p : string) :
  match FaissIndexManager.load_metadata p (self, w) with
  | FaissIndexManager.Returned _ s | FaissIndexManager.Raised _ s =>
      FaissIndexManager.index (fst s) = FaissIndexManager.index self
  | FaissIndexManager.Raised_after_assignment _ _ _ ix _ =>
      ix = FaissIndexManager.index self
  end.
Proof.
  unfold FaissIndexManager.load_metadata. cbn [fst snd].
  destruct (os_path_exists p (fs w)); cbn [negb]; [|reflexivity].
  destruct (json_load_metadata p (fs w)) as [[md|held]|e]; reflexivity.
Qed.

Lemma load_index_failure_keeps_index (p : string) (e : exn) :
  fst (FaissIndexManager.load_index p (self, w)) = Raise e ->
  FaissIndexManager.index (fst (snd (FaissIndexManager.load_index p (self, w))))
  = FaissIndexManager.index self.
Proof. unfold FaissIndexManager.load_index. run_method. Qed.

Lemma create_index_failure_keeps_index (a : FaissIndexManager.ndarray2) (e : exn) :
  fst (FaissIndexManager.create_index a (self, w)) = Raise e ->
  FaissIndexManager.index (fst (snd (FaissIndexManager.create_index a (self, w))))
  = FaissIndexManager.index self.
Proof.
  unfold FaissIndexManager.create_index. run_method.
  destruct (_ =? _); cbn; [discriminate | reflexivity].
Qed.

End IndexStays.

(** ** find_photos: input validation *)

(** C9.  When the selfie path and the text query are both given or both
    missing ([None] and the empty string count as missing), [find_photos]
    returns [success = false] with a message and no match, and the world is
    unchanged: no text was encoded, no face extracted, no index searched. *)
Theorem find_photos_both_or_neither `{E : Env}
    (self : PhotoRetriever.t) (selfie_path text_query : option string)
    (thr : Q) (max_results : Z) (w : World) :
  truthy selfie_path = truthy text_query ->
  exists r,
    PhotoRetriever.find_photos self selfie_path text_query thr max_results w = (Ok r, w)
    /\ Result.success r = false
    /\ Result.message r <> ""
    /\ Result.matches r = [].
Proof.
  intros Hboth. unfold PhotoRetriever.find_photos. rewrite Hboth.
  destruct (truthy text_query); simpl; eexists; (split; [reflexivity|]);
    repeat split; discriminate.
Qed.

Lemma find_photos_both_or_neither_witness :
  exists r,
    @PhotoRetriever.find_photos Ref.std (PhotoRetriever.mk Ex.loaded)
      (Some "selfie.jpg") (Some "people dancing") (1 # 2) 100 (Ref.world0 [])
    = (Ok r, Ref.world0 [])
    /\ Result.success r = false
    /\ Result.message r <> ""
    /\ Result.matches r = [].
Proof.
  apply (@find_photos_both_or_neither Ref.std (PhotoRetriever.mk Ex.loaded)
           (Some "selfie.jpg") (Some "people dancing") (1 # 2) 100 (Ref.world0 [])).
  reflexivity.
Defined.

(** ** The no-match outcome *)

Lemma filter_candidates_none `{E : Env} (md : list Meta.t) (thr : Q) (pool : list (Q * Z)) :
  Forall (fun c => Spec.clears thr c = false) pool ->
  FaissIndexManager.filter_candidates md thr pool = Ok [].
Proof.
  induction 1 as [|[dist idx] pool Hc Hp IH]; [reflexivity|].
  simpl. unfold Spec.clears in Hc. simpl in Hc.
  destruct (idx =? -1); [exact IH|]. simpl in Hc.
  unfold Qgeb. rewrite Hc. exact IH.
Qed.

Lemma search_with_threshold_none `{E : Env}
    (self : FaissIndexManager.t) (query : embedding) (thr : Q) (k : Z)
    (ix : FaissIndex) (ds : list Q) (ls : list Z) (w : World) :
  FaissIndexManager.index self = Some ix ->
  faiss_search ix query k = Ok (ds, ls) ->
  Forall (fun c => Spec.clears thr c = false) (combine ds ls) ->
  FaissIndexManager.search_with_threshold self query thr k w
  = (Ok [], log_world (IndexSearch k) w).
Proof.
  intros Hix Hs Hn. unfold FaissIndexManager.search_with_threshold.
  unfold bind at 1. rewrite search_eq with (ix := ix) (ds := ds) (ls := ls) by assumption.
  unfold bind, lift_res, ret. rewrite filter_candidates_none by assumption.
  reflexivity.
Qed.

(** Whatever [query_embedding_of] hands on is the initial result with its
    query information filled in. *)
Lemma query_embedding_of_result `{E : Env}
    (result : Result.t) (selfie_path text_query : option string) (thr : Q)
    (w w' : World) (q : embedding) (r : Result.t) :
  PhotoRetriever.query_embedding_of result selfie_path text_query thr w
  = (Ok (inr (q, r)), w') ->
  exists i, r = Result.set_info result i.
Proof.
  unfold PhotoRetriever.query_embedding_of.
  destruct (truthy text_query); unfold bind, modify, lift_res, read_fs, ret; simpl.
  - destruct (encode_text _); intros H; inversion H; eauto.
  - destruct (extract_single_face_embedding _ _) as [[e|]|]; intros H; inversion H; eauto.
Qed.

(** C8.  When the index search succeeds and no candidate clears the
    threshold, [find_photos_by_embedding] and [find_photos] (whichever way
    the query embedding was obtained) return a result with [success = false],
    a non-empty message and no match; they do not raise. *)
Theorem no_match_is_a_result `{E : Env}
    (self : PhotoRetriever.t) (query : embedding) (thr : Q) (k : Z)
    (ix : FaissIndex) (ds : list Q) (ls : list Z)
    (person_name selfie_path text_query : option string)
    (w0 w : World) (r0 : Result.t) :
  FaissIndexManager.index (PhotoRetriever.index_manager self) = Some ix ->
  faiss_search ix query k = Ok (ds, ls) ->
  Forall (fun c => Spec.clears thr c = false) (combine ds ls) ->
  truthy selfie_path <> truthy text_query ->
  PhotoRetriever.query_embedding_of Result.initial selfie_path text_query thr w0
  = (Ok (inr (query, r0)), w) ->
  (exists r,
      PhotoRetriever.find_photos_by_embedding self query thr k person_name w
      = (Ok r, log_world (IndexSearch k) w)
      /\ Spec.no_match r)
  /\ (exists r,
         PhotoRetriever.find_photos self selfie_path text_query thr k w0
         = (Ok r, log_world (IndexSearch k) w)
         /\ Spec.no_match r).
Proof.
  intros Hix Hs Hn Hone Hq. split.
  - unfold PhotoRetriever.find_photos_by_embedding. rewrite Hix.
    unfold bind. rewrite search_with_threshold_none with (ix := ix) (ds := ds) (ls := ls)
      by assumption.
    simpl. eexists. split; [reflexivity|].
    unfold Spec.no_match. simpl. repeat split. discriminate.
  - destruct (query_embedding_of_result _ _ _ _ _ Hq) as [i ->].
    unfold PhotoRetriever.find_photos.
    destruct (truthy selfie_path), (truthy text_query); simpl; try congruence.
    + unfold bind at 1. rewrite Hq. unfold bind.
      rewrite search_with_threshold_none with (ix := ix) (ds := ds) (ls := ls)
        by assumption.
      simpl. eexists. split; [reflexivity|].
      unfold Spec.no_match. simpl. repeat split. discriminate.
    + unfold bind at 1. rewrite Hq. unfold bind.
      rewrite search_with_threshold_none with (ix := ix) (ds := ds) (ls := ls)
        by assumption.
      simpl. eexists. split; [reflexivity|].
      unfold Spec.no_match. simpl. repeat split. discriminate.
Qed.

Lemma no_match_is_a_result_witness :
  (exists r,
      @PhotoRetriever.find_photos_by_embedding Ref.std Ex.far_retriever
        (Ref.axis 0 1%Q) (1 # 2) 100 (Some "Ann")
        (@log_world Ref.std (EncodeText "a dog") (Ref.world0 []))
      = (Ok r, @log_world Ref.std (IndexSearch 100)
                 (@log_world Ref.std (EncodeText "a dog") (Ref.world0 [])))
      /\ Spec.no_match r)
  /\ (exists r,
         @PhotoRetriever.find_photos Ref.std Ex.far_retriever None (Some "a dog")
           (1 # 2) 100 (Ref.world0 [])
         = (Ok r, @log_world Ref.std (IndexSearch 100)
                    (@log_world Ref.std (EncodeText "a dog") (Ref.world0 [])))
         /\ Spec.no_match r).
Proof.
  apply (@no_match_is_a_result Ref.std Ex.far_retriever (Ref.axis 0 1%Q) (1 # 2) 100
           Ex.far_rows (fst Ex.far_pool) (snd Ex.far_pool)
           (Some "Ann") None (Some "a dog") (Ref.world0 [])
           (@log_world Ref.std (EncodeText "a dog") (Ref.world0 []))
           (Result.set_info Result.initial (TextQuery "a dog" 512 (1 # 2)))).
  - reflexivity.
  - vm_compute. reflexivity.
  - apply none_clears_check. vm_compute. reflexivity.
  - simpl. discriminate.
  - vm_compute. reflexivity.
Defined.

(** ** Dictionaries *)

Section DictFacts.
Variable V : Type.
Implicit Types (d : dict V) (k : string) (v : V).

Lemma dict_get_set_eq d k v : dict_get (dict_set d k v) k = Some v.
Proof.
  induction d as [|[k' v'] d IH]; simpl.
  - rewrite String.eqb_refl. reflexivity.
  - destruct (String.eqb_spec k' k) as [->|Ne]; simpl.
    + rewrite String.eqb_refl. reflexivity.
    + destruct (String.eqb_spec k' k); [contradiction | exact IH].
Qed.

Lemma dict_get_set_neq d k k' v :
  k <> k' -> dict_get (dict_set d k v) k' = dict_get d k'.
Proof.
  intros Ne. induction d as [|[k0 v0] d IH]; simpl.
  - destruct (String.eqb_spec k k'); [contradiction | reflexivity].
  - destruct (String.eqb_spec k0 k) as [->|Ne0]; simpl.
    + destruct (String.eqb_spec k k'); [contradiction | reflexivity].
    + rewrite IH. reflexivity.
Qed.

Lemma dict_get_In d k v : dict_get d k = Some v -> In (k, v) d.
Proof.
  induction d as [|[k' v'] d IH]; simpl; [discriminate|].
  destruct (String.eqb_spec k' k) as [->|Ne]; intros H.
  - inversion H. auto.
  - auto.
Qed.

Lemma dict_get_None d k : dict_get d k = None <-> ~ In k (dict_keys d).
Proof.
  induction d as [|[k' v'] d IH]; simpl; [tauto|].
  destruct (String.eqb_spec k' k) as [->|Ne].
  - split; [discriminate | intros H; exfalso; auto].
  - rewrite IH. unfold dict_keys. tauto.
Qed.

Lemma In_dict_get d k v :
  NoDup (dict_keys d) -> In (k, v) d -> dict_get d k = Some v.
Proof.
  induction d as [|[k' v'] d IH]; simpl; [tauto|].
  intros Hnd [Heq | Hin]; inversion Hnd as [|? ? Hnotin Hnd']; subst.
  - inversion Heq; subst. rewrite String.eqb_refl. reflexivity.
  - destruct (String.eqb_spec k' k) as [->|Ne]; [|auto].
    exfalso. apply Hnotin. unfold dict_keys.
    change k with (fst (k, v)). apply in_map. assumption.
Qed.

Lemma dict_contains_In d k : dict_contains d k = true <-> In k (dict_keys d).
Proof.
  unfold dict_contains. destruct (dict_get d k) eqn:G.
  - split; [intros _ | reflexivity].
    apply dict_get_In in G. change k with (fst (k, v)). apply in_map. assumption.
  - apply dict_get_None in G. split; [discriminate | contradiction].
Qed.

(** Assigning to a stored key keeps the keys; to a new key, appends it. *)
Lemma dict_keys_set d k v :
  dict_keys (dict_set d k v)
  = if dict_contains d k then dict_keys d else (dict_keys d ++ [k])%list.
Proof.
  unfold dict_contains. induction d as [|[k' v'] d IH]; simpl; [reflexivity|].
  destruct (String.eqb_spec k' k) as [->|Ne]; simpl; [reflexivity|].
  unfold dict_keys in *. rewrite IH.
  destruct (dict_get d k); reflexivity.
Qed.

Lemma dict_set_NoDup d k v :
  NoDup (dict_keys d) -> NoDup (dict_keys (dict_set d k v)).
Proof.
  intros Hnd. rewrite dict_keys_set.
  destruct (dict_contains d k) eqn:C; [assumption|].
  apply NoDup_app; [assumption | repeat constructor; simpl; tauto |].
  intros x Hx [<-|[]]. apply dict_contains_In in Hx. congruence.
Qed.

End DictFacts.

Lemma insert_str_perm (x : string) (l : list string) :
  Permutation (insert_str x l) (x :: l).
Proof.
  induction l as [|y l IH]; simpl; auto.
  destruct (String.ltb y x); auto.
  rewrite IH. apply perm_swap.
Qed.

Lemma sorted_perm (l : list string) : Permutation (Py.sorted l) l.
Proof.
  induction l as [|x l IH]; simpl; auto.
  rewrite insert_str_perm. auto.
Qed.

(** ** register_person *)

(** C1 (the code at the failing input).  On an empty store "Ann" is
    registered with a first selfie and then "ann" with a second one.  Both
    registrations report success.  The store then holds two entries, and both
    names are listed.  The lookups, which compare names without regard to
    case, answer a query for "ann" with the first entry that matches: the
    name "Ann" with the first selfie and its embedding.  The profile just
    registered is not the one returned, and "ann" has not become the name of
    the person. *)
Theorem register_case_variant_shadowed :
  fst Ex.ann_then_ann
  = (Ok (RegResult.mk true "✅ Successfully registered Ann!"),
     Ok (RegResult.mk true "✅ Successfully registered ann!"))
  /\ PersonManager.profiles (fst (snd Ex.ann_then_ann))
     = [("Ann", Profile.mk (Ref.axis 0 1%Q) "data/selfies/Ann_1.jpg");
        ("ann", Profile.mk (Ref.axis 1 1%Q) "data/selfies/ann_2.jpg")]
  /\ PersonManager.get_all_names (fst (snd Ex.ann_then_ann)) = ["Ann"; "ann"]
  /\ @PersonManager.get_profile Ref.std (fst (snd Ex.ann_then_ann)) "ann"
     = Some ("Ann", Profile.mk (Ref.axis 0 1%Q) "data/selfies/Ann_1.jpg")
  /\ @PersonManager.get_person_embedding Ref.std (fst (snd Ex.ann_then_ann)) "ann"
     = Some (Ref.axis 0 1%Q).
Proof. vm_compute. repeat split. Qed.

Section RegisterPerson.
Context `{E : Env}.
Variables (self : PersonManager.t) (w : World) (name selfie_path : string).
Variables (emb : embedding) (f1 f2 : Fs).

Hypothesis Hname : strip name <> "".
Hypothesis Hselfie : os_path_exists selfie_path (fs w) = true.
Hypothesis Hmodels : PersonManager.face_processor self = true \/ new_face_processor = Ok tt.
Hypothesis Hface : extract_single_face_embedding selfie_path (fs w) = Ok (Some emb).
Hypothesis Hmkdir :
  os_makedirs (dirname (PersonManager.profiles_path self)) (fs w) = (Ok tt, f1).
Hypothesis Hdump :
  json_dump_profiles
    (PersonManager.dict_of_items
       (Spec.registered (PersonManager.profiles self) name selfie_path emb))
    (PersonManager.profiles_path self) f1 = (Ok tt, f2).

Lemma register_person_run :
  PersonManager.register_person name selfie_path (self, w)
  = (Ok (RegResult.mk true ("✅ Successfully registered " ++ strip name ++ "!")),
     (PersonManager.mk (PersonManager.profiles_path self)
        (Spec.registered (PersonManager.profiles self) name selfie_path emb) true,
      set_fs f2 (log_world (ExtractSingleFace selfie_path) w))).
Proof.
  unfold PersonManager.register_person.
  destruct (String.eqb_spec (strip name) "") as [Heq|_]; [contradiction|].
  unfold bind at 1. unfold PersonManager.world at 1, zoom, read_fs.
  cbn [fst snd]. rewrite Hselfie. cbn [negb].
  unfold bind at 1.
  assert (Hinit : PersonManager._init_face_processor (self, w)
                  = (Ok tt, (PersonManager.set_face_processor true self, w))).
  { unfold PersonManager._init_face_processor, PersonManager.self_.
    unfold bind, zoom, get, modify, lift_res, ret. cbn [fst snd].
    destruct self as [pp pr fp]. cbn.
    destruct fp; [reflexivity|].
    destruct Hmodels as [Hm|Hm]; [discriminate Hm|]. rewrite Hm. reflexivity. }
  rewrite Hinit. clear Hinit.
  unfold try_except, PersonManager.save_profiles.
  unfold PersonManager.world, PersonManager.self_.
  unfold bind, zoom, get, modify, read_fs, on_fs, ret, log_world, set_fs.
  cbn [fst snd fs trace PersonManager.profiles PersonManager.profiles_path
       PersonManager.set_face_processor PersonManager.set_profiles
       PersonManager.face_processor].
  rewrite Hface.
  cbn [fst snd fs trace PersonManager.profiles PersonManager.profiles_path
       PersonManager.set_face_processor PersonManager.set_profiles
       PersonManager.face_processor].
  rewrite Hmkdir.
  cbn [fst snd fs trace PersonManager.profiles PersonManager.profiles_path].
  unfold dict_items.
  change (dict_set (PersonManager.profiles self) (strip name)
            (Profile.mk emb selfie_path))
    with (Spec.registered (PersonManager.profiles self) name selfie_path emb).
  rewrite Hdump.
  reflexivity.
Qed.

End RegisterPerson.

(** X21.  A registration that succeeds stores the profile under the trimmed
    name exactly as typed and leaves the profile of every other name as it
    was.  If that very name was stored, the number of names is unchanged;
    otherwise one name is added.  Either way [get_all_names] lists the
    registered name exactly once. *)
Theorem register_person_exact_key `{E : Env}
    (self : PersonManager.t) (w : World) (name selfie_path : string)
    (emb : embedding) (f1 f2 : Fs) :
  NoDup (dict_keys (PersonManager.profiles self)) ->
  strip name <> "" ->
  os_path_exists selfie_path (fs w) = true ->
  PersonManager.face_processor self = true \/ new_face_processor = Ok tt ->
  extract_single_face_embedding selfie_path (fs w) = Ok (Some emb) ->
  os_makedirs (dirname (PersonManager.profiles_path self)) (fs w) = (Ok tt, f1) ->
  json_dump_profiles
    (PersonManager.dict_of_items
       (Spec.registered (PersonManager.profiles self) name selfie_path emb))
    (PersonManager.profiles_path self) f1 = (Ok tt, f2) ->
  exists self' w',
    PersonManager.register_person name selfie_path (self, w)
    = (Ok (RegResult.mk true ("✅ Successfully registered " ++ strip name ++ "!")),
       (self', w'))
    /\ dict_get (PersonManager.profiles self') (strip name)
       = Some (Profile.mk emb selfie_path)
    /\ (forall k, k <> strip name ->
                  dict_get (PersonManager.profiles self') k
                  = dict_get (PersonManager.profiles self) k)
    /\ count_occ string_dec (PersonManager.get_all_names self') (strip name) = 1%nat
    /\ (forall k, In k (PersonManager.get_all_names self) ->
                  In k (PersonManager.get_all_names self'))
    /\ (In (strip name) (PersonManager.get_all_names self) ->
        List.length (PersonManager.get_all_names self')
        = List.length (PersonManager.get_all_names self))
    /\ (~ In (strip name) (PersonManager.get_all_names self) ->
        List.length (PersonManager.get_all_names self')
        = S (List.length (PersonManager.get_all_names self))).
Proof.
  intros Hnd Hname Hselfie Hmodels Hface Hmkdir Hdump.
  do 2 eexists. split.
  { eapply register_person_run; eassumption. }
  unfold PersonManager.get_all_names. cbn [PersonManager.profiles].
  unfold Spec.registered.
  set (d := PersonManager.profiles self) in *.
  set (v := Profile.mk emb selfie_path).
  assert (Hin : forall k, In k (Py.sorted (dict_keys d)) <-> In k (dict_keys d)).
  { intros k. split; apply Permutation_in;
      [apply sorted_perm | symmetry; apply sorted_perm]. }
  assert (Hkeys := dict_keys_set d (strip name) v).
  split; [apply dict_get_set_eq|].
  split; [intros k Hk; apply dict_get_set_neq; congruence|].
  split.
  { rewrite (proj1 (Permutation_count_occ string_dec _ _) (sorted_perm _)).
    apply NoDup_count_occ'; [apply dict_set_NoDup; assumption|].
    rewrite Hkeys. destruct (dict_contains d (strip name)) eqn:C.
    - apply dict_contains_In. assumption.
    - apply in_or_app. right. simpl. auto. }
  split.
  { intros k Hk. apply Hin in Hk.
    eapply Permutation_in; [symmetry; apply sorted_perm|].
    rewrite Hkeys. destruct (dict_contains d (strip name)); [assumption|].
    apply in_or_app. auto. }
  split.
  - intros Hk. apply Hin in Hk. apply dict_contains_In in Hk.
    rewrite (Permutation_length (sorted_perm _)), Hkeys, Hk.
    symmetry. apply Permutation_length, sorted_perm.
  - intros Hk.
    assert (C : dict_contains d (strip name) = false).
    { destruct (dict_contains d (strip name)) eqn:C; [|reflexivity].
      exfalso. apply Hk, Hin, dict_contains_In. assumption. }
    rewrite (Permutation_length (sorted_perm _)), Hkeys, C, length_app.
    rewrite (Permutation_length (sorted_perm (dict_keys d))). simpl. lia.
Qed.

Lemma register_person_exact_key_witness :
  exists self' w',
    @PersonManager.register_person Ref.std Ex.padded_ann "data/selfies/ann_2.jpg"
      (Ex.ann_store, Ref.world0 Ex.selfies)
    = (Ok (RegResult.mk true ("✅ Successfully registered " ++ strip Ex.padded_ann ++ "!")),
       (self', w'))
    /\ dict_get (PersonManager.profiles self') (strip Ex.padded_ann)
       = Some (Profile.mk (Ref.axis 1 1%Q) "data/selfies/ann_2.jpg")
    /\ (forall k, k <> strip Ex.padded_ann ->
                  dict_get (PersonManager.profiles self') k
                  = dict_get (PersonManager.profiles Ex.ann_store) k)
    /\ count_occ string_dec (PersonManager.get_all_names self') (strip Ex.padded_ann) = 1%nat
    /\ (forall k, In k (PersonManager.get_all_names Ex.ann_store) ->
                  In k (PersonManager.get_all_names self'))
    /\ (In (strip Ex.padded_ann) (PersonManager.get_all_names Ex.ann_store) ->
        List.length (PersonManager.get_all_names self')
        = List.length (PersonManager.get_all_names Ex.ann_store))
    /\ (~ In (strip Ex.padded_ann) (PersonManager.get_all_names Ex.ann_store) ->
        List.length (PersonManager.get_all_names self')
        = S (List.length (PersonManager.get_all_names Ex.ann_store))).
Proof.
  apply (@register_person_exact_key Ref.std Ex.ann_store (Ref.world0 Ex.selfies)
           Ex.padded_ann "data/selfies/ann_2.jpg" (Ref.axis 1 1%Q)
           Ex.disk_after_mkdir Ex.disk_after_dump).
  - simpl. constructor; [simpl; tauto | constructor].
  - vm_compute. discriminate.
  - vm_compute. reflexivity.
  - left. reflexivity.
  - vm_compute. reflexivity.
  - vm_compute. reflexivity.
  - vm_compute. reflexivity.
Defined.

(** ** Grouping by image *)

Lemma running_max_ge_init (l : list Q) (a : Q) : (a <= Spec.running_max a l)%Q.
Proof.
  revert a. induction l as [|x l IH]; intros a; simpl; [apply Qle_refl|].
  unfold Spec.running_max in *. simpl.
  destruct (Qgtb x a) eqn:G.
  - apply Qgtb_true in G. eapply Qle_trans; [apply Qlt_le_weak; exact G | apply IH].
  - apply IH.
Qed.

Lemma running_max_ge (l : list Q) (a x : Q) :
  In x l -> (x <= Spec.running_max a l)%Q.
Proof.
  revert a. induction l as [|y l IH]; intros a; simpl; [tauto|].
  intros [->|Hin].
  - change (Spec.running_max a (x :: l))
      with (Spec.running_max (if Qgtb x a then x else a) l).
    destruct (Qgtb x a) eqn:G.
    + apply running_max_ge_init.
    + apply Qgtb_false in G. eapply Qle_trans; [exact G | apply running_max_ge_init].
  - change (Spec.running_max a (y :: l))
      with (Spec.running_max (if Qgtb y a then y else a) l).
    apply IH. assumption.
Qed.

Lemma running_max_in (l : list Q) (a : Q) :
  Spec.running_max a l = a \/ In (Spec.running_max a l) l.
Proof.
  revert a. induction l as [|y l IH]; intros a; [left; reflexivity|].
  change (Spec.running_max a (y :: l))
    with (Spec.running_max (if Qgtb y a then y else a) l).
  destruct (IH (if Qgtb y a then y else a)) as [H|H].
  - rewrite H. destruct (Qgtb y a); [right; left; reflexivity | left; reflexivity].
  - right. right. assumption.
Qed.

(** Started from 0, the running maximum is a maximum of the list exactly
    when some entry is non-negative; otherwise it stays 0. *)
Lemma running_max_nonneg (l : list Q) :
  (exists x, In x l /\ (0 <= x)%Q) -> Spec.is_max_of (Spec.running_max 0 l) l.
Proof.
  intros (x & Hx & Hpos). split; [|intros y Hy; apply running_max_ge; assumption].
  destruct (running_max_in l 0) as [H|H].
  - exists x. split; [assumption|]. rewrite H.
    apply Qle_antisym; [|assumption].
    pose proof (running_max_ge l 0 x Hx) as Hle. rewrite H in Hle. exact Hle.
  - eexists. split; [exact H | reflexivity].
Qed.

Lemma running_max_all_negative (l : list Q) :
  (forall x, In x l -> (x < 0)%Q) -> Spec.running_max 0 l = 0%Q.
Proof.
  intros Hneg. destruct (running_max_in l 0) as [H|H]; [assumption|].
  exfalso. apply Hneg in H.
  exact (Qlt_not_le _ _ H (running_max_ge_init l 0)).
Qed.

Lemma fold_add_face (fs : list Face.t) (g : Group.t) :
  fold_left PhotoRetriever.add_face fs g
  = Group.mk (Group.image_path g) (Group.faces g ++ fs)
      (Spec.running_max (Group.max_similarity g) (map Face.similarity fs))
      (Group.avg_similarity g).
Proof.
  revert g. induction fs as [|f fs IH]; intros g.
  - destruct g. simpl. rewrite app_nil_r. reflexivity.
  - simpl fold_left. rewrite IH. unfold PhotoRetriever.add_face. simpl.
    rewrite <- app_assoc. reflexivity.
Qed.

Lemma group_step_get (d : dict Group.t) (m : Match.t) (md : Meta.t) :
  Match.metadata m = Some md ->
  exists d2,
    PhotoRetriever.group_step d m = Ok d2
    /\ (NoDup (dict_keys d) -> NoDup (dict_keys d2))
    /\ forall k,
         dict_get d2 k
         = if String.eqb (Meta.image_path md) k
           then Some (PhotoRetriever.add_face (Spec.group_or_new d k) (Spec.face_of m))
           else dict_get d k.
Proof.
  intros Hmd. unfold PhotoRetriever.group_step, Spec.face_of. rewrite Hmd.
  cbn [PhotoRetriever.image_path_of].
  set (p := Meta.image_path md).
  set (f := PhotoRetriever.face_info (Some md) (Match.similarity m)).
  unfold dict_contains. destruct (dict_get d p) as [g|] eqn:G.
  - rewrite G. eexists. split; [reflexivity|]. split; [apply dict_set_NoDup|].
    intros k. destruct (String.eqb_spec p k) as [<-|Ne].
    + rewrite dict_get_set_eq. unfold Spec.group_or_new. rewrite G. reflexivity.
    + apply dict_get_set_neq. assumption.
  - rewrite dict_get_set_eq. eexists. split; [reflexivity|].
    split; [intros; do 2 apply dict_set_NoDup; assumption|].
    intros k. destruct (String.eqb_spec p k) as [<-|Ne].
    + rewrite dict_get_set_eq. unfold Spec.group_or_new. rewrite G. reflexivity.
    + rewrite !dict_get_set_neq by assumption. reflexivity.
Qed.

(** After the grouping loop, the group of an image consists of the members
    of that image, added in list order to the group it had before. *)
Lemma group_matches_get (ms : list Match.t) :
  Forall Spec.has_metadata ms ->
  forall d : dict Group.t,
  exists d',
    PhotoRetriever.group_matches d ms = Ok d'
    /\ (NoDup (dict_keys d) -> NoDup (dict_keys d'))
    /\ forall k,
         dict_get d' k
         = match Spec.members k ms with
           | [] => dict_get d k
           | mem => Some (fold_left PhotoRetriever.add_face (map Spec.face_of mem)
                            (Spec.group_or_new d k))
           end.
Proof.
  induction 1 as [|m ms Hm Hms IH]; intros d.
  - exists d. simpl. auto.
  - unfold Spec.has_metadata in Hm.
    destruct (Match.metadata m) as [md|] eqn:Hmd; [|contradiction].
    destruct (group_step_get d m Hmd) as (d2 & Hstep & Hnd2 & Hget2).
    destruct (IH d2) as (d' & Hrec & Hnd' & Hget').
    exists d'. simpl. rewrite Hstep. split; [assumption|]. split; [auto|].
    intros k. rewrite Hget'. unfold Spec.members. simpl filter.
    unfold Spec.path_of at 2. rewrite Hmd.
    fold (Spec.members k ms).
    destruct (String.eqb_spec (Meta.image_path md) k) as [Heq|Ne].
    + simpl map. simpl fold_left.
      assert (Hg2 : Spec.group_or_new d2 k
                    = PhotoRetriever.add_face (Spec.group_or_new d k) (Spec.face_of m)).
      { unfold Spec.group_or_new at 1. rewrite Hget2.
        destruct (String.eqb_spec (Meta.image_path md) k); [reflexivity|contradiction]. }
      destruct (Spec.members k ms) as [|m' mem].
      * rewrite Hget2.
        destruct (String.eqb_spec (Meta.image_path md) k); [reflexivity|contradiction].
      * rewrite Hg2. reflexivity.
    + assert (Hg2 : Spec.group_or_new d2 k = Spec.group_or_new d k).
      { unfold Spec.group_or_new. rewrite Hget2.
        destruct (String.eqb_spec (Meta.image_path md) k); [contradiction|reflexivity]. }
      rewrite Hg2, Hget2.
      destruct (String.eqb_spec (Meta.image_path md) k); [contradiction|reflexivity].
Qed.

Lemma finish_group_ok (g : Group.t) :
  Group.faces g <> [] -> PhotoRetriever.finish_group g = Ok (Spec.finished g).
Proof.
  intros Hne. unfold PhotoRetriever.finish_group, Spec.finished, Spec.mean, truediv.
  rewrite length_map.
  destruct (Group.faces g) as [|f fs]; [contradiction | reflexivity].
Qed.

Lemma finish_groups_ok (gs : list Group.t) :
  Forall (fun g => Group.faces g <> []) gs ->
  PhotoRetriever.finish_groups gs = Ok (map Spec.finished gs).
Proof.
  induction 1 as [|g gs Hg Hgs IH]; [reflexivity|].
  simpl. rewrite finish_group_ok by assumption. rewrite IH. reflexivity.
Qed.

Lemma similarity_face_of (mem : list Match.t) :
  map Face.similarity (map Spec.face_of mem) = Spec.similarities mem.
Proof.
  unfold Spec.similarities. rewrite map_map. reflexivity.
Qed.

(** An entry of the dictionary built from the empty one. *)
Lemma group_entry (ms : list Match.t) (d' : dict Group.t) (k : string) (g : Group.t) :
  (forall k, dict_get d' k
             = match Spec.members k ms with
               | [] => None
               | mem => Some (fold_left PhotoRetriever.add_face (map Spec.face_of mem)
                                (PhotoRetriever.new_group k))
               end) ->
  dict_get d' k = Some g ->
  Spec.members k ms <> []
  /\ g = Group.mk k (map Spec.face_of (Spec.members k ms))
           (Spec.running_max 0 (Spec.similarities (Spec.members k ms))) 0.
Proof.
  intros Hget Hk. rewrite Hget in Hk.
  destruct (Spec.members k ms) as [|m mem] eqn:M; [discriminate|].
  split; [discriminate|].
  inversion Hk as [Hg]. rewrite fold_add_face, similarity_face_of. reflexivity.
Qed.

(** Face mode, in general: the loop succeeds on matches that carry their
    metadata, yields one photo per image, and each photo is the
    [Spec.face_group] of the members of its image. *)
Lemma aggregate_faces_stats (ms : list Match.t) :
  Forall Spec.has_metadata ms ->
  exists photos,
    PhotoRetriever.aggregate_faces ms = Ok photos
    /\ (ms <> [] -> photos <> [])
    /\ NoDup (map Photo.image_path photos)
    /\ Forall (fun p => Spec.face_group p (Spec.members (Photo.image_path p) ms)) photos.
Proof.
  intros Hmd.
  destruct (group_matches_get Hmd []) as (d' & Hrun & Hnd & Hget).
  specialize (Hnd (NoDup_nil _)).
  assert (Hget' : forall k, dict_get d' k
             = match Spec.members k ms with
               | [] => None
               | mem => Some (fold_left PhotoRetriever.add_face (map Spec.face_of mem)
                                (PhotoRetriever.new_group k))
               end).
  { intros k. rewrite Hget. destruct (Spec.members k ms); reflexivity. }
  clear Hget.
  assert (Hentry : forall k g, In (k, g) d' ->
            Spec.members k ms <> []
            /\ g = Group.mk k (map Spec.face_of (Spec.members k ms))
                     (Spec.running_max 0 (Spec.similarities (Spec.members k ms))) 0).
  { intros k g Hin. eapply group_entry; [exact Hget'|].
    apply In_dict_get; assumption. }
  exists (map Spec.finished (dict_values d')).
  unfold PhotoRetriever.aggregate_faces. rewrite Hrun.
  split; [|split; [|split]].
  - apply finish_groups_ok. apply Forall_forall. intros g Hg.
    unfold dict_values in Hg. apply in_map_iff in Hg.
    destruct Hg as ([k g'] & <- & Hin). simpl.
    destruct (Hentry k g' Hin) as (Hne & ->). simpl.
    destruct (Spec.members k ms); [contradiction | discriminate].
  - intros Hms. destruct ms as [|m ms']; [contradiction|].
    inversion Hmd as [|? ? Hm _]; subst. unfold Spec.has_metadata in Hm.
    destruct (Match.metadata m) as [md|] eqn:Em; [|contradiction].
    specialize (Hget' (Meta.image_path md)).
    unfold Spec.members in Hget'. simpl filter in Hget'.
    unfold Spec.path_of at 1 in Hget'. rewrite Em, String.eqb_refl in Hget'.
    destruct d' as [|kv d']; [discriminate Hget' | discriminate].
  - unfold dict_values. rewrite map_map, map_map.
    erewrite map_ext_in; [exact Hnd|].
    intros [k g] Hin. simpl. destruct (Hentry k g Hin) as (_ & ->). reflexivity.
  - apply Forall_forall. intros p Hp.
    unfold dict_values in Hp. rewrite map_map in Hp. apply in_map_iff in Hp.
    destruct Hp as ([k g] & <- & Hin). simpl.
    destruct (Hentry k g Hin) as (Hne & ->).
    unfold Spec.face_group, Spec.finished. simpl.
    rewrite similarity_face_of, length_map. repeat split. assumption.
Qed.

(** Where the code agrees with the claim: some member is non-negative. *)
Lemma face_group_aggregates (p : Photo.t) (mem : list Match.t) :
  Spec.face_group p mem ->
  (exists x, In x (Spec.similarities mem) /\ (0 <= x)%Q) ->
  Spec.aggregates p mem.
Proof.
  intros (Hne & Hf & Hn & Ha & Hm) Hpos. unfold Spec.aggregates.
  rewrite Hm, Ha, Hn. split; [apply running_max_nonneg; assumption|].
  split; reflexivity.
Qed.

(** Where it does not: every member is negative, and the stored maximum is
    the initial 0.0, above every member. *)
Lemma face_group_all_negative (p : Photo.t) (mem : list Match.t) :
  Spec.face_group p mem ->
  (forall x, In x (Spec.similarities mem) -> (x < 0)%Q) ->
  Photo.max_similarity p = 0%Q
  /\ ~ Spec.is_max_of (Photo.max_similarity p) (Spec.similarities mem).
Proof.
  intros (Hne & Hf & Hn & Ha & Hm) Hneg.
  rewrite Hm, running_max_all_negative by assumption.
  split; [reflexivity|].
  intros ((y & Hy & Heq) & _). apply Hneg in Hy. rewrite Heq in Hy.
  exact (Qlt_irrefl _ Hy).
Qed.

(** C3 (the code at the failing input).  One photo holds two faces whose
    similarities to the query are -3/5 and -4/5; with threshold -1 both pass.
    The photo entry has the claimed mean (-7/10) and count (2), but its
    [max_similarity] is the initial 0.0, which is no member's similarity. *)
Theorem face_group_max_of_negative_members :
  exists r p,
    Ex.away_run = Ok r
    /\ Result.matches r = [p]
    /\ Forall2 Qeq (Ex.face_similarities p) [-3 # 5; -4 # 5]%Q
    /\ Photo.max_similarity p = 0%Q
    /\ ~ Spec.is_max_of (Photo.max_similarity p) (Ex.face_similarities p)
    /\ (Photo.avg_similarity p == -7 # 10)%Q
    /\ Photo.num_matches p = 2%nat.
Proof.
  remember Ex.away_run as x eqn:Hx. vm_compute in Hx. subst x.
  do 2 eexists. split; [reflexivity|]. split; [reflexivity|].
  unfold Ex.face_similarities. cbn [Photo.faces Photo.max_similarity
    Photo.avg_similarity Photo.num_matches map Face.similarity].
  split; [repeat constructor|].
  split; [reflexivity|].
  split; [|split; reflexivity].
  intros ((y & Hy & Heq) & _).
  destruct Hy as [<-|[<-|[]]]; vm_compute in Heq; discriminate.
Qed.

(** ** Loading, and matches without metadata *)

(** [__init__] loads whatever the two files hold; nothing compares the
    number of vectors with the number of records. *)
Lemma init_run `{E : Env} (index_path metadata_path : string) (w : World)
      (ix : FaissIndex) (md : list Meta.t) :
  new_face_processor = Ok tt ->
  os_path_exists index_path (fs w) = true ->
  faiss_read_index index_path (fs w) = Ok ix ->
  os_path_exists metadata_path (fs w) = true ->
  json_load_metadata metadata_path (fs w) = Ok (Records md) ->
  PhotoRetriever.init index_path metadata_path w
  = (Ok (PhotoRetriever.mk (FaissIndexManager.mk 512 (Some ix) md)), w).
Proof.
  intros Hfp Hex1 Hix Hex2 Hmd.
  unfold PhotoRetriever.init, FaissIndexManager.load_index,
    FaissIndexManager.load_metadata, FaissIndexManager.world, FaissIndexManager.self_,
    FaissIndexManager.init.
  unfold try_except_on, bind, zoom, lift_res, read_fs, modify, get, ret.
  rewrite Hfp. cbn [fst snd]. rewrite Hex1. cbn [negb fst snd]. rewrite Hix.
  cbn [fst snd FaissIndexManager.set_index]. rewrite Hex2. cbn [negb].
  rewrite Hmd. reflexivity.
Qed.






(** ** Text queries and the mode of the index *)

Lemma labels_in_range_ok (md : list Meta.t) (pool : list (Q * Z)) :
  Spec.labels_in_range md pool -> Spec.labels_ok pool.
Proof.
  apply Forall_impl. intros c Hc. lia.
Qed.

Lemma survivors_have_metadata `{E : Env} (md : list Meta.t) (thr : Q) (pool : list (Q * Z)) :
  Spec.labels_in_range md pool ->
  Forall Spec.has_metadata (Spec.survivors md thr pool).
Proof.
  intros Hr. apply Forall_forall. intros m Hm.
  unfold Spec.survivors in Hm. apply in_map_iff in Hm.
  destruct Hm as (c & <- & Hc). apply filter_In in Hc. destruct Hc as [Hin Hcl].
  unfold Spec.labels_in_range in Hr. rewrite Forall_forall in Hr.
  specialize (Hr c Hin).
  unfold Spec.clears in Hcl. apply andb_true_iff in Hcl. destruct Hcl as [Hv _].
  apply negb_true_iff, Z.eqb_neq in Hv.
  unfold Spec.has_metadata, Spec.match_of. simpl.
  intros Hnone. apply nth_error_None in Hnone. lia.
Qed.

Lemma survivors_nonempty `{E : Env} (md : list Meta.t) (thr : Q) (pool : list (Q * Z)) :
  Exists (fun c => Spec.clears thr c = true) pool ->
  Spec.survivors md thr pool <> [].
Proof.
  intros Hex. apply Exists_exists in Hex. destruct Hex as (c & Hin & Hc).
  assert (Hs : In (Spec.match_of md c) (Spec.survivors md thr pool)).
  { unfold Spec.survivors. apply in_map. apply filter_In. auto. }
  intros Hnil. rewrite Hnil in Hs. exact Hs.
Qed.

Lemma sort_desc_nonempty (A : Type) (key : A -> Q) (l : list A) :
  l <> [] -> sort_desc key l <> [].
Proof.
  intros Hne Hnil. apply Hne. apply length_zero_iff_nil.
  rewrite <- (sort_desc_length key l), Hnil. reflexivity.
Qed.

Lemma labels_in_range_check (md : list Meta.t) (pool : list (Q * Z)) :
  forallb (fun c => (-1 <=? snd c) && (snd c <? Z.of_nat (List.length md)))%bool pool
  = true ->
  Spec.labels_in_range md pool.
Proof.
  intros H. apply Forall_forall. intros c Hc.
  rewrite forallb_forall in H. specialize (H c Hc).
  apply andb_true_iff in H. destruct H as [H1 H2].
  apply Z.leb_le in H1. apply Z.ltb_lt in H2. lia.
Qed.

Lemma some_clears_check `{E : Env} (thr : Q) (pool : list (Q * Z)) :
  existsb (Spec.clears thr) pool = true ->
  Exists (fun c => Spec.clears thr c = true) pool.
Proof.
  intros H. apply existsb_exists in H. apply Exists_exists. exact H.
Qed.

(** C2 (as stated, refuted).  The metadata is in face mode; a text query
    is encoded, the index is searched, and [find_photos] returns
    [success = true] with the matching photo. *)
Lemma text_query_on_face_index_counterexample :
  PhotoRetriever.index_mode Ex.two_records = "face"
  /\ exists r w',
       @PhotoRetriever.find_photos Ref.std (PhotoRetriever.mk Ex.loaded)
         None (Some "people dancing") (1 # 2) 100 (Ref.world0 [])
       = (Ok r, w')
       /\ Result.success r = true
       /\ Result.total_photos r = 1%nat
       /\ trace w' = [EncodeText "people dancing"; IndexSearch 100].
Proof.
  split; [reflexivity|].
  remember (@PhotoRetriever.find_photos Ref.std _ _ _ _ _ _) as x eqn:Hx.
  vm_compute in Hx. subst x. do 2 eexists. split; [reflexivity|].
  repeat split.
Qed.

(* ================================================================== *)
(** * Further properties *)
(* ================================================================== *)

(** ** FaissIndexManager: building, saving, loading *)

(** X1.  [create_index] never touches the metadata or the disk.  With the
    configured dimension it replaces the index by one built from the rows;
    with any other it raises [ValueError] and the manager is unchanged. *)
Theorem create_index_effect `{E : Env}
    (self : FaissIndexManager.t) (w : World) (a : FaissIndexManager.ndarray2) :
  let out := FaissIndexManager.create_index a (self, w) in
  snd (snd out) = w
  /\ FaissIndexManager.metadata (fst (snd out)) = FaissIndexManager.metadata self
  /\ FaissIndexManager.embedding_dim (fst (snd out))
     = FaissIndexManager.embedding_dim self
  /\ (FaissIndexManager.shape1 a = FaissIndexManager.embedding_dim self ->
      fst out = Ok tt
      /\ FaissIndexManager.index (fst (snd out))
         = Some (faiss_build (FaissIndexManager.embedding_dim self)
                   (FaissIndexManager.rows a)))
  /\ (FaissIndexManager.shape1 a <> FaissIndexManager.embedding_dim self ->
      (exists msg, fst out = Raise (ValueError msg)) /\ fst (snd out) = self).
Proof.
  unfold FaissIndexManager.create_index, FaissIndexManager.self_.
  unfold bind, zoom, get, modify, raise. cbn.
  destruct (Z.eqb_spec (FaissIndexManager.shape1 a)
              (FaissIndexManager.embedding_dim self)) as [Heq|Hne]; cbn.
  - split; [reflexivity|]. split; [reflexivity|]. split; [reflexivity|].
    split; [intros _; split; reflexivity | intros Hne; contradiction].
  - split; [reflexivity|]. split; [reflexivity|]. split; [reflexivity|].
    split; [intros Heq; contradiction|].
    intros _. split; [eexists; reflexivity | reflexivity].
Qed.

(** X2.  [save_metadata] assigns [self.metadata] before it writes: when the
    directory cannot be created the call raises, nothing is dumped, and the
    manager nevertheless holds the new records. *)
Theorem save_metadata_assigns_before_writing `{E : Env}
    (self : FaissIndexManager.t) (w : World) (md : list Meta.t)
    (metadata_path : string) (e : exn) (f : Fs) :
  os_makedirs (dirname metadata_path) (fs w) = (Raise e, f) ->
  FaissIndexManager.save_metadata md metadata_path (self, w)
  = (Raise e, (FaissIndexManager.set_metadata md self, set_fs f w)).
Proof.
  intros Hmk. unfold FaissIndexManager.save_metadata.
  unfold FaissIndexManager.world, FaissIndexManager.self_,
    bind, zoom, modify, on_fs. cbn. rewrite Hmk. reflexivity.
Qed.

Lemma save_metadata_assigns_before_writing_witness :
  @FaissIndexManager.save_metadata Ref.std Ex.one_record "metadata.json"
    (Ex.loaded, Ref.world0 [])
  = (Raise (FileNotFoundError "[Errno 2] No such file or directory: ''"),
     (@FaissIndexManager.set_metadata Ref.std Ex.one_record Ex.loaded,
      @set_fs Ref.std [] (Ref.world0 []))).
Proof.
  apply (@save_metadata_assigns_before_writing Ref.std Ex.loaded (Ref.world0 [])
           Ex.one_record "metadata.json").
  reflexivity.
Defined.

(** X3.  Whatever makes [load_index] raise (a missing file, or a file FAISS
    cannot read), the manager and the world are as before the call. *)
Theorem load_index_failure_atomic `{E : Env}
    (self : FaissIndexManager.t) (w : World) (index_path : string) (e : exn) :
  fst (FaissIndexManager.load_index index_path (self, w)) = Raise e ->
  snd (FaissIndexManager.load_index index_path (self, w)) = (self, w).
Proof.
  unfold FaissIndexManager.load_index. run_method.
Qed.

Lemma load_index_failure_atomic_witness :
  snd (@FaissIndexManager.load_index Ref.std Ex.index_file
         (Ex.loaded, Ref.world0 Ex2.swapped_disk))
  = (Ex.loaded, Ref.world0 Ex2.swapped_disk).
Proof.
  apply (@load_index_failure_atomic Ref.std Ex.loaded (Ref.world0 Ex2.swapped_disk)
           Ex.index_file (LibraryError "RuntimeError: could not read index")).
  vm_compute. reflexivity.
Defined.

(** X4.  [load_metadata] is not atomic.  When it raises before the
    assignment to [self.metadata] (the file is missing, or cannot be opened
    or parsed), the manager and the world are as before the call.  When the
    file holds a JSON value without [len()], it raises [TypeError] after the
    assignment: the metadata loaded earlier is gone, while the dimension,
    the index and the world are as before. *)
Theorem load_metadata_failure `{E : Env}
    (self : FaissIndexManager.t) (w : World) (metadata_path : string) :
  (forall e s,
      FaissIndexManager.load_metadata metadata_path (self, w)
      = FaissIndexManager.Raised e s ->
      s = (self, w))
  /\ (forall held,
        os_path_exists metadata_path (fs w) = true ->
        json_load_metadata metadata_path (fs w) = Ok (Unsized held) ->
        FaissIndexManager.load_metadata metadata_path (self, w)
        = FaissIndexManager.Raised_after_assignment
            (TypeError ("object of type '" ++ held ++ "' has no len()")) held
            (FaissIndexManager.embedding_dim self) (FaissIndexManager.index self) w).
Proof.
  unfold FaissIndexManager.load_metadata. cbn [fst snd]. split.
  - intros e s.
    destruct (os_path_exists metadata_path (fs w)); cbn [negb].
    + destruct (json_load_metadata metadata_path (fs w)) as [[md|held]|e'];
        intros H; inversion H; reflexivity.
    + intros H. inversion H. reflexivity.
  - intros held Hex Hload. rewrite Hex, Hload. reflexivity.
Qed.

Lemma load_metadata_failure_witness :
  @FaissIndexManager.load_metadata Ref.std Ex.metadata_file
    (Ex.loaded, Ref.world0 Ex2.null_metadata_disk)
  = @FaissIndexManager.Raised_after_assignment Ref.std
      (TypeError "object of type 'NoneType' has no len()") "NoneType"
      512 (Some Ex.two_rows) (Ref.world0 Ex2.null_metadata_disk).
Proof.
  apply (proj2 (@load_metadata_failure Ref.std Ex.loaded
                  (Ref.world0 Ex2.null_metadata_disk) Ex.metadata_file) "NoneType").
  - vm_compute. reflexivity.
  - vm_compute. reflexivity.
Defined.

(** ** PhotoRetriever: the paths of a query *)

(** X5.  Without an index, [search_with_threshold] raises [ValueError]
    before FAISS is called. *)
Theorem search_with_threshold_without_index `{E : Env}
    (self : FaissIndexManager.t) (query : embedding) (thr : Q) (k : Z) (w : World) :
  FaissIndexManager.index self = None ->
  FaissIndexManager.search_with_threshold self query thr k w
  = (Raise (ValueError "No index loaded. Load or create index first."), w).
Proof.
  intros Hnone. unfold FaissIndexManager.search_with_threshold,
    FaissIndexManager.search. rewrite Hnone. reflexivity.
Qed.

Lemma search_with_threshold_without_index_witness :
  @FaissIndexManager.search_with_threshold Ref.std
    (@FaissIndexManager.init Ref.std 512) (Ref.axis 0 1%Q) (1 # 2) 100 (Ref.world0 [])
  = (Raise (ValueError "No index loaded. Load or create index first."), Ref.world0 []).
Proof.
  apply (@search_with_threshold_without_index Ref.std
           (@FaissIndexManager.init Ref.std 512) (Ref.axis 0 1%Q) (1 # 2) 100
           (Ref.world0 [])).
  reflexivity.
Defined.

(** X6.  [__init__] raises [FileNotFoundError] when the index file is
    missing, and when the index loads but the metadata file is missing; in
    both cases the world is unchanged. *)
Theorem init_missing_file `{E : Env}
    (index_path metadata_path : string) (w : World) (ix : FaissIndex) :
  new_face_processor = Ok tt ->
  os_path_exists index_path (fs w) = false
  \/ (os_path_exists index_path (fs w) = true
      /\ faiss_read_index index_path (fs w) = Ok ix
      /\ os_path_exists metadata_path (fs w) = false) ->
  exists msg,
    PhotoRetriever.init index_path metadata_path w
    = (Raise (FileNotFoundError msg), w).
Proof.
  intros Hfp Hmiss.
  unfold PhotoRetriever.init, FaissIndexManager.load_index,
    FaissIndexManager.load_metadata, FaissIndexManager.world, FaissIndexManager.self_,
    FaissIndexManager.init.
  unfold try_except_on, bind, zoom, lift_res, read_fs, modify, get, ret, raise.
  rewrite Hfp. cbn [fst snd].
  destruct Hmiss as [Hex | (Hex & Hix & Hmd)]; rewrite Hex; cbn.
  - eexists. reflexivity.
  - rewrite Hix. cbn. rewrite Hmd. cbn. eexists. reflexivity.
Qed.

Lemma init_missing_file_witness :
  exists msg,
    @PhotoRetriever.init Ref.std Ex.index_file Ex.metadata_file (Ref.world0 Ex.disk1)
    = (Raise (FileNotFoundError msg), Ref.world0 Ex.disk1).
Proof.
  apply (@init_missing_file Ref.std Ex.index_file Ex.metadata_file
           (Ref.world0 Ex.disk1) Ex.two_rows).
  - reflexivity.
  - right. split; [|split]; vm_compute; reflexivity.
Defined.

(** X7.  A selfie in which no face is found ends [find_photos] with
    [success = false] and a message; the index is never searched. *)
Theorem find_photos_no_face `{E : Env}
    (self : PhotoRetriever.t) (selfie : string) (text_query : option string)
    (thr : Q) (k : Z) (w : World) :
  selfie <> "" ->
  truthy text_query = false ->
  extract_single_face_embedding selfie (fs w) = Ok None ->
  exists r,
    PhotoRetriever.find_photos self (Some selfie) text_query thr k w
    = (Ok r, log_world (ExtractSingleFace selfie) w)
    /\ Result.success r = false
    /\ Result.message r <> ""
    /\ Result.matches r = [].
Proof.
  intros Hs Ht Hface.
  assert (Htruthy : truthy (Some selfie) = true)
    by (destruct selfie; [contradiction | reflexivity]).
  unfold PhotoRetriever.find_photos, PhotoRetriever.query_embedding_of.
  rewrite Htruthy, Ht. cbn [negb andb].
  unfold bind, modify, read_fs, ret. cbn. rewrite Hface.
  eexists. split; [reflexivity|]. repeat split. discriminate.
Qed.

Lemma find_photos_no_face_witness :
  exists r,
    @PhotoRetriever.find_photos Ref.std (PhotoRetriever.mk Ex.loaded)
      (Some "landscape.jpg") None (1 # 2) 100 (Ref.world0 Ex2.landscape_disk)
    = (Ok r, @log_world Ref.std (ExtractSingleFace "landscape.jpg")
               (Ref.world0 Ex2.landscape_disk))
    /\ Result.success r = false
    /\ Result.message r <> ""
    /\ Result.matches r = [].
Proof.
  apply (@find_photos_no_face Ref.std (PhotoRetriever.mk Ex.loaded)
           "landscape.jpg" None (1 # 2) 100 (Ref.world0 Ex2.landscape_disk)).
  - discriminate.
  - reflexivity.
  - reflexivity.
Defined.

(** ** PhotoRetriever: full-image mode *)

Lemma wrap_full_image_ok (ms : list Match.t) :
  Forall Spec.has_metadata ms ->
  PhotoRetriever.wrap_full_image ms = Ok (map Vocab.wrapped ms).
Proof.
  induction 1 as [|m ms Hm Hms IH]; [reflexivity|].
  simpl. unfold Spec.has_metadata in Hm. unfold Vocab.wrapped at 1, Spec.path_of.
  destruct (Match.metadata m) as [md|]; [|contradiction].
  simpl. rewrite IH. reflexivity.
Qed.

Lemma ranked_results_sorted `{E : Env} (md : list Meta.t) (thr : Q) (pool : list (Q * Z)) :
  StronglySorted Spec.by_similarity (Vocab.ranked_results md thr pool).
Proof. apply (sort_desc_sorted Match.similarity). Qed.

Lemma ranked_results_nonempty `{E : Env} (md : list Meta.t) (thr : Q) (pool : list (Q * Z)) :
  Exists (fun c => Spec.clears thr c = true) pool ->
  Vocab.ranked_results md thr pool <> [].
Proof.
  intros H. apply sort_desc_nonempty, survivors_nonempty. assumption.
Qed.

Lemma ranked_results_metadata `{E : Env} (md : list Meta.t) (thr : Q) (pool : list (Q * Z)) :
  Spec.labels_in_range md pool ->
  Forall Spec.has_metadata (Vocab.ranked_results md thr pool).
Proof.
  intros H. eapply Permutation_Forall; [symmetry; apply sort_desc_perm|].
  apply survivors_have_metadata. assumption.
Qed.

(** Every result has cleared the threshold. *)
Lemma ranked_results_above `{E : Env} (md : list Meta.t) (thr : Q) (pool : list (Q * Z)) :
  Forall (fun m => (thr <= Match.similarity m)%Q) (Vocab.ranked_results md thr pool).
Proof.
  eapply Permutation_Forall; [symmetry; apply sort_desc_perm|].
  apply Forall_forall. intros m Hm. unfold Spec.survivors in Hm.
  apply in_map_iff in Hm. destruct Hm as (c & <- & Hc).
  apply filter_In in Hc. destruct Hc as [_ Hcl].
  unfold Spec.clears in Hcl. apply andb_true_iff in Hcl. destruct Hcl as [_ Hle].
  apply Qle_bool_iff in Hle. exact Hle.
Qed.

(** What [find_photos] does once it holds the query embedding and the search
    has returned candidates of which some clear the threshold. *)
Lemma find_photos_after_search `{E : Env}
    (self : PhotoRetriever.t) (query : embedding) (thr : Q) (k : Z)
    (ix : FaissIndex) (ds : list Q) (ls : list Z)
    (selfie_path text_query : option string) (w0 w : World) (r0 : Result.t) :
  FaissIndexManager.index (PhotoRetriever.index_manager self) = Some ix ->
  faiss_search ix query k = Ok (ds, ls) ->
  Spec.labels_in_range (FaissIndexManager.metadata (PhotoRetriever.index_manager self))
    (combine ds ls) ->
  Exists (fun c => Spec.clears thr c = true) (combine ds ls) ->
  truthy selfie_path <> truthy text_query ->
  PhotoRetriever.query_embedding_of Result.initial selfie_path text_query thr w0
  = (Ok (inr (query, r0)), w) ->
  let md := FaissIndexManager.metadata (PhotoRetriever.index_manager self) in
  let results := Vocab.ranked_results md thr (combine ds ls) in
  PhotoRetriever.find_photos self selfie_path text_query thr k w0
  = (match (if String.eqb (PhotoRetriever.index_mode md) "full_image"
            then PhotoRetriever.wrap_full_image results
            else PhotoRetriever.aggregate_faces results) with
     | Ok photos =>
         Ok (PhotoRetriever.found r0 (sort_desc Photo.max_similarity photos)
               ("Found "
                ++ str_of_nat (List.length (sort_desc Photo.max_similarity photos))
                ++ " photos matching your query"))
     | Raise e => Raise e
     end,
     log_world (IndexSearch k) w).
Proof.
  intros Hix Hs Hr Hclear Hone Hq md results.
  assert (Hrun : FaissIndexManager.search_with_threshold
                   (PhotoRetriever.index_manager self) query thr k w
                 = (Ok results, log_world (IndexSearch k) w)).
  { apply search_with_threshold_eq with (ix := ix); auto.
    eapply labels_in_range_ok; eassumption. }
  assert (Hne : results <> []) by (apply ranked_results_nonempty; assumption).
  unfold PhotoRetriever.find_photos.
  assert (Hguard : (negb (truthy selfie_path) && negb (truthy text_query))%bool = false
                   /\ (truthy selfie_path && truthy text_query)%bool = false).
  { destruct (truthy selfie_path), (truthy text_query); simpl; auto; congruence. }
  destruct Hguard as [-> ->].
  unfold bind at 1. rewrite Hq. unfold bind at 1. rewrite Hrun.
  destruct results as [|m0 rest] eqn:Eres; [contradiction|].
  cbn [List.length Nat.eqb]. fold md.
  unfold bind, lift_res, ret.
  destruct (if String.eqb (PhotoRetriever.index_mode md) "full_image"
            then PhotoRetriever.wrap_full_image (m0 :: rest)
            else PhotoRetriever.aggregate_faces (m0 :: rest)); reflexivity.
Qed.

(** X8.  On a full-image index every match becomes one photo entry with
    [max_similarity = avg_similarity = similarity] and [num_matches = 1];
    the entries come out in the order of the matches (the final sort changes
    nothing), and [total_photos] is the number of matches. *)
Theorem find_photos_full_image `{E : Env}
    (self : PhotoRetriever.t) (query : embedding) (thr : Q) (k : Z)
    (ix : FaissIndex) (ds : list Q) (ls : list Z)
    (selfie_path text_query : option string) (w0 w : World) (r0 : Result.t) :
  FaissIndexManager.index (PhotoRetriever.index_manager self) = Some ix ->
  faiss_search ix query k = Ok (ds, ls) ->
  Spec.labels_in_range (FaissIndexManager.metadata (PhotoRetriever.index_manager self))
    (combine ds ls) ->
  Exists (fun c => Spec.clears thr c = true) (combine ds ls) ->
  PhotoRetriever.index_mode
    (FaissIndexManager.metadata (PhotoRetriever.index_manager self)) = "full_image" ->
  truthy selfie_path <> truthy text_query ->
  PhotoRetriever.query_embedding_of Result.initial selfie_path text_query thr w0
  = (Ok (inr (query, r0)), w) ->
  exists r,
    PhotoRetriever.find_photos self selfie_path text_query thr k w0
    = (Ok r, log_world (IndexSearch k) w)
    /\ Result.success r = true
    /\ Result.matches r
       = map Vocab.wrapped
           (Vocab.ranked_results
              (FaissIndexManager.metadata (PhotoRetriever.index_manager self))
              thr (combine ds ls))
    /\ Result.total_photos r
       = List.length (Spec.survivors
                        (FaissIndexManager.metadata (PhotoRetriever.index_manager self))
                        thr (combine ds ls)).
Proof.
  intros Hix Hs Hr Hclear Hmode Hone Hq.
  rewrite (@find_photos_after_search E self query thr k ix ds ls selfie_path
             text_query w0 w r0 Hix Hs Hr Hclear Hone Hq).
  rewrite Hmode, String.eqb_refl.
  set (md := FaissIndexManager.metadata (PhotoRetriever.index_manager self)).
  rewrite wrap_full_image_ok by (apply ranked_results_metadata; assumption).
  assert (Hid : sort_desc Photo.max_similarity
                  (map Vocab.wrapped (Vocab.ranked_results md thr (combine ds ls)))
                = map Vocab.wrapped (Vocab.ranked_results md thr (combine ds ls))).
  { apply sort_desc_sorted_id.
    apply StronglySorted_map_mono with (R := Spec.by_similarity);
      [|apply ranked_results_sorted].
    intros a b Hab. exact Hab. }
  cbv beta iota zeta. fold md. rewrite Hid. eexists. split; [reflexivity|].
  unfold PhotoRetriever.found. cbn [Result.success Result.matches Result.total_photos].
  split; [reflexivity|]. split; [reflexivity|].
  rewrite length_map. unfold Vocab.ranked_results. apply sort_desc_length.
Qed.

Lemma find_photos_full_image_witness :
  exists r,
    @PhotoRetriever.find_photos Ref.std Ex2.full_retriever None (Some "a dog")
      (1 # 2) 100 (Ref.world0 [])
    = (Ok r, @log_world Ref.std (IndexSearch 100)
               (@log_world Ref.std (EncodeText "a dog") (Ref.world0 [])))
    /\ Result.success r = true
    /\ Result.matches r
       = map Vocab.wrapped
           (@Vocab.ranked_results Ref.std Ex2.full_records (1 # 2)
              (combine (fst Ex.two_pool) (snd Ex.two_pool)))
    /\ Result.total_photos r
       = List.length (@Spec.survivors Ref.std Ex2.full_records (1 # 2)
                        (combine (fst Ex.two_pool) (snd Ex.two_pool))).
Proof.
  apply (@find_photos_full_image Ref.std Ex2.full_retriever (Ref.axis 0 1%Q) (1 # 2) 100
           Ex.two_rows (fst Ex.two_pool) (snd Ex.two_pool) None (Some "a dog")
           (Ref.world0 []) (@log_world Ref.std (EncodeText "a dog") (Ref.world0 []))
           (Result.set_info Result.initial (TextQuery "a dog" 512 (1 # 2)))).
  - reflexivity.
  - vm_compute. reflexivity.
  - apply labels_in_range_check. vm_compute. reflexivity.
  - apply some_clears_check. vm_compute. reflexivity.
  - reflexivity.
  - simpl. discriminate.
  - vm_compute. reflexivity.
Defined.

(** ** PhotoRetriever: face mode *)

(** The dictionary the grouping loop builds, and what becomes of it. *)
Lemma aggregate_faces_dict (ms : list Match.t) :
  Forall Spec.has_metadata ms ->
  exists d' : dict Group.t,
    PhotoRetriever.aggregate_faces ms = Ok (map Spec.finished (dict_values d'))
    /\ NoDup (dict_keys d')
    /\ map Photo.image_path (map Spec.finished (dict_values d')) = dict_keys d'
    /\ (forall k, Spec.members k ms <> [] -> In k (dict_keys d')).
Proof.
  intros Hmd.
  destruct (group_matches_get Hmd []) as (d' & Hrun & Hnd & Hget).
  specialize (Hnd (NoDup_nil _)).
  assert (Hget' : forall k, dict_get d' k
             = match Spec.members k ms with
               | [] => None
               | mem => Some (fold_left PhotoRetriever.add_face (map Spec.face_of mem)
                                (PhotoRetriever.new_group k))
               end).
  { intros k. rewrite Hget. destruct (Spec.members k ms); reflexivity. }
  assert (Hentry : forall k g, In (k, g) d' ->
            Spec.members k ms <> []
            /\ g = Group.mk k (map Spec.face_of (Spec.members k ms))
                     (Spec.running_max 0 (Spec.similarities (Spec.members k ms))) 0).
  { intros k g Hin. eapply group_entry; [exact Hget'|].
    apply In_dict_get; assumption. }
  exists d'. split; [|split; [assumption|split]].
  - unfold PhotoRetriever.aggregate_faces. rewrite Hrun.
    apply finish_groups_ok. apply Forall_forall. intros g Hg.
    unfold dict_values in Hg. apply in_map_iff in Hg.
    destruct Hg as ([k g'] & <- & Hin). simpl.
    destruct (Hentry k g' Hin) as (Hne & ->). simpl.
    destruct (Spec.members k ms); [contradiction | discriminate].
  - unfold dict_values, dict_keys. rewrite !map_map.
    apply map_ext_in. intros [k g] Hin. simpl.
    destruct (Hentry k g Hin) as (_ & ->). reflexivity.
  - intros k Hk. destruct (dict_get d' k) eqn:G.
    + apply dict_get_In in G. unfold dict_keys.
      change k with (fst (k, t)). apply in_map. assumption.
    + rewrite Hget' in G. destruct (Spec.members k ms); [contradiction | discriminate].
Qed.

Lemma member_of_own_group (m : Match.t) (ms : list Match.t) :
  In m ms -> Spec.members (Spec.path_of m) ms <> [].
Proof.
  intros Hin Hnil.
  assert (H : In m (Spec.members (Spec.path_of m) ms)).
  { unfold Spec.members. apply filter_In. split; [assumption|].
    apply String.eqb_refl. }
  rewrite Hnil in H. exact H.
Qed.

Lemma list_sum_perm (l l' : list nat) :
  Permutation l l' -> list_sum l = list_sum l'.
Proof.
  induction 1; simpl; lia.
Qed.

(** Exactly one key of a duplicate-free list equals a key it contains. *)
Lemma count_key_once (p : string) (ks : list string) :
  NoDup ks -> In p ks ->
  list_sum (map (fun k => if String.eqb p k then 1%nat else 0%nat) ks) = 1%nat.
Proof.
  induction 1 as [|k ks Hk Hnd IH]; simpl; [tauto|].
  intros [->|Hin].
  - rewrite String.eqb_refl.
    assert (Hz : list_sum (map (fun k => if String.eqb p k then 1%nat else 0%nat) ks)
                 = 0%nat).
    { clear IH Hnd. induction ks as [|k ks IH]; simpl; [reflexivity|].
      destruct (String.eqb_spec p k) as [->|Ne]; [exfalso; apply Hk; left; reflexivity|].
      apply IH. intros H. apply Hk. right. assumption. }
    rewrite Hz. reflexivity.
  - destruct (String.eqb_spec p k) as [->|Ne]; [contradiction|].
    simpl. apply IH. assumption.
Qed.

Lemma list_sum_step (a : nat) (l : list nat) :
  list_sum (a :: l) = (a + list_sum l)%nat.
Proof. reflexivity. Qed.

Lemma length_members_cons (k : string) (m : Match.t) (ms : list Match.t) :
  List.length (Spec.members k (m :: ms))
  = ((if String.eqb (Spec.path_of m) k then 1 else 0)
     + List.length (Spec.members k ms))%nat.
Proof.
  unfold Spec.members. simpl. destruct (String.eqb (Spec.path_of m) k); reflexivity.
Qed.

(** Groups over distinct keys that cover every match count each match once. *)
Lemma members_partition (ks : list string) (ms : list Match.t) :
  NoDup ks ->
  (forall m, In m ms -> In (Spec.path_of m) ks) ->
  list_sum (map (fun k => List.length (Spec.members k ms)) ks) = List.length ms.
Proof.
  intros Hnd. induction ms as [|m ms IH]; intros Hcov.
  - clear Hnd Hcov. induction ks as [|k ks IHk]; simpl; [reflexivity | exact IHk].
  - assert (Hsplit : forall ks',
              list_sum (map (fun k => List.length (Spec.members k (m :: ms))) ks')
              = (list_sum (map (fun k => if String.eqb (Spec.path_of m) k
                                         then 1%nat else 0%nat) ks')
                 + list_sum (map (fun k => List.length (Spec.members k ms)) ks'))%nat).
    { induction ks' as [|k ks' IHk]; [reflexivity|].
      rewrite !map_cons, !list_sum_step, IHk, length_members_cons. lia. }
    rewrite Hsplit, count_key_once; [|assumption|apply Hcov; left; reflexivity].
    rewrite IH; [reflexivity|]. intros m' Hm'. apply Hcov. right. assumption.
Qed.

(** Face mode over matches that carry their metadata: distinct images, each
    match in the group of its image, every match counted once. *)
Lemma aggregate_faces_partition (ms : list Match.t) :
  Forall Spec.has_metadata ms ->
  exists photos,
    PhotoRetriever.aggregate_faces ms = Ok photos
    /\ (ms <> [] -> photos <> [])
    /\ NoDup (map Photo.image_path photos)
    /\ Forall (fun p => Spec.face_group p (Spec.members (Photo.image_path p) ms)) photos
    /\ (forall m, In m ms -> In (Spec.path_of m) (map Photo.image_path photos))
    /\ Vocab.total_faces photos = List.length ms.
Proof.
  intros Hmd.
  destruct (aggregate_faces_stats Hmd) as (photos & Hagg & Hne & Hnd & Hall).
  destruct (aggregate_faces_dict Hmd) as (d' & Hagg' & _ & Hpaths & Hcov).
  assert (Hsame : photos = map Spec.finished (dict_values d')) by congruence.
  assert (Hcover : forall m, In m ms -> In (Spec.path_of m) (map Photo.image_path photos)).
  { intros m Hm. rewrite Hsame, Hpaths. apply Hcov, member_of_own_group. assumption. }
  exists photos. repeat (split; [assumption|]).
  unfold Vocab.total_faces.
  rewrite <- (@members_partition (map Photo.image_path photos) ms Hnd Hcover), map_map.
  f_equal. apply map_ext_in. intros p Hp.
  rewrite Forall_forall in Hall. destruct (Hall p Hp) as (_ & _ & Hn & _). exact Hn.
Qed.

Lemma find_photos_by_embedding_after_search `{E : Env}
    (self : PhotoRetriever.t) (query : embedding) (thr : Q) (k : Z)
    (ix : FaissIndex) (ds : list Q) (ls : list Z)
    (person_name : option string) (w : World) :
  FaissIndexManager.index (PhotoRetriever.index_manager self) = Some ix ->
  faiss_search ix query k = Ok (ds, ls) ->
  Spec.labels_in_range (FaissIndexManager.metadata (PhotoRetriever.index_manager self))
    (combine ds ls) ->
  Exists (fun c => Spec.clears thr c = true) (combine ds ls) ->
  exists photos,
    PhotoRetriever.aggregate_faces
      (Vocab.ranked_results
         (FaissIndexManager.metadata (PhotoRetriever.index_manager self))
         thr (combine ds ls)) = Ok photos
    /\ exists r,
         PhotoRetriever.find_photos_by_embedding self query thr k person_name w
         = (Ok r, log_world (IndexSearch k) w)
         /\ Result.success r = true
         /\ Result.matches r = sort_desc Photo.max_similarity photos
         /\ Result.total_photos r = List.length (Result.matches r)
         /\ Result.info r
            = RegisteredPerson person_name (List.length query) thr.
Proof.
  intros Hix Hs Hr Hclear.
  set (md := FaissIndexManager.metadata (PhotoRetriever.index_manager self)) in *.
  set (results := Vocab.ranked_results md thr (combine ds ls)).
  assert (Hrun : FaissIndexManager.search_with_threshold
                   (PhotoRetriever.index_manager self) query thr k w
                 = (Ok results, log_world (IndexSearch k) w)).
  { apply search_with_threshold_eq with (ix := ix); auto.
    eapply labels_in_range_ok; eassumption. }
  assert (Hne : results <> []) by (apply ranked_results_nonempty; assumption).
  assert (Hmd : Forall Spec.has_metadata results)
    by (apply ranked_results_metadata; assumption).
  destruct (aggregate_faces_stats Hmd) as (photos & Hagg & _).
  exists photos. split; [assumption|].
  unfold PhotoRetriever.find_photos_by_embedding. rewrite Hix.
  unfold bind at 1. rewrite Hrun.
  destruct results as [|m0 rest] eqn:Eres; [contradiction|].
  cbn [List.length Nat.eqb]. unfold bind, lift_res, ret. rewrite Hagg.
  eexists. split; [reflexivity|].
  unfold PhotoRetriever.found.
  cbn [Result.success Result.matches Result.total_photos Result.info Result.set_info
       Result.initial].
  repeat split.
Qed.

(** X9.  In face mode the photos of a result have distinct image paths,
    every match lies in the group of its image and is counted exactly once
    (the [num_matches] add up to the number of matches), and the photos are
    listed by descending [max_similarity]. *)
Theorem face_mode_partition `{E : Env}
    (self : PhotoRetriever.t) (query : embedding) (thr : Q) (k : Z)
    (ix : FaissIndex) (ds : list Q) (ls : list Z)
    (person_name : option string) (w : World) :
  FaissIndexManager.index (PhotoRetriever.index_manager self) = Some ix ->
  faiss_search ix query k = Ok (ds, ls) ->
  Spec.labels_in_range (FaissIndexManager.metadata (PhotoRetriever.index_manager self))
    (combine ds ls) ->
  Exists (fun c => Spec.clears thr c = true) (combine ds ls) ->
  let results :=
    Vocab.ranked_results (FaissIndexManager.metadata (PhotoRetriever.index_manager self))
      thr (combine ds ls) in
  exists r,
    PhotoRetriever.find_photos_by_embedding self query thr k person_name w
    = (Ok r, log_world (IndexSearch k) w)
    /\ Result.success r = true
    /\ NoDup (map Photo.image_path (Result.matches r))
    /\ (forall m, In m results ->
                  In (Spec.path_of m) (map Photo.image_path (Result.matches r)))
    /\ Forall (fun p => Photo.num_matches p
                        = List.length (Spec.members (Photo.image_path p) results))
              (Result.matches r)
    /\ Vocab.total_faces (Result.matches r) = List.length results
    /\ StronglySorted Vocab.by_max (Result.matches r)
    /\ Result.total_photos r = List.length (Result.matches r).
Proof.
  intros Hix Hs Hr Hclear results.
  destruct (find_photos_by_embedding_after_search self query thr k person_name w
              Hix Hs Hr Hclear)
    as (photos & Hagg & r & Hrun & Hsucc & Hmatches & Htotal & _).
  fold results in Hagg.
  assert (Hmd : Forall Spec.has_metadata results)
    by (apply ranked_results_metadata; assumption).
  destruct (aggregate_faces_partition Hmd)
    as (photos' & Hagg' & _ & Hnd & Hall & Hcov & Hsum).
  assert (photos' = photos) by congruence. subst photos'.
  assert (Hperm : Permutation (Result.matches r) photos).
  { rewrite Hmatches. apply sort_desc_perm. }
  exists r. split; [assumption|]. split; [assumption|].
  split; [|split; [|split; [|split; [|split]]]].
  - eapply Permutation_NoDup; [|exact Hnd].
    apply Permutation_map. symmetry. assumption.
  - intros m Hm. eapply Permutation_in; [|apply Hcov; exact Hm].
    apply Permutation_map. symmetry. assumption.
  - eapply Permutation_Forall; [symmetry; exact Hperm|].
    eapply Forall_impl; [|exact Hall]. intros p (_ & _ & Hn & _). exact Hn.
  - unfold Vocab.total_faces in *. rewrite <- Hsum.
    apply list_sum_perm, Permutation_map. assumption.
  - rewrite Hmatches. apply (sort_desc_sorted Photo.max_similarity).
  - assumption.
Qed.

Lemma face_mode_partition_witness :
  exists r,
    @PhotoRetriever.find_photos_by_embedding Ref.std (PhotoRetriever.mk Ex.loaded)
      (Ref.axis 0 1%Q) (1 # 2) 100 (Some "Ann") (Ref.world0 [])
    = (Ok r, @log_world Ref.std (IndexSearch 100) (Ref.world0 []))
    /\ Result.success r = true
    /\ NoDup (map Photo.image_path (Result.matches r))
    /\ (forall m,
          In m (@Vocab.ranked_results Ref.std Ex.two_records (1 # 2)
                  (combine (fst Ex.two_pool) (snd Ex.two_pool))) ->
          In (Spec.path_of m) (map Photo.image_path (Result.matches r)))
    /\ Forall (fun p => Photo.num_matches p
                        = List.length
                            (Spec.members (Photo.image_path p)
                               (@Vocab.ranked_results Ref.std Ex.two_records (1 # 2)
                                  (combine (fst Ex.two_pool) (snd Ex.two_pool)))))
              (Result.matches r)
    /\ Vocab.total_faces (Result.matches r)
       = List.length (@Vocab.ranked_results Ref.std Ex.two_records (1 # 2)
                        (combine (fst Ex.two_pool) (snd Ex.two_pool)))
    /\ StronglySorted Vocab.by_max (Result.matches r)
    /\ Result.total_photos r = List.length (Result.matches r).
Proof.
  apply (@face_mode_partition Ref.std (PhotoRetriever.mk Ex.loaded)
           (Ref.axis 0 1%Q) (1 # 2) 100 Ex.two_rows (fst Ex.two_pool) (snd Ex.two_pool)
           (Some "Ann") (Ref.world0 [])).
  - reflexivity.
  - vm_compute. reflexivity.
  - apply labels_in_range_check. vm_compute. reflexivity.
  - apply some_clears_check. vm_compute. reflexivity.
Defined.

(** X10.  With a threshold that is not negative, every photo of a face-mode
    result carries the maximum, the arithmetic mean and the number of the
    similarities of its members. *)
Theorem face_mode_nonnegative_threshold `{E : Env}
    (self : PhotoRetriever.t) (query : embedding) (thr : Q) (k : Z)
    (ix : FaissIndex) (ds : list Q) (ls : list Z)
    (person_name : option string) (w : World) :
  FaissIndexManager.index (PhotoRetriever.index_manager self) = Some ix ->
  faiss_search ix query k = Ok (ds, ls) ->
  Spec.labels_in_range (FaissIndexManager.metadata (PhotoRetriever.index_manager self))
    (combine ds ls) ->
  Exists (fun c => Spec.clears thr c = true) (combine ds ls) ->
  (0 <= thr)%Q ->
  let results :=
    Vocab.ranked_results (FaissIndexManager.metadata (PhotoRetriever.index_manager self))
      thr (combine ds ls) in
  exists r,
    PhotoRetriever.find_photos_by_embedding self query thr k person_name w
    = (Ok r, log_world (IndexSearch k) w)
    /\ Result.matches r <> []
    /\ Forall (fun p => Spec.aggregates p (Spec.members (Photo.image_path p) results))
              (Result.matches r).
Proof.
  intros Hix Hs Hr Hclear Hthr results.
  destruct (find_photos_by_embedding_after_search self query thr k person_name w
              Hix Hs Hr Hclear)
    as (photos & Hagg & r & Hrun & _ & Hmatches & _).
  fold results in Hagg.
  assert (Hmd : Forall Spec.has_metadata results)
    by (apply ranked_results_metadata; assumption).
  assert (Hne : results <> []) by (apply ranked_results_nonempty; assumption).
  destruct (aggregate_faces_stats Hmd) as (photos' & Hagg' & Hnonempty & _ & Hall).
  assert (photos' = photos) by congruence. subst photos'.
  exists r. split; [assumption|]. rewrite Hmatches. split.
  - apply sort_desc_nonempty. auto.
  - eapply Permutation_Forall; [symmetry; apply sort_desc_perm|].
    eapply Forall_impl; [|exact Hall]. intros p Hp.
    apply face_group_aggregates; [assumption|].
    destruct Hp as (Hmem & _).
    destruct (Spec.members (Photo.image_path p) results) as [|m mem] eqn:M;
      [contradiction|].
    exists (Match.similarity m). split; [left; reflexivity|].
    assert (Hin : In m results).
    { assert (H : In m (Spec.members (Photo.image_path p) results))
        by (rewrite M; left; reflexivity).
      unfold Spec.members in H. apply filter_In in H. tauto. }
    pose proof (ranked_results_above
                  (FaissIndexManager.metadata (PhotoRetriever.index_manager self))
                  thr (combine ds ls)) as Habove.
    rewrite Forall_forall in Habove.
    eapply Qle_trans; [exact Hthr | apply Habove; exact Hin].
Qed.

Lemma face_mode_nonnegative_threshold_witness :
  exists r,
    @PhotoRetriever.find_photos_by_embedding Ref.std (PhotoRetriever.mk Ex.loaded)
      (Ref.axis 0 1%Q) (1 # 2) 100 (Some "Ann") (Ref.world0 [])
    = (Ok r, @log_world Ref.std (IndexSearch 100) (Ref.world0 []))
    /\ Result.matches r <> []
    /\ Forall (fun p => Spec.aggregates p
                          (Spec.members (Photo.image_path p)
                             (@Vocab.ranked_results Ref.std Ex.two_records (1 # 2)
                                (combine (fst Ex.two_pool) (snd Ex.two_pool)))))
              (Result.matches r).
Proof.
  apply (@face_mode_nonnegative_threshold Ref.std (PhotoRetriever.mk Ex.loaded)
           (Ref.axis 0 1%Q) (1 # 2) 100 Ex.two_rows (fst Ex.two_pool) (snd Ex.two_pool)
           (Some "Ann") (Ref.world0 [])).
  - reflexivity.
  - vm_compute. reflexivity.
  - apply labels_in_range_check. vm_compute. reflexivity.
  - apply some_clears_check. vm_compute. reflexivity.
  - vm_compute. discriminate.
Defined.

(** ** Text queries on a face-mode index *)

(** C2 (amended).  The index and the metadata on disk load into a retriever
    whose metadata is not empty and not in full-image mode.  The mode is
    checked by the caller: the semantic-search handler of the application
    reports the mode error and stops before calling [find_photos], whatever
    the query and the threshold, and leaves the world as it was.
    [find_photos] itself does not look at the mode before it searches: a text
    query is encoded and searched, and when a candidate clears the threshold
    the result has [success = true]; its photos have distinct image paths,
    every match belongs to the photo of its image, and each photo is made of
    exactly the matches of its image (their faces, their number and mean, and
    the running maximum of their similarities). *)
Theorem text_query_mode_checked_by_caller `{E : Env}
    (index_path metadata_path text : string) (w : World)
    (ix : FaissIndex) (md : list Meta.t) :
  new_face_processor = Ok tt ->
  os_path_exists index_path (fs w) = true ->
  faiss_read_index index_path (fs w) = Ok ix ->
  os_path_exists metadata_path (fs w) = true ->
  json_load_metadata metadata_path (fs w) = Ok (Records md) ->
  md <> [] ->
  PhotoRetriever.index_mode md <> "full_image" ->
  let retriever := PhotoRetriever.mk (FaissIndexManager.mk 512 (Some ix) md) in
  PhotoRetriever.init index_path metadata_path w = (Ok retriever, w)
  /\ (forall thr : Q,
        App.semantic_search index_path metadata_path text thr w
        = (Ok (App.StError App.mode_error), w))
  /\ (forall (query : embedding) (thr : Q) (k : Z) (ds : list Q) (ls : list Z),
        text <> "" ->
        encode_text text = Ok query ->
        faiss_search ix query k = Ok (ds, ls) ->
        Spec.labels_in_range md (combine ds ls) ->
        Exists (fun c => Spec.clears thr c = true) (combine ds ls) ->
        let results := Vocab.ranked_results md thr (combine ds ls) in
        exists r,
          PhotoRetriever.find_photos retriever None (Some text) thr k w
          = (Ok r, log_world (IndexSearch k) (log_world (EncodeText text) w))
          /\ Result.success r = true
          /\ Result.matches r <> []
          /\ NoDup (map Photo.image_path (Result.matches r))
          /\ (forall m, In m results ->
                        In (Spec.path_of m) (map Photo.image_path (Result.matches r)))
          /\ Forall (fun p => Spec.face_group p
                                (Spec.members (Photo.image_path p) results))
                    (Result.matches r)
          /\ Vocab.total_faces (Result.matches r) = List.length results).
Proof.
  intros Hfp Hex1 Hix Hex2 Hmd Hne Hmode retriever.
  pose proof (init_run index_path metadata_path w Hfp Hex1 Hix Hex2 Hmd) as Hinit.
  apply String.eqb_neq in Hmode.
  split; [exact Hinit|]. split.
  - intros thr. unfold App.semantic_search. unfold bind at 1. unfold try_except, bind at 1.
    rewrite Hinit.
    unfold ret at 1. cbn [PhotoRetriever.index_manager FaissIndexManager.metadata].
    destruct md as [|m0 md']; [contradiction|].
    rewrite Hmode. reflexivity.
  - intros query thr k ds ls Htext Henc Hs Hr Hclear results.
    set (w1 := log_world (EncodeText text) w).
    set (r0 := Result.set_info Result.initial (TextQuery text (List.length query) thr)).
    assert (Htruthy : truthy (Some text) = true).
    { destruct text; [contradiction | reflexivity]. }
    assert (Hq : PhotoRetriever.query_embedding_of Result.initial None (Some text) thr w
                 = (Ok (inr (query, r0)), w1)).
    { unfold PhotoRetriever.query_embedding_of. rewrite Htruthy.
      unfold bind, modify, lift_res, ret. rewrite Henc. reflexivity. }
    assert (Hone : truthy None <> truthy (Some text)).
    { rewrite Htruthy. discriminate. }
    pose proof (@find_photos_after_search E retriever query thr k ix ds ls
                  None (Some text) w w1 r0 eq_refl Hs Hr Hclear Hone Hq) as Hrun.
    cbv zeta in Hrun.
    cbn [retriever PhotoRetriever.index_manager FaissIndexManager.metadata] in Hrun.
    rewrite Hmode in Hrun. fold results in Hrun.
    assert (Hmeta : Forall Spec.has_metadata results)
      by (apply ranked_results_metadata; assumption).
    assert (Hres : results <> []) by (apply ranked_results_nonempty; assumption).
    destruct (aggregate_faces_partition Hmeta)
      as (photos & Hagg & Hsome & Hnd & Hall & Hcov & Hsum).
    rewrite Hagg in Hrun.
    assert (Hperm : Permutation (sort_desc Photo.max_similarity photos) photos)
      by apply sort_desc_perm.
    eexists. split; [exact Hrun|].
    unfold PhotoRetriever.found. cbn [Result.success Result.matches].
    split; [reflexivity|].
    split; [apply sort_desc_nonempty; auto|].
    split; [|split; [|split]].
    + eapply Permutation_NoDup; [|exact Hnd].
      apply Permutation_map. symmetry. assumption.
    + intros m Hm. eapply Permutation_in; [|apply Hcov; exact Hm].
      apply Permutation_map. symmetry. assumption.
    + eapply Permutation_Forall; [symmetry; exact Hperm | exact Hall].
    + unfold Vocab.total_faces in *. rewrite <- Hsum.
      apply list_sum_perm, Permutation_map. assumption.
Qed.

Lemma text_query_mode_checked_by_caller_witness :
  @PhotoRetriever.init Ref.std Ex.index_file Ex.metadata_file (Ref.world0 Ex2.group_disk)
  = (Ok (PhotoRetriever.mk (Ex.manager Ex2.group_rows Ex2.group_records)),
     Ref.world0 Ex2.group_disk)
  /\ @App.semantic_search Ref.std Ex.index_file Ex.metadata_file "people dancing"
       (1 # 2) (Ref.world0 Ex2.group_disk)
     = (Ok (App.StError App.mode_error), Ref.world0 Ex2.group_disk)
  /\ exists r,
       @PhotoRetriever.find_photos Ref.std
         (PhotoRetriever.mk (Ex.manager Ex2.group_rows Ex2.group_records))
         None (Some "people dancing") 0 100 (Ref.world0 Ex2.group_disk)
       = (Ok r, @log_world Ref.std (IndexSearch 100)
                  (@log_world Ref.std (EncodeText "people dancing")
                     (Ref.world0 Ex2.group_disk)))
       /\ Result.success r = true
       /\ Result.matches r <> []
       /\ NoDup (map Photo.image_path (Result.matches r))
       /\ (forall m,
             In m (@Vocab.ranked_results Ref.std Ex2.group_records 0
                     (combine (fst Ex2.group_pool) (snd Ex2.group_pool))) ->
             In (Spec.path_of m) (map Photo.image_path (Result.matches r)))
       /\ Forall (fun p => Spec.face_group p
                             (Spec.members (Photo.image_path p)
                                (@Vocab.ranked_results Ref.std Ex2.group_records 0
                                   (combine (fst Ex2.group_pool) (snd Ex2.group_pool)))))
                 (Result.matches r)
       /\ Vocab.total_faces (Result.matches r)
          = List.length (@Vocab.ranked_results Ref.std Ex2.group_records 0
                           (combine (fst Ex2.group_pool) (snd Ex2.group_pool))).
Proof.
  destruct (@text_query_mode_checked_by_caller Ref.std Ex.index_file Ex.metadata_file
              "people dancing" (Ref.world0 Ex2.group_disk)
              Ex2.group_rows Ex2.group_records)
    as (Hinit & Hcaller & Hcallee).
  - reflexivity.
  - vm_compute. reflexivity.
  - vm_compute. reflexivity.
  - vm_compute. reflexivity.
  - vm_compute. reflexivity.
  - discriminate.
  - vm_compute. discriminate.
  - split; [exact Hinit|]. split; [apply Hcaller|].
    apply (Hcallee (Ref.axis 0 1%Q) 0%Q 100 (fst Ex2.group_pool) (snd Ex2.group_pool)).
    + discriminate.
    + reflexivity.
    + vm_compute. reflexivity.
    + apply labels_in_range_check. vm_compute. reflexivity.
    + apply some_clears_check. vm_compute. reflexivity.
Defined.

(** The witness in numbers: three matches, two photos; "P.jpg" holds two
    faces. *)
Example text_query_on_face_index_groups :
  Ex.summary
    (fst (@PhotoRetriever.find_photos Ref.std
            (PhotoRetriever.mk (Ex.manager Ex2.group_rows Ex2.group_records))
            None (Some "people dancing") 0 100 (Ref.world0 Ex2.group_disk)))
  = [("P.jpg", 1%Q, (9 # 10)%Q, 2%nat); ("Q.jpg", 0%Q, 0%Q, 1%nat)].
Proof. vm_compute. reflexivity. Qed.

(** ** PersonManager: registration that does not store *)

Lemma init_face_processor_run `{E : Env} (self : PersonManager.t) (w : World) :
  PersonManager.face_processor self = true \/ new_face_processor = Ok tt ->
  PersonManager._init_face_processor (self, w)
  = (Ok tt, (PersonManager.set_face_processor true self, w)).
Proof.
  intros Hmodels.
  unfold PersonManager._init_face_processor, PersonManager.self_.
  unfold bind, zoom, get, modify, lift_res, ret. cbn [fst snd].
  destruct self as [pp pr fp]. cbn.
  destruct fp; [reflexivity|].
  destruct Hmodels as [Hm|Hm]; [discriminate Hm|]. rewrite Hm. reflexivity.
Qed.

(** X11.  A name that is empty after trimming, or a selfie path that does
    not exist, ends [register_person] with [success = false] and a message;
    the store and the world are unchanged (no model is loaded, no face is
    extracted, nothing is written). *)
Theorem register_person_rejects `{E : Env}
    (self : PersonManager.t) (w : World) (name selfie_path : string) :
  strip name = "" \/ os_path_exists selfie_path (fs w) = false ->
  exists msg,
    PersonManager.register_person name selfie_path (self, w)
    = (Ok (RegResult.mk false msg), (self, w))
    /\ msg <> "".
Proof.
  intros Hbad. unfold PersonManager.register_person.
  destruct (String.eqb_spec (strip name) "") as [Heq|Hne].
  - eexists. split; [reflexivity | discriminate].
  - destruct Hbad as [Hblank|Hmissing]; [contradiction|].
    unfold bind, PersonManager.world, zoom, read_fs, ret. cbn [fst snd].
    rewrite Hmissing. cbn [negb].
    eexists. split; [reflexivity | discriminate].
Qed.

Lemma register_person_rejects_witness :
  exists msg,
    @PersonManager.register_person Ref.std "   " "data/selfies/Ann_1.jpg"
      (Ex.ann_store, Ref.world0 Ex.selfies)
    = (Ok (RegResult.mk false msg), (Ex.ann_store, Ref.world0 Ex.selfies))
    /\ msg <> "".
Proof.
  apply (@register_person_rejects Ref.std Ex.ann_store (Ref.world0 Ex.selfies)
           "   " "data/selfies/Ann_1.jpg").
  left. reflexivity.
Defined.

(** X12.  When no face is found in the selfie, [register_person] answers
    [success = false]; the profiles and the disk are unchanged. *)
Theorem register_person_no_face `{E : Env}
    (self : PersonManager.t) (w : World) (name selfie_path : string) :
  strip name <> "" ->
  os_path_exists selfie_path (fs w) = true ->
  PersonManager.face_processor self = true \/ new_face_processor = Ok tt ->
  extract_single_face_embedding selfie_path (fs w) = Ok None ->
  exists r self' w',
    PersonManager.register_person name selfie_path (self, w) = (Ok r, (self', w'))
    /\ RegResult.success r = false
    /\ PersonManager.profiles self' = PersonManager.profiles self
    /\ fs w' = fs w.
Proof.
  intros Hname Hselfie Hmodels Hface.
  unfold PersonManager.register_person.
  destruct (String.eqb_spec (strip name) "") as [Heq|_]; [contradiction|].
  unfold bind at 1. unfold PersonManager.world at 1, zoom, read_fs.
  cbn [fst snd]. rewrite Hselfie. cbn [negb].
  unfold bind at 1. rewrite (init_face_processor_run self w Hmodels).
  unfold try_except, PersonManager.world, PersonManager.self_.
  unfold bind, zoom, get, modify, read_fs, on_fs, ret, log_world, set_fs.
  cbn [fst snd fs trace]. rewrite Hface. cbn [fst snd].
  do 3 eexists. split; [reflexivity|]. repeat split.
Qed.

Lemma register_person_no_face_witness :
  exists r self' w',
    @PersonManager.register_person Ref.std "Bob" "landscape.jpg"
      (Ex.ann_store, Ref.world0 Ex2.landscape_disk) = (Ok r, (self', w'))
    /\ RegResult.success r = false
    /\ PersonManager.profiles self' = PersonManager.profiles Ex.ann_store
    /\ fs w' = fs (Ref.world0 Ex2.landscape_disk).
Proof.
  apply (@register_person_no_face Ref.std Ex.ann_store (Ref.world0 Ex2.landscape_disk)
           "Bob" "landscape.jpg").
  - vm_compute. discriminate.
  - reflexivity.
  - left. reflexivity.
  - reflexivity.
Defined.

(** X13.  When the profile file cannot be written, [register_person]
    answers [success = false] with the error text, yet the new profile is
    already in the store in memory and is listed by [get_all_names]. *)
Theorem register_person_failed_save `{E : Env}
    (self : PersonManager.t) (w : World) (name selfie_path : string)
    (emb : embedding) (e : exn) (f1 f2 : Fs) :
  strip name <> "" ->
  os_path_exists selfie_path (fs w) = true ->
  PersonManager.face_processor self = true \/ new_face_processor = Ok tt ->
  extract_single_face_embedding selfie_path (fs w) = Ok (Some emb) ->
  os_makedirs (dirname (PersonManager.profiles_path self)) (fs w) = (Ok tt, f1) ->
  json_dump_profiles
    (PersonManager.dict_of_items
       (Spec.registered (PersonManager.profiles self) name selfie_path emb))
    (PersonManager.profiles_path self) f1 = (Raise e, f2) ->
  exists self' w',
    PersonManager.register_person name selfie_path (self, w)
    = (Ok (RegResult.mk false ("Error processing selfie: " ++ exn_str e)), (self', w'))
    /\ dict_get (PersonManager.profiles self') (strip name)
       = Some (Profile.mk emb selfie_path)
    /\ In (strip name) (PersonManager.get_all_names self').
Proof.
  intros Hname Hselfie Hmodels Hface Hmkdir Hdump.
  unfold PersonManager.register_person.
  destruct (String.eqb_spec (strip name) "") as [Heq|_]; [contradiction|].
  unfold bind at 1. unfold PersonManager.world at 1, zoom, read_fs.
  cbn [fst snd]. rewrite Hselfie. cbn [negb].
  unfold bind at 1. rewrite (init_face_processor_run self w Hmodels).
  unfold try_except, PersonManager.save_profiles.
  unfold PersonManager.world, PersonManager.self_.
  unfold bind, zoom, get, modify, read_fs, on_fs, ret, log_world, set_fs.
  cbn [fst snd fs trace PersonManager.profiles PersonManager.profiles_path
       PersonManager.set_face_processor PersonManager.set_profiles
       PersonManager.face_processor].
  rewrite Hface.
  cbn [fst snd fs trace PersonManager.profiles PersonManager.profiles_path
       PersonManager.set_face_processor PersonManager.set_profiles
       PersonManager.face_processor].
  rewrite Hmkdir.
  cbn [fst snd fs trace PersonManager.profiles PersonManager.profiles_path].
  unfold dict_items.
  change (dict_set (PersonManager.profiles self) (strip name)
            (Profile.mk emb selfie_path))
    with (Spec.registered (PersonManager.profiles self) name selfie_path emb).
  rewrite Hdump. cbn [fst snd].
  do 2 eexists. split; [reflexivity|].
  cbn [PersonManager.profiles]. unfold Spec.registered. split.
  - apply dict_get_set_eq.
  - unfold PersonManager.get_all_names. cbn [PersonManager.profiles].
    eapply Permutation_in; [symmetry; apply sorted_perm|].
    apply (proj1 (dict_contains_In _ _)).
    cbn [PersonManager.profiles PersonManager.set_profiles].
    unfold dict_contains. rewrite dict_get_set_eq. reflexivity.
Qed.

Lemma register_person_failed_save_witness :
  exists self' w',
    @PersonManager.register_person Ex2.strict "Bob" "data/selfies/Ann_1.jpg"
      (Ex2.blocked_store, @mkWorld Ex2.strict Ex2.blocked_disk [])
    = (Ok (RegResult.mk false
             ("Error processing selfie: " ++ exn_str (LibraryError "IsADirectoryError"))),
       (self', w'))
    /\ dict_get (PersonManager.profiles self') (strip "Bob")
       = Some (Profile.mk (Ref.axis 0 1%Q) "data/selfies/Ann_1.jpg")
    /\ In (strip "Bob") (PersonManager.get_all_names self').
Proof.
  apply (@register_person_failed_save Ex2.strict Ex2.blocked_store
           (@mkWorld Ex2.strict Ex2.blocked_disk []) "Bob" "data/selfies/Ann_1.jpg"
           (Ref.axis 0 1%Q) (LibraryError "IsADirectoryError")
           Ex2.blocked_disk Ex2.blocked_disk).
  - vm_compute. discriminate.
  - vm_compute. reflexivity.
  - left. reflexivity.
  - vm_compute. reflexivity.
  - vm_compute. reflexivity.
  - vm_compute. reflexivity.
Defined.

(** ** PersonManager: lookup *)

Lemma find_ci_lower `{E : Env} (items : list (string * Profile.t)) (a b : string) :
  lower a = lower b ->
  PersonManager.find_ci items a = PersonManager.find_ci items b.
Proof.
  intros Hab. induction items as [|[k v] items IH]; [reflexivity|].
  simpl. rewrite Hab, IH. reflexivity.
Qed.

(** X14.  Lookup ignores letter case: two names with the same lower-case
    form get the same answer from [get_profile] and from
    [get_person_embedding], and the embedding returned is that of the profile
    returned. *)
Theorem lookup_ignores_case `{E : Env} (self : PersonManager.t) (a b : string) :
  lower a = lower b ->
  PersonManager.get_profile self a = PersonManager.get_profile self b
  /\ PersonManager.get_person_embedding self a
     = PersonManager.get_person_embedding self b
  /\ PersonManager.get_person_embedding self a
     = option_map (fun np => Profile.embedding (snd np))
         (PersonManager.get_profile self a).
Proof.
  intros Hab.
  unfold PersonManager.get_profile, PersonManager.get_person_embedding.
  rewrite (find_ci_lower _ _ _ Hab). split; [reflexivity|]. split; [reflexivity|].
  destruct (PersonManager.find_ci _ b) as [[n p]|]; reflexivity.
Qed.

Lemma lookup_ignores_case_witness :
  @PersonManager.get_profile Ref.std Ex.ann_store "ANN"
  = @PersonManager.get_profile Ref.std Ex.ann_store "ann"
  /\ @PersonManager.get_person_embedding Ref.std Ex.ann_store "ANN"
     = @PersonManager.get_person_embedding Ref.std Ex.ann_store "ann"
  /\ @PersonManager.get_person_embedding Ref.std Ex.ann_store "ANN"
     = option_map (fun np => Profile.embedding (snd np))
         (@PersonManager.get_profile Ref.std Ex.ann_store "ANN").
Proof.
  apply (@lookup_ignores_case Ref.std Ex.ann_store "ANN" "ann").
  reflexivity.
Defined.

(** The first case-insensitive match after an assignment. *)
Lemma find_ci_set `{E : Env} (d : dict Profile.t) (n : string) (v : Profile.t) :
  (forall k, In k (dict_keys d) -> lower k = lower n -> k = n) ->
  PersonManager.find_ci (dict_set d n v) n = Some (n, v).
Proof.
  induction d as [|[k v'] d IH]; intros Huniq; simpl.
  - rewrite String.eqb_refl. reflexivity.
  - destruct (String.eqb_spec k n) as [->|Ne]; simpl.
    + rewrite String.eqb_refl. reflexivity.
    + destruct (String.eqb_spec (lower k) (lower n)) as [Hl|_].
      * exfalso. apply Ne. apply Huniq; [left; reflexivity | assumption].
      * apply IH. intros k' Hk'. apply Huniq. right. assumption.
Qed.

(** X15.  Register, then look up: after a successful registration, if no
    other stored name has the same lower-case form, a lookup of the name in
    any letter case returns the profile just registered, under the name as
    typed. *)
Theorem register_then_lookup `{E : Env}
    (self : PersonManager.t) (w : World) (name selfie_path query : string)
    (emb : embedding) (f1 f2 : Fs) :
  strip name <> "" ->
  os_path_exists selfie_path (fs w) = true ->
  PersonManager.face_processor self = true \/ new_face_processor = Ok tt ->
  extract_single_face_embedding selfie_path (fs w) = Ok (Some emb) ->
  os_makedirs (dirname (PersonManager.profiles_path self)) (fs w) = (Ok tt, f1) ->
  json_dump_profiles
    (PersonManager.dict_of_items
       (Spec.registered (PersonManager.profiles self) name selfie_path emb))
    (PersonManager.profiles_path self) f1 = (Ok tt, f2) ->
  (forall k, In k (dict_keys (PersonManager.profiles self)) ->
             lower k = lower (strip name) -> k = strip name) ->
  lower query = lower (strip name) ->
  exists r self' w',
    PersonManager.register_person name selfie_path (self, w) = (Ok r, (self', w'))
    /\ RegResult.success r = true
    /\ PersonManager.get_profile self' query
       = Some (strip name, Profile.mk emb selfie_path)
    /\ PersonManager.get_person_embedding self' query = Some emb.
Proof.
  intros Hname Hselfie Hmodels Hface Hmkdir Hdump Huniq Hquery.
  do 3 eexists. split.
  { eapply register_person_run; eassumption. }
  split; [reflexivity|].
  unfold PersonManager.get_profile, PersonManager.get_person_embedding.
  cbn [PersonManager.profiles]. unfold dict_items, Spec.registered.
  rewrite (find_ci_lower _ _ _ Hquery), find_ci_set by assumption.
  split; reflexivity.
Qed.

Lemma register_then_lookup_witness :
  exists r self' w',
    @PersonManager.register_person Ref.std Ex.padded_ann "data/selfies/ann_2.jpg"
      (Ex.ann_store, Ref.world0 Ex.selfies) = (Ok r, (self', w'))
    /\ RegResult.success r = true
    /\ @PersonManager.get_profile Ref.std self' "ANN"
       = Some (strip Ex.padded_ann, Profile.mk (Ref.axis 1 1%Q) "data/selfies/ann_2.jpg")
    /\ @PersonManager.get_person_embedding Ref.std self' "ANN" = Some (Ref.axis 1 1%Q).
Proof.
  apply (@register_then_lookup Ref.std Ex.ann_store (Ref.world0 Ex.selfies)
           Ex.padded_ann "data/selfies/ann_2.jpg" "ANN" (Ref.axis 1 1%Q)
           Ex.disk_after_mkdir Ex.disk_after_dump).
  - vm_compute. discriminate.
  - vm_compute. reflexivity.
  - left. reflexivity.
  - vm_compute. reflexivity.
  - vm_compute. reflexivity.
  - vm_compute. reflexivity.
  - intros k [<-|[]] _. reflexivity.
  - reflexivity.
Defined.

(** ** PersonManager: removal *)

(** X16.  [remove_person] compares names exactly: for a name that is not a
    stored key it returns [False] and changes nothing, also when a lookup of
    that name finds a profile stored in another letter case. *)
Theorem remove_person_absent `{E : Env}
    (self : PersonManager.t) (w : World) (name : string) :
  ~ In name (dict_keys (PersonManager.profiles self)) ->
  PersonManager.remove_person name (self, w) = (Ok false, (self, w)).
Proof.
  intros Hnot. unfold PersonManager.remove_person, PersonManager.self_.
  unfold bind, zoom, get, ret. cbn [fst snd].
  destruct (dict_contains (PersonManager.profiles self) name) eqn:C; [|reflexivity].
  exfalso. apply Hnot. apply dict_contains_In. assumption.
Qed.

Lemma remove_person_absent_witness :
  @PersonManager.remove_person Ref.std "ann" (Ex.ann_store, Ref.world0 Ex.selfies)
  = (Ok false, (Ex.ann_store, Ref.world0 Ex.selfies)).
Proof.
  apply (@remove_person_absent Ref.std Ex.ann_store (Ref.world0 Ex.selfies) "ann").
  simpl. intros [H|[]]. discriminate H.
Defined.

Lemma dict_del_keys (V : Type) (d : dict V) (k : string) :
  In k (dict_keys d) ->
  Permutation (dict_keys d) (k :: dict_keys (dict_del d k)).
Proof.
  induction d as [|[k' v'] d IH]; simpl; [tauto|].
  destruct (String.eqb_spec k' k) as [->|Ne]; intros Hin.
  - reflexivity.
  - destruct Hin as [Heq|Hin]; [contradiction|].
    simpl. rewrite (IH Hin) at 1. apply perm_swap.
Qed.

Lemma dict_get_del_neq (V : Type) (d : dict V) (k k' : string) :
  k <> k' -> dict_get (dict_del d k) k' = dict_get d k'.
Proof.
  intros Ne. induction d as [|[k0 v0] d IH]; simpl; [reflexivity|].
  destruct (String.eqb_spec k0 k) as [->|Ne0]; simpl.
  - destruct (String.eqb_spec k k'); [contradiction | reflexivity].
  - rewrite IH. reflexivity.
Qed.

(** X17.  Removing a stored name returns [True]; afterwards the name is no
    longer listed, every other name is listed as before with its profile
    unchanged, and the list is one shorter. *)
Theorem remove_person_present `{E : Env}
    (self : PersonManager.t) (w : World) (name : string) (f1 f2 : Fs) :
  NoDup (dict_keys (PersonManager.profiles self)) ->
  In name (dict_keys (PersonManager.profiles self)) ->
  os_makedirs (dirname (PersonManager.profiles_path self)) (fs w) = (Ok tt, f1) ->
  json_dump_profiles
    (PersonManager.dict_of_items (dict_del (PersonManager.profiles self) name))
    (PersonManager.profiles_path self) f1 = (Ok tt, f2) ->
  exists self',
    PersonManager.remove_person name (self, w) = (Ok true, (self', set_fs f2 w))
    /\ ~ In name (PersonManager.get_all_names self')
    /\ (forall k, k <> name ->
          (In k (PersonManager.get_all_names self')
           <-> In k (PersonManager.get_all_names self))
          /\ dict_get (PersonManager.profiles self') k
             = dict_get (PersonManager.profiles self) k)
    /\ List.length (PersonManager.get_all_names self)
       = S (List.length (PersonManager.get_all_names self')).
Proof.
  intros Hnd Hin Hmkdir Hdump.
  assert (C : dict_contains (PersonManager.profiles self) name = true)
    by (apply dict_contains_In; assumption).
  unfold PersonManager.remove_person, PersonManager.save_profiles,
    PersonManager.self_, PersonManager.world.
  unfold bind, zoom, get, modify, on_fs, ret, set_fs. cbn [fst snd].
  rewrite C.
  cbn [fst snd fs trace PersonManager.profiles PersonManager.profiles_path
       PersonManager.set_profiles].
  rewrite Hmkdir. cbn [fst snd fs trace]. unfold dict_items. rewrite Hdump.
  cbn [fst snd fs trace].
  eexists. split; [reflexivity|].
  unfold PersonManager.get_all_names. cbn [PersonManager.profiles].
  set (d := PersonManager.profiles self) in *.
  pose proof (@dict_del_keys _ d name Hin) as Hperm.
  assert (Hnd' : NoDup (name :: dict_keys (dict_del d name)))
    by (eapply Permutation_NoDup; eassumption).
  inversion Hnd' as [|? ? Hnotin _]; subst.
  split; [|split].
  - intros H. apply Hnotin. eapply Permutation_in; [apply sorted_perm | exact H].
  - intros k Hk. split; [|apply dict_get_del_neq; congruence].
    split; intros H.
    + eapply Permutation_in; [symmetry; apply sorted_perm|].
      eapply Permutation_in; [symmetry; exact Hperm|]. right.
      eapply Permutation_in; [apply sorted_perm | exact H].
    + eapply Permutation_in; [symmetry; apply sorted_perm|].
      assert (H' : In k (name :: dict_keys (dict_del d name))).
      { eapply Permutation_in; [exact Hperm|].
        eapply Permutation_in; [apply sorted_perm | exact H]. }
      destruct H' as [Heq|H']; [congruence | assumption].
  - rewrite !(Permutation_length (sorted_perm _)), (Permutation_length Hperm).
    reflexivity.
Qed.

Lemma remove_person_present_witness :
  exists self',
    @PersonManager.remove_person Ref.std "Ann" (Ex.ann_store, Ref.world0 Ex.selfies)
    = (Ok true, (self', @set_fs Ref.std Ex2.disk_after_removal (Ref.world0 Ex.selfies)))
    /\ ~ In "Ann" (PersonManager.get_all_names self')
    /\ (forall k, k <> "Ann" ->
          (In k (PersonManager.get_all_names self')
           <-> In k (PersonManager.get_all_names Ex.ann_store))
          /\ dict_get (PersonManager.profiles self') k
             = dict_get (PersonManager.profiles Ex.ann_store) k)
    /\ List.length (PersonManager.get_all_names Ex.ann_store)
       = S (List.length (PersonManager.get_all_names self')).
Proof.
  apply (@remove_person_present Ref.std Ex.ann_store (Ref.world0 Ex.selfies) "Ann"
           Ex.disk_after_mkdir Ex2.disk_after_removal).
  - simpl. constructor; [simpl; tauto | constructor].
  - simpl. left. reflexivity.
  - vm_compute. reflexivity.
  - vm_compute. reflexivity.
Defined.

(** ** PersonManager: listing and persistence *)

Lemma ltb_leb (a b : string) : String.ltb a b = true -> String.leb a b = true.
Proof.
  unfold String.ltb, String.leb. destruct (String.compare a b); auto; discriminate.
Qed.

Lemma not_ltb_leb (a b : string) : String.ltb a b = false -> String.leb b a = true.
Proof.
  unfold String.ltb, String.leb. rewrite (String.compare_antisym b a).
  destruct (String.compare a b); simpl; auto; discriminate.
Qed.

Lemma insert_str_sorted (x : string) (l : list string) :
  Sorted Vocab.name_le l -> Sorted Vocab.name_le (insert_str x l).
Proof.
  induction 1 as [|y l Hs IH Hhd]; simpl.
  - repeat constructor.
  - destruct (String.ltb y x) eqn:L.
    + constructor; [assumption|].
      destruct l as [|z l]; simpl.
      * constructor. apply ltb_leb. assumption.
      * inversion Hhd; subst. destruct (String.ltb z x).
        -- constructor. assumption.
        -- constructor. apply ltb_leb. assumption.
    + constructor; [constructor; assumption|].
      constructor. apply not_ltb_leb. assumption.
Qed.

(** X18.  [get_all_names] lists exactly the stored names, each as often as
    it is stored, in ascending order. *)
Theorem get_all_names_sorted (self : PersonManager.t) :
  Sorted Vocab.name_le (PersonManager.get_all_names self)
  /\ Permutation (PersonManager.get_all_names self)
       (dict_keys (PersonManager.profiles self)).
Proof.
  unfold PersonManager.get_all_names. split; [|apply sorted_perm].
  induction (dict_keys (PersonManager.profiles self)) as [|x l IH]; simpl.
  - constructor.
  - apply insert_str_sorted. assumption.
Qed.

Lemma dict_set_new (V : Type) (d : dict V) (k : string) (v : V) :
  ~ In k (dict_keys d) -> dict_set d k v = (d ++ [(k, v)])%list.
Proof.
  induction d as [|[k' v'] d IH]; simpl; [reflexivity|].
  intros Hnot. destruct (String.eqb_spec k' k) as [->|Ne]; [exfalso; auto|].
  rewrite IH; [reflexivity|]. intros H. apply Hnot. right. assumption.
Qed.

Lemma fold_dict_set_append (V : Type) (items acc : dict V) :
  NoDup (dict_keys (acc ++ items)%list) ->
  fold_left (fun d kv => dict_set d (fst kv) (snd kv)) items acc = (acc ++ items)%list.
Proof.
  revert acc. induction items as [|[k v] items IH]; intros acc Hnd; simpl.
  - rewrite app_nil_r. reflexivity.
  - assert (Hk : ~ In k (dict_keys acc)).
    { unfold dict_keys in *. rewrite map_app in Hnd. simpl in Hnd.
      apply NoDup_remove_2 in Hnd. intros H. apply Hnd.
      apply in_or_app. left. assumption. }
    rewrite dict_set_new by assumption.
    rewrite IH; rewrite <- app_assoc; [reflexivity | exact Hnd].
Qed.

(** Rebuilding a dictionary from its items gives the dictionary back. *)
Lemma dict_of_items_id (d : dict Profile.t) :
  NoDup (dict_keys d) -> PersonManager.dict_of_items d = d.
Proof.
  intros Hnd. unfold PersonManager.dict_of_items.
  apply (fold_dict_set_append d []). exact Hnd.
Qed.

(** X19.  Save, then load: where [json.load] returns what [json.dump]
    wrote, a manager with the same profile path that loads after
    [save_profiles] holds the saved profiles, in the same order. *)
Theorem save_then_load_profiles `{E : Env}
    (self other : PersonManager.t) (w : World) (f1 f2 : Fs) :
  NoDup (dict_keys (PersonManager.profiles self)) ->
  PersonManager.profiles_path other = PersonManager.profiles_path self ->
  os_makedirs (dirname (PersonManager.profiles_path self)) (fs w) = (Ok tt, f1) ->
  json_dump_profiles (PersonManager.dict_of_items (PersonManager.profiles self))
    (PersonManager.profiles_path self) f1 = (Ok tt, f2) ->
  os_path_exists (PersonManager.profiles_path self) f2 = true ->
  json_load_profiles (PersonManager.profiles_path self) f2
  = Ok (PersonManager.dict_of_items (PersonManager.profiles self)) ->
  PersonManager.save_profiles (self, w) = (Ok tt, (self, set_fs f2 w))
  /\ PersonManager.load_profiles (other, set_fs f2 w)
     = (Ok tt, (PersonManager.set_profiles (PersonManager.profiles self) other,
                set_fs f2 w)).
Proof.
  intros Hnd Hpath Hmkdir Hdump Hex Hload. split.
  - unfold PersonManager.save_profiles, PersonManager.self_, PersonManager.world.
    unfold bind, zoom, get, on_fs, set_fs. cbn [fst snd fs trace].
    rewrite Hmkdir. cbn [fst snd fs trace]. unfold dict_items. rewrite Hdump.
    reflexivity.
  - unfold PersonManager.load_profiles, PersonManager.self_, PersonManager.world.
    unfold bind, zoom, get, modify, read_fs, set_fs. cbn [fst snd fs trace].
    rewrite Hpath, Hex. cbn [fst snd fs trace]. rewrite Hload.
    cbn [fst snd]. unfold dict_items.
    rewrite (dict_of_items_id _ Hnd), (dict_of_items_id _ Hnd). reflexivity.
Qed.

Lemma save_then_load_profiles_witness :
  @PersonManager.save_profiles Ref.std (Ex.ann_store, Ref.world0 Ex.selfies)
  = (Ok tt, (Ex.ann_store, @set_fs Ref.std Ex2.disk_after_save (Ref.world0 Ex.selfies)))
  /\ @PersonManager.load_profiles Ref.std
       (Ex.empty_store, @set_fs Ref.std Ex2.disk_after_save (Ref.world0 Ex.selfies))
     = (Ok tt, (PersonManager.set_profiles (PersonManager.profiles Ex.ann_store)
                  Ex.empty_store,
                @set_fs Ref.std Ex2.disk_after_save (Ref.world0 Ex.selfies))).
Proof.
  apply (@save_then_load_profiles Ref.std Ex.ann_store Ex.empty_store
           (Ref.world0 Ex.selfies) Ex.disk_after_mkdir Ex2.disk_after_save).
  - simpl. constructor; [simpl; tauto | constructor].
  - reflexivity.
  - vm_compute. reflexivity.
  - vm_compute. reflexivity.
  - vm_compute. reflexivity.
  - vm_compute. reflexivity.
Defined.

(** X20.  [load_profiles] without a profile file empties the store: the
    profiles held in memory are dropped, and nothing is read or written. *)
Theorem load_profiles_without_file `{E : Env} (self : PersonManager.t) (w : World) :
  os_path_exists (PersonManager.profiles_path self) (fs w) = false ->
  PersonManager.load_profiles (self, w)
  = (Ok tt, (PersonManager.set_profiles [] self, w))
  /\ PersonManager.init (PersonManager.profiles_path self) w
     = (Ok (PersonManager.mk (PersonManager.profiles_path self) [] false), w).
Proof.
  intros Hex.
  unfold PersonManager.init, PersonManager.load_profiles,
    PersonManager.self_, PersonManager.world.
  unfold bind, zoom, get, modify, read_fs. cbn [fst snd PersonManager.profiles_path].
  rewrite Hex. split; reflexivity.
Qed.

Lemma load_profiles_without_file_witness :
  @PersonManager.load_profiles Ref.std (Ex.ann_store, Ref.world0 Ex.selfies)
  = (Ok tt, (PersonManager.set_profiles [] Ex.ann_store, Ref.world0 Ex.selfies))
  /\ @PersonManager.init Ref.std (PersonManager.profiles_path Ex.ann_store)
       (Ref.world0 Ex.selfies)
     = (Ok (PersonManager.mk (PersonManager.profiles_path Ex.ann_store) [] false),
        Ref.world0 Ex.selfies).
Proof.
  apply (@load_profiles_without_file Ref.std Ex.ann_store (Ref.world0 Ex.selfies)).
  vm_compute. reflexivity.
Defined.

(** ** face_utils.py and offline_indexing.py on examples *)

Example path_join_plain :
  OfflineIndexing.path_join "data/embeddings" "faiss.index" = "data/embeddings/faiss.index".
Proof. reflexivity. Qed.

Example path_join_slash :
  OfflineIndexing.path_join "data/" "faiss.index" = "data/faiss.index".
Proof. reflexivity. Qed.

Example path_join_empty : OfflineIndexing.path_join "" "faiss.index" = "faiss.index".
Proof. reflexivity. Qed.

Example int_of_negative_float : FaceUtils.int_of_float (-7 # 2) = -3.
Proof. reflexivity. Qed.

Example slice_with_negative_stop : FaceUtils.slice_len 100 0 (-5) = 95.
Proof. reflexivity. Qed.

Example slice_past_the_end : FaceUtils.slice_len 100 120 100 = 0.
Proof. reflexivity. Qed.

(** ** FaceProcessor: the face of a selfie *)

Lemma getitem_head (A : Type) (x : A) (l : list A) : getitem (x :: l) 0 = Ok x.
Proof.
  unfold getitem. cbn [List.length].
  destruct (Z.ltb_spec 0 0); [lia|].
  destruct (Z.leb_spec 0 0); [|lia].
  destruct (Z.ltb_spec 0 (Z.of_nat (S (List.length l)))); [|lia].
  reflexivity.
Qed.

Lemma Qeq_bool_inject_Z (a b : Z) : Qeq_bool (inject_Z a) (inject_Z b) = (a =? b).
Proof.
  destruct (Z.eqb_spec a b) as [->|Ne].
  - apply Qeq_bool_iff. reflexivity.
  - destruct (Qeq_bool (inject_Z a) (inject_Z b)) eqn:Q; [|reflexivity].
    apply Qeq_bool_iff in Q. unfold Qeq in Q. simpl in Q. lia.
Qed.

(** X22.  [extract_single_face_embedding] answers [None] exactly when no
    face is detected.  Otherwise it returns the embedding of a detected face
    whose bounding box has the largest area, the first such face in
    detection order; several faces are not refused. *)
Theorem single_face_choice (faces : list Detected.t) :
  (faces = [] -> FaceUtils.single_face faces = Ok None)
  /\ (faces <> [] ->
      exists x,
        FaceUtils.single_face faces = Ok (Some (Detected.embedding x))
        /\ In x faces
        /\ (forall y, In y faces -> FaceUtils.area y <= FaceUtils.area x)
        /\ hd_error (filter (fun y => FaceUtils.area y =? FaceUtils.area x) faces)
           = Some x).
Proof.
  split; [intros ->; reflexivity|].
  intros Hne. unfold FaceUtils.single_face.
  destruct faces as [|f0 [|f1 rest]]; [contradiction| |].
  - exists f0. cbn [List.length Nat.eqb Nat.ltb Nat.leb]. rewrite getitem_head.
    split; [reflexivity|]. split; [left; reflexivity|]. split.
    + intros y [<-|[]]. lia.
    + simpl. rewrite Z.eqb_refl. reflexivity.
  - set (faces := f0 :: f1 :: rest) in *.
    set (key := fun x : Detected.t => inject_Z (FaceUtils.area x)).
    replace (List.length faces =? 0)%nat with false by reflexivity.
    replace (1 <? List.length faces)%nat with true by reflexivity.
    pose proof (sort_desc_perm key faces) as Hperm.
    pose proof (sort_desc_sorted key faces) as Hsorted.
    destruct (sort_desc key faces) as [|x sorted] eqn:Es.
    { apply Permutation_nil in Hperm. discriminate Hperm. }
    exists x. rewrite getitem_head. split; [reflexivity|].
    split; [eapply Permutation_in; [exact Hperm | left; reflexivity]|].
    split.
    + intros y Hy. apply Permutation_sym in Hperm.
      apply (Permutation_in _ Hperm) in Hy. destruct Hy as [<-|Hy]; [lia|].
      inversion Hsorted as [|? ? _ Hall]; subst.
      rewrite Forall_forall in Hall. specialize (Hall y Hy).
      unfold key_ge, key in Hall. rewrite Zle_Qle. exact Hall.
    + pose proof (sort_desc_stable key (key x) faces) as Hstable.
      rewrite Es in Hstable. simpl filter in Hstable at 1.
      assert (Hxx : Qeq_bool (key x) (key x) = true)
        by (apply Qeq_bool_iff; reflexivity).
      rewrite Hxx in Hstable.
      erewrite filter_ext; [rewrite <- Hstable; reflexivity|].
      intros y. unfold key. symmetry. apply Qeq_bool_inject_Z.
Qed.

(** ** FaceProcessor: detected faces *)

Lemma slice_len_ge (n a b : Z) :
  0 <= a -> 0 <= b <= n -> 10 <= FaceUtils.slice_len n a b -> 10 <= b - a.
Proof.
  intros Ha Hb. unfold FaceUtils.slice_len, FaceUtils.slice_bound. cbv zeta.
  destruct (Z.ltb_spec b 0); [lia|]. destruct (Z.ltb_spec a 0); [lia|].
  cbv beta iota.
  destruct (Z.ltb_spec b 0); [lia|]. destruct (Z.ltb_spec a 0); [lia|].
  destruct (Z.ltb_spec n b); [lia|]. destruct (Z.ltb_spec n a); lia.
Qed.

Section DetectFaces.
Context `{E : Env}.
Variable imread : string -> Fs -> option (Z * Z).
Variable face_detections : string -> Fs -> res (list Detection.t).
Variable clip_embedding : string -> Z * Z * Z * Z -> Fs -> res embedding.

Lemma face_of_detection_box (p : string) (h w : Z) (f : Fs) (d : Detection.t)
      (x : Detected.t) :
  FaceUtils.face_of_detection clip_embedding p h w f d = Ok (Some x) ->
  Vocab.box_within h w x /\ Detected.det_score x = Detection.score d.
Proof.
  unfold FaceUtils.face_of_detection.
  set (rx := FaceUtils.int_of_float (Detection.xmin d * inject_Z w)).
  set (ry := FaceUtils.int_of_float (Detection.ymin d * inject_Z h)).
  set (bw := FaceUtils.int_of_float (Detection.width d * inject_Z w)).
  set (bh := FaceUtils.int_of_float (Detection.height d * inject_Z h)).
  destruct ((_ =? 0) || _ || _)%bool eqn:Small; [discriminate|].
  apply orb_false_iff in Small. destruct Small as [Small Hcols].
  apply orb_false_iff in Small. destruct Small as [_ Hrows].
  apply Z.ltb_ge in Hcols, Hrows.
  destruct (clip_embedding _ _ _) as [emb|e]; [|discriminate].
  intros H. inversion H; subst. clear H.
  unfold Vocab.box_within, Detected.x1, Detected.y1, Detected.x2, Detected.y2.
  cbn [Detected.bbox Detected.det_score fst snd].
  split; [|reflexivity].
  assert (Hx : 0 <= Z.max 0 rx) by lia.
  assert (Hy : 0 <= Z.max 0 ry) by lia.
  repeat split; try lia.
  - intros H0. apply (@slice_len_ge w); [lia | lia | exact Hcols].
  - intros H0. apply (@slice_len_ge h); [lia | lia | exact Hrows].
Qed.

(** X23.  Every face [detect_faces] returns for a readable image of height
    [h] and width [w] has its box clamped to the image ([0 <= x1], [0 <= y1],
    [x2 <= w], [y2 <= h]) and, unless the box ends left of or above the
    image, at least 10 pixels wide and high; there are at most as many faces
    as detections. *)
Theorem detect_faces_boxes (p : string) (f : Fs) (h w : Z)
        (detections : list Detection.t) (faces : list Detected.t) :
  imread p f = Some (h, w) ->
  face_detections p f = Ok detections ->
  FaceUtils.detect_faces imread face_detections clip_embedding p f = Ok faces ->
  Forall (Vocab.box_within h w) faces
  /\ (List.length faces <= List.length detections)%nat.
Proof.
  intros Him Hdet. unfold FaceUtils.detect_faces. rewrite Him, Hdet. clear Hdet.
  revert faces. induction detections as [|d ds IH]; intros faces; simpl.
  - intros H. inversion H. split; [constructor | reflexivity].
  - destruct (FaceUtils.face_of_detection clip_embedding p h w f d) as [o|e] eqn:Hd;
      [|discriminate].
    destruct (FaceUtils.faces_of_detections clip_embedding p h w f ds) as [fs|e];
      [|discriminate].
    destruct (IH fs eq_refl) as [Hall Hlen].
    intros H. inversion H; subst. clear H. destruct o as [x|].
    + apply face_of_detection_box in Hd. destruct Hd as [Hbox _].
      split; [constructor; assumption | simpl; lia].
    + split; [assumption | lia].
Qed.

(** An image that cannot be read makes [detect_faces] raise [ValueError]. *)
Lemma detect_faces_unreadable (p : string) (f : Fs) :
  imread p f = None ->
  FaceUtils.detect_faces imread face_detections clip_embedding p f
  = Raise (ValueError ("Unable to read image: " ++ p)).
Proof.
  intros H. unfold FaceUtils.detect_faces. rewrite H. reflexivity.
Qed.

End DetectFaces.

Lemma detect_faces_boxes_witness :
  Forall (Vocab.box_within 480 640) Ex2.detected_list
  /\ (List.length Ex2.detected_list <= List.length Ex2.one_detection)%nat.
Proof.
  apply (@detect_faces_boxes Ref.std (fun _ _ => Some (480, 640))
           (fun _ _ => Ok Ex2.one_detection) (fun _ _ _ => Ok (Ref.axis 0 1%Q))
           "group.jpg" [] 480 640 Ex2.one_detection Ex2.detected_list).
  - reflexivity.
  - reflexivity.
  - vm_compute. reflexivity.
Defined.

(** ** Offline indexing *)

Lemma fold_left_invariant (A B : Type) (Inv : A -> Prop) (step : A -> B -> A)
      (l : list B) :
  (forall a x, In x l -> Inv a -> Inv (step a x)) ->
  forall a0, Inv a0 -> Inv (fold_left step l a0).
Proof.
  induction l as [|x l IH]; intros Hstep a0 H0; simpl; [assumption|].
  apply IH.
  - intros a y Hy. apply Hstep. right. assumption.
  - apply Hstep; [left; reflexivity | assumption].
Qed.

Lemma aligned_snoc (Disk : Type)
      (get_full : string -> Disk -> res embedding)
      (detect : string -> Disk -> res (list Detected.t))
      (mode : string) (f : Disk) (paths : list string)
      (embs : list embedding) (mds : list Meta.t) (n : Z)
      (e : embedding) (m : Meta.t) :
  Vocab.aligned get_full detect mode f paths embs mds n ->
  Vocab.describes get_full detect mode f e m ->
  Meta.item_id m = n ->
  In (Meta.image_path m) paths ->
  Meta.mode m = Some (Vocab.mode_tag mode) ->
  Vocab.aligned get_full detect mode f paths (embs ++ [e]) (mds ++ [m]) (n + 1).
Proof.
  intros (Hdesc & Hids & Hall & Hn) He Hid Hpath Hmode.
  unfold Vocab.aligned. rewrite length_app. cbn [List.length].
  split; [|split; [|split]].
  - apply Forall2_app; [assumption | constructor; [assumption | constructor]].
  - rewrite map_app, Nat.add_1_r, seq_S, map_app, Hids. simpl.
    rewrite Hid, Hn. reflexivity.
  - apply Forall_app. split; [assumption|]. constructor; [|constructor]. auto.
  - lia.
Qed.

Section Collect.
Context `{E : Env}.
Variable rglob : string -> string -> Fs -> list string.
Variable get_full_image_embedding : string -> Fs -> res embedding.
Variable detect_faces : string -> Fs -> res (list Detected.t).

(** X24.  After either indexing loop the vectors and the metadata records
    are in step: there are as many of each, record [i] has [item_id = i] and
    the tag of the mode, names one of the images, and describes the vector at
    position [i].  An image whose processing raises contributes to neither
    list. *)
Theorem collect_aligned (mode : string) (f : Fs) (image_paths : list string) :
  let a := OfflineIndexing.collect get_full_image_embedding detect_faces
             mode f image_paths in
  Vocab.aligned get_full_image_embedding detect_faces mode f image_paths
    (OfflineIndexing.all_embeddings a) (OfflineIndexing.all_metadata a)
    (OfflineIndexing.item_id a)
  /\ List.length (OfflineIndexing.all_embeddings a)
     = List.length (OfflineIndexing.all_metadata a).
Proof.
  cbv zeta.
  set (Inv := fun a : OfflineIndexing.acc =>
         Vocab.aligned get_full_image_embedding detect_faces mode f image_paths
           (OfflineIndexing.all_embeddings a) (OfflineIndexing.all_metadata a)
           (OfflineIndexing.item_id a)).
  assert (H0 : Inv OfflineIndexing.acc0).
  { unfold Inv, Vocab.aligned. simpl. repeat split; constructor. }
  assert (Hinv : Inv (OfflineIndexing.collect get_full_image_embedding detect_faces
                        mode f image_paths)).
  { unfold OfflineIndexing.collect.
    destruct (String.eqb mode "full_image") eqn:Hmode.
    - apply fold_left_invariant; [|exact H0].
      intros a p Hp Ha. unfold OfflineIndexing.step_full.
      destruct (get_full_image_embedding p f) as [e|err] eqn:Hemb; [|exact Ha].
      unfold Inv. cbn [OfflineIndexing.all_embeddings OfflineIndexing.all_metadata
                       OfflineIndexing.item_id].
      apply aligned_snoc; try assumption; try reflexivity.
      + unfold Vocab.describes. rewrite Hmode. cbn. auto.
      + unfold Vocab.mode_tag. rewrite Hmode. reflexivity.
    - apply fold_left_invariant; [|exact H0].
      intros a p Hp Ha. unfold OfflineIndexing.step_face.
      destruct (detect_faces p f) as [faces|err] eqn:Hdet; [|exact Ha].
      assert (Hinner : forall todo, (forall x, In x todo -> In x faces) ->
                forall a', Inv a' ->
                Inv (fold_left (OfflineIndexing.add_detected p) todo a')).
      { induction todo as [|face todo IH]; intros Hsub a' Ha'; [exact Ha'|].
        simpl. apply IH; [intros x Hx; apply Hsub; right; assumption|].
        unfold Inv, OfflineIndexing.add_detected.
        cbn [OfflineIndexing.all_embeddings OfflineIndexing.all_metadata
             OfflineIndexing.item_id].
        apply aligned_snoc; try assumption; try reflexivity.
        + unfold Vocab.describes. rewrite Hmode. cbn.
          exists faces, face. repeat split; auto. apply Hsub. left. reflexivity.
        + unfold Vocab.mode_tag. rewrite Hmode. reflexivity. }
      apply Hinner; auto. }
  split; [exact Hinv|].
  destruct Hinv as (Hdesc & _). eapply Forall2_length. exact Hdesc.
Qed.

Lemma np_array_error (rows : list embedding) (e : exn) :
  OfflineIndexing.np_array rows = Raise e -> exists msg, e = ValueError msg.
Proof.
  unfold OfflineIndexing.np_array. destruct rows as [|r rows]; [discriminate|].
  destruct (forallb _ _); [discriminate|]. intros H. inversion H. eauto.
Qed.

(** X25.  When no image file is found, or no image yields a vector,
    [process_event_photos] returns without creating or writing anything. *)
Theorem process_event_photos_nothing_to_index
    (event_photos_dir output_dir mode : string) (image_extensions : list string)
    (w : World) :
  new_face_processor = Ok tt ->
  OfflineIndexing.image_files rglob event_photos_dir image_extensions (fs w) = []
  \/ OfflineIndexing.all_embeddings
       (OfflineIndexing.collect get_full_image_embedding detect_faces mode (fs w)
          (OfflineIndexing.image_files rglob event_photos_dir image_extensions (fs w)))
     = [] ->
  OfflineIndexing.process_event_photos rglob get_full_image_embedding detect_faces
    event_photos_dir output_dir mode image_extensions w
  = (Ok tt, w).
Proof.
  intros Hfp Hnone. unfold OfflineIndexing.process_event_photos.
  unfold bind, lift_res, read_fs, ret. rewrite Hfp.
  destruct (OfflineIndexing.image_files rglob event_photos_dir image_extensions (fs w))
    as [|p ps] eqn:Hfiles; [reflexivity|].
  destruct Hnone as [Hn|Hn]; [discriminate|].
  cbn [List.length Nat.eqb]. rewrite Hn. reflexivity.
Qed.

(** X26.  Vectors that do not all have the configured length 512 are fatal:
    [process_event_photos] raises [ValueError] before any directory or file
    is written. *)
Theorem process_event_photos_wrong_dimension
    (event_photos_dir output_dir mode : string) (image_extensions : list string)
    (w : World) :
  new_face_processor = Ok tt ->
  let rows :=
    OfflineIndexing.all_embeddings
      (OfflineIndexing.collect get_full_image_embedding detect_faces mode (fs w)
         (OfflineIndexing.image_files rglob event_photos_dir image_extensions (fs w))) in
  rows <> [] ->
  ~ Forall (fun r => List.length r = 512%nat) rows ->
  exists msg,
    OfflineIndexing.process_event_photos rglob get_full_image_embedding detect_faces
      event_photos_dir output_dir mode image_extensions w
    = (Raise (ValueError msg), w).
Proof.
  intros Hfp rows Hne Hdim. unfold OfflineIndexing.process_event_photos.
  unfold bind at 1. unfold lift_res at 1. rewrite Hfp.
  unfold bind at 1. unfold read_fs at 1.
  destruct (OfflineIndexing.image_files rglob event_photos_dir image_extensions (fs w))
    as [|p ps] eqn:Hfiles.
  { exfalso. apply Hne. unfold rows. unfold OfflineIndexing.collect.
    destruct (String.eqb mode "full_image"); reflexivity. }
  cbn [List.length Nat.eqb]. unfold bind at 1. unfold read_fs at 1.
  fold rows.
  destruct rows as [|r rest] eqn:Hrows; [contradiction|].
  cbn [List.length Nat.eqb]. unfold bind at 1. unfold lift_res at 1.
  unfold OfflineIndexing.np_array.
  destruct (forallb (fun x => (List.length x =? List.length r)%nat) (r :: rest))
    eqn:Hsame.
  - assert (Hr : List.length r <> 512%nat).
    { intros Hr. apply Hdim. apply Forall_forall. intros x Hx.
      rewrite forallb_forall in Hsame. specialize (Hsame x Hx).
      apply Nat.eqb_eq in Hsame. congruence. }
    unfold FaissIndexManager.create_index, FaissIndexManager.self_.
    unfold bind, zoom, get, modify, raise.
    cbn [fst snd FaissIndexManager.init FaissIndexManager.embedding_dim
         FaissIndexManager.shape1].
    destruct (Z.eqb_spec (Z.of_nat (List.length r)) 512) as [Heq|Hneq]; [lia|].
    cbn [negb]. eexists. reflexivity.
  - eexists. reflexivity.
Qed.

End Collect.

Lemma process_event_photos_nothing_to_index_witness :
  @OfflineIndexing.process_event_photos Ref.std Ex2.one_photo Ex2.unreadable
    Ex2.no_faces "data/event_photos" "data/embeddings" "full_image" Ex2.extensions
    (Ref.world0 [])
  = (Ok tt, Ref.world0 []).
Proof.
  apply (@process_event_photos_nothing_to_index Ref.std Ex2.one_photo Ex2.unreadable
           Ex2.no_faces "data/event_photos" "data/embeddings" "full_image"
           Ex2.extensions (Ref.world0 [])).
  - reflexivity.
  - right. reflexivity.
Defined.

Lemma process_event_photos_wrong_dimension_witness :
  exists msg,
    @OfflineIndexing.process_event_photos Ref.std Ex2.one_photo Ex2.short_vector
      Ex2.no_faces "data/event_photos" "data/embeddings" "full_image" Ex2.extensions
      (Ref.world0 [])
    = (Raise (ValueError msg), Ref.world0 []).
Proof.
  apply (@process_event_photos_wrong_dimension Ref.std Ex2.one_photo Ex2.short_vector
           Ex2.no_faces "data/event_photos" "data/embeddings" "full_image"
           Ex2.extensions (Ref.world0 [])).
  - reflexivity.
  - vm_compute. discriminate.
  - vm_compute. intros H. inversion H as [|? ? Hlen _]. discriminate Hlen.
Defined.
